(** * LinkFast URL shortener (main.go): shallow embedding and verification

    The Go program keeps two bbolt buckets ([urls]: short code -> JSON
    record, [reverse]: original URL -> short code) behind a go-cache
    instance, and serves two handlers: [shortenHandler] (POST /api/shorten)
    and [redirectHandler] (GET /{shortCode}).

    Go strings are byte strings and are embedded as [string]; the buckets
    and the cache are finite maps keyed by strings.  Library calls whose
    result the program only inspects ([url.Parse], [encoding/json]) are
    section variables; [crypto/md5], [encoding/hex], [fmt.Sprintf "%d"],
    the bbolt transaction discipline and go-cache's expiry are written out. *)

From Stdlib Require Import ZArith List Ascii String Lia.
From Stdlib Require Import DecimalString DecimalPos DecimalZ.
From stdpp Require Import gmap strings list.
Import ListNotations.
Local Open Scope Z_scope.

(** ** Errors and fallible results *)

(** A Go [error] value, identified with the text of its [Error()] method. *)
Inductive error : Type := errors_New (msg : string).

Definition error_Error (e : error) : string :=
  match e with errors_New msg => msg end.

(** The Go idiom [(x, err)]: either a value or a non-nil error. *)
Inductive result (A : Type) : Type :=
| Ok (a : A)
| Err (e : error).
Arguments Ok {A} a.
Arguments Err {A} e.

Definition is_Ok {A : Type} (r : result A) : bool :=
  match r with Ok _ => true | Err _ => false end.

(** ** Bytes and strings *)

(** [int(s[i])]: the byte at position [i] of a Go string, as an integer. *)
Definition byte_at (s : string) (i : nat) : Z :=
  match String.get i s with
  | Some a => Z.of_N (N_of_ascii a)
  | None => 0
  end.

(** [s[i]] as a character, for constant strings indexed in range. *)
Definition char_at (s : string) (i : Z) : ascii :=
  match String.get (Z.to_nat i) s with
  | Some a => a
  | None => "000"%char
  end.

Definition bytes_of_string (s : string) : list Z :=
  map (fun a => Z.of_N (N_of_ascii a)) (list_ascii_of_string s).

(** [strings.HasPrefix(s, prefix)]. *)
Definition strings_HasPrefix (s prefix : string) : bool := String.prefix prefix s.

(** [fmt.Sprintf("%d", n)] for an integer [n]. *)
Definition fmt_Sprintf_d (n : Z) : string := NilZero.string_of_int (Z.to_int n).

(** Go's [int] on the 64-bit targets the service is built for. *)
Definition wrap_int (z : Z) : Z :=
  (z + 9223372036854775808) mod 18446744073709551616 - 9223372036854775808.

(** ** crypto/md5 (RFC 1321) *)

Module md5.

Definition mask32 : Z := 4294967295.
Definition add32 (a b : Z) : Z := Z.land (a + b) mask32.
Definition rotl32 (x : Z) (s : Z) : Z :=
  Z.lor (Z.land (Z.shiftl x s) mask32) (Z.shiftr x (32 - s)).
Definition not32 (x : Z) : Z := Z.lxor x mask32.

Definition table : list Z :=
  [ 0xd76aa478; 0xe8c7b756; 0x242070db; 0xc1bdceee; 0xf57c0faf; 0x4787c62a; 0xa8304613; 0xfd469501;
    0x698098d8; 0x8b44f7af; 0xffff5bb1; 0x895cd7be; 0x6b901122; 0xfd987193; 0xa679438e; 0x49b40821;
    0xf61e2562; 0xc040b340; 0x265e5a51; 0xe9b6c7aa; 0xd62f105d; 0x02441453; 0xd8a1e681; 0xe7d3fbc8;
    0x21e1cde6; 0xc33707d6; 0xf4d50d87; 0x455a14ed; 0xa9e3e905; 0xfcefa3f8; 0x676f02d9; 0x8d2a4c8a;
    0xfffa3942; 0x8771f681; 0x6d9d6122; 0xfde5380c; 0xa4beea44; 0x4bdecfa9; 0xf6bb4b60; 0xbebfbc70;
    0x289b7ec6; 0xeaa127fa; 0xd4ef3085; 0x04881d05; 0xd9d4d039; 0xe6db99e5; 0x1fa27cf8; 0xc4ac5665;
    0xf4292244; 0x432aff97; 0xab9423a7; 0xfc93a039; 0x655b59c3; 0x8f0ccc92; 0xffeff47d; 0x85845dd1;
    0x6fa87e4f; 0xfe2ce6e0; 0xa3014314; 0x4e0811a1; 0xf7537e82; 0xbd3af235; 0x2ad7d2bb; 0xeb86d391 ].

Definition shifts : list Z :=
  [ 7; 12; 17; 22; 7; 12; 17; 22; 7; 12; 17; 22; 7; 12; 17; 22;
    5; 9; 14; 20; 5; 9; 14; 20; 5; 9; 14; 20; 5; 9; 14; 20;
    4; 11; 16; 23; 4; 11; 16; 23; 4; 11; 16; 23; 4; 11; 16; 23;
    6; 10; 15; 21; 6; 10; 15; 21; 6; 10; 15; 21; 6; 10; 15; 21 ].

Definition round_fn (i : nat) (b c d : Z) : Z :=
  if (i <? 16)%nat then Z.lor (Z.land b c) (Z.land (not32 b) d)
  else if (i <? 32)%nat then Z.lor (Z.land d b) (Z.land (not32 d) c)
  else if (i <? 48)%nat then Z.lxor (Z.lxor b c) d
  else Z.lxor c (Z.lor b (not32 d)).

Definition word_index (i : nat) : nat :=
  if (i <? 16)%nat then i
  else if (i <? 32)%nat then (5 * i + 1) mod 16
  else if (i <? 48)%nat then (3 * i + 5) mod 16
  else (7 * i) mod 16.

Definition state : Type := Z * Z * Z * Z.

Definition step (m : list Z) (st : state) (i : nat) : state :=
  let '(a, b, c, d) := st in
  let f := round_fn i b c d in
  let x := add32 (add32 (add32 a f) (nth i table 0)) (nth (word_index i) m 0) in
  (d, add32 b (rotl32 x (nth i shifts 0)), b, c).

Definition le_word (bs : list Z) : Z :=
  fold_right (fun b acc => b + 256 * acc) 0 bs.

Fixpoint words (n : nat) (bs : list Z) : list Z :=
  match n with
  | O => []
  | S n' => le_word (firstn 4 bs) :: words n' (skipn 4 bs)
  end.

Definition block (st : state) (bs : list Z) : state :=
  let m := words 16 bs in
  let '(a, b, c, d) := st in
  let '(a', b', c', d') := fold_left (step m) (seq 0 64) st in
  (add32 a a', add32 b b', add32 c c', add32 d d').

Fixpoint blocks (n : nat) (st : state) (bs : list Z) : state :=
  match n with
  | O => st
  | S n' => blocks n' (block st (firstn 64 bs)) (skipn 64 bs)
  end.

Definition le_bytes (n : nat) (x : Z) : list Z :=
  map (fun i => Z.land (Z.shiftr x (8 * Z.of_nat i)) 255) (seq 0 n).

Definition pad (msg : list Z) : list Z :=
  let len := Z.of_nat (length msg) in
  let zeros := Z.to_nat ((55 - len) mod 64) in
  msg ++ 128 :: repeat 0 zeros ++ le_bytes 8 (Z.land (8 * len) 18446744073709551615).

Definition init : state := (0x67452301, 0xefcdab89, 0x98badcfe, 0x10325476).

(** [hasher := md5.New(); hasher.Write(msg); hasher.Sum(nil)]. *)
Definition Sum (msg : list Z) : list Z :=
  let p := pad msg in
  let '(a, b, c, d) := blocks (length p / 64) init p in
  le_bytes 4 a ++ le_bytes 4 b ++ le_bytes 4 c ++ le_bytes 4 d.

End md5.

(** ** encoding/hex *)

Definition hextable : string := "0123456789abcdef".

(** [hex.EncodeToString]: two lowercase digits per byte, high nibble first. *)
Fixpoint hex_EncodeToString (src : list Z) : string :=
  match src with
  | [] => EmptyString
  | v :: rest =>
      String (char_at hextable (Z.shiftr v 4))
        (String (char_at hextable (Z.land v 15)) (hex_EncodeToString rest))
  end.

(** ** The data model of main.go *)

(** [type URL struct]; [CreatedAt] is the instant in Unix nanoseconds. *)
Record URL : Type := mkURL {
  ID : Z;
  OriginalURL : string;
  ShortCode : string;
  CreatedAt : Z;
  ClickCount : Z
}.

Definition set_ClickCount (n : Z) (u : URL) : URL :=
  {| ID := ID u; OriginalURL := OriginalURL u; ShortCode := ShortCode u;
     CreatedAt := CreatedAt u; ClickCount := n |}.

(** [type ShortenResponse struct]. *)
Record ShortenResponse : Type := mkShortenResponse {
  ShortURL : string;
  resp_OriginalURL : string;
  resp_ShortCode : string
}.

(** [type ErrorResponse struct]. *)
Record ErrorResponse : Type := mkErrorResponse { Error : string }.

(** [const base62Chars]. *)
Definition base62Chars : string :=
  "abcdefghijklmnopqrstuvwxyzABCDEFGHIJKLMNOPQRSTUVWXYZ0123456789".

(** ** bbolt: named buckets, transactions *)

(** The content of a database file: bucket name -> (key -> value). *)
Abbreviation Tx := (gmap string (gmap string string)).

(** A [*bolt.DB] handle: whether it is open, and the committed content. *)
Record BoltDB : Type := mkBoltDB {
  opened : bool;
  buckets : Tx
}.

Definition ErrDatabaseNotOpen : error := errors_New "database not open".
Definition ErrKeyRequired : error := errors_New "key required".
Definition ErrKeyTooLarge : error := errors_New "key too large".
Definition MaxKeySize : Z := 32768.

(** [tx.Bucket(name)]: [None] is Go's nil bucket. *)
Definition tx_Bucket (tx : Tx) (name : string) : option (gmap string string) :=
  tx !! name.

(** [tx.CreateBucketIfNotExists(name)] for a non-empty name. *)
Definition tx_CreateBucketIfNotExists (tx : Tx) (name : string) : result Tx :=
  match tx !! name with
  | Some _ => Ok tx
  | None => Ok (<[name := ∅]> tx)
  end.

(** [bucket.Get(key)]: [None] is the nil slice. *)
Definition bucket_Get (bucket : gmap string string) (key : string) : option string :=
  bucket !! key.

(** [bucket.Put(key, value)] on the bucket [name] of a writable
    transaction.  bbolt rejects empty and oversized keys; its 2 GiB limit
    on values is not modelled.  A bucket handle comes from [tx.Bucket] or
    [tx.CreateBucketIfNotExists], so the bucket is there. *)
Definition bucket_Put (tx : Tx) (name key value : string) : result Tx :=
  if (String.length key =? 0)%nat then Err ErrKeyRequired
  else if MaxKeySize <? Z.of_nat (String.length key) then Err ErrKeyTooLarge
  else match tx !! name with
       | Some bucket => Ok (<[name := <[key := value]> bucket]> tx)
       | None => Ok tx
       end.

(** [db.View(fn)]: a read-only transaction.  On an open database it
    returns what [fn] returns. *)
Definition db_View {A : Type} (db : BoltDB) (fn : Tx -> result A) : result A :=
  if opened db then fn (buckets db) else Err ErrDatabaseNotOpen.

(** [db.Update(fn)]: a read-write transaction.  When [fn] fails the
    transaction is rolled back; otherwise it is committed, and the commit
    itself can fail ([commit_err], a disk error), which also leaves the
    content as it was. *)
Definition db_Update (db : BoltDB) (commit_err : option error)
    (fn : Tx -> result Tx) : BoltDB * option error :=
  if opened db then
    match fn (buckets db) with
    | Err e => (db, Some e)
    | Ok tx' =>
        match commit_err with
        | Some e => (db, Some e)
        | None => ({| opened := true; buckets := tx' |}, None)
        end
    end
  else (db, Some ErrDatabaseNotOpen).

(** ** go-cache *)

Record Item : Type := mkItem {
  Object : string;
  Expiration : Z
}.

(** [cache.New(5*time.Minute, 10*time.Minute)]: the default expiration, in
    nanoseconds. *)
Definition defaultExpiration : Z := 5 * 60 * 1000000000.

(** [c.Set(k, x, cache.DefaultExpiration)] at clock reading [now]. *)
Definition cache_Set (k x : string) (now : Z) (c : gmap string Item) : gmap string Item :=
  <[k := {| Object := x; Expiration := now + defaultExpiration |}]> c.

Definition expired (now : Z) (it : Item) : bool :=
  (0 <? Expiration it) && (Expiration it <? now).

(** [c.Get(k)] at clock reading [now]: an expired item is not found. *)
Definition cache_Get (k : string) (now : Z) (c : gmap string Item) : option string :=
  match c !! k with
  | None => None
  | Some it => if expired now it then None else Some (Object it)
  end.

(** [c.DeleteExpired()], run by the janitor every ten minutes. *)
Definition cache_DeleteExpired (now : Z) (c : gmap string Item) : gmap string Item :=
  filter (fun kv => expired now kv.2 = false) c.

(** ** net/http: what a handler hands to its [ResponseWriter] *)

Record Request : Type := mkRequest {
  Method : string;
  Body : string
}.

Inductive JSONBody : Type :=
| EncodeShorten (r : ShortenResponse)
| EncodeError (e : ErrorResponse).

Inductive Response : Type :=
| http_Error (msg : string) (code : Z)
| http_NotFound
| http_Redirect (url : string) (code : Z)
| WriteJSON (status : Z) (body : JSONBody).

Definition StatusOK : Z := 200.
Definition StatusMovedPermanently : Z := 301.
Definition StatusBadRequest : Z := 400.
Definition StatusMethodNotAllowed : Z := 405.
Definition StatusInternalServerError : Z := 500.

(** ** The process state *)

(** [type App struct] with its [DB] and [Cache]; next to them the lines
    written through the [log] package and the click-count goroutines that
    have been started and have not run yet (each is identified by the
    short code it captured). *)
Record App : Type := mkApp {
  DB : BoltDB;
  Cache : gmap string Item;
  Log : list string;
  Goroutines : list string
}.

(** What a call observes from outside the process. *)
Record Env : Type := mkEnv {
  gen_now : nat -> Z;        (* time.Now().UnixNano() at the k-th attempt of generateShortCode *)
  tx_now : Z;                (* time.Now() inside the insert transaction *)
  get_now : Z;               (* the clock Cache.Get reads *)
  set_now : Z;               (* the clock Cache.Set reads *)
  commit_err : option error  (* outcome of committing the read-write transaction *)
}.

(** [url.URL], reduced to the two fields [isValidURL] reads. *)
Record url_URL : Type := mk_url_URL {
  Scheme : string;
  Host : string
}.

Section Handlers.

(** [url.Parse]. *)
Variable url_Parse : string -> result url_URL.
(** [json.Marshal] and [json.Unmarshal] at type [URL]. *)
Variable json_Marshal : URL -> result string.
Variable json_Unmarshal : string -> result URL.
(** [json.NewDecoder(r.Body).Decode(&req)], giving [req.URL]. *)
Variable json_Decode : string -> result string.

(** The first eight characters of the hex digest, each reduced modulo 62
    and looked up in [base62Chars] (the [for] loop of generateShortCode). *)
Definition encodeShortCode (hash : string) : string :=
  fold_left
    (fun shortCode i =>
       if (i <? String.length hash)%nat then
         let charIndex := byte_at hash i mod 62 in
         shortCode +:+ String (char_at base62Chars charIndex) EmptyString
       else shortCode)
    (seq 0 8) EmptyString.

(** The hex digest of [originalURL + fmt.Sprintf("%d", now)]. *)
Definition hashURL (originalURL : string) (now : Z) : string :=
  hex_EncodeToString (md5.Sum (bytes_of_string (originalURL +:+ fmt_Sprintf_d now))).

(** The [db.View] closure of generateShortCode: is [shortCode] a key of
    the [urls] bucket? *)
Definition codeExists (shortCode : string) (tx : Tx) : result bool :=
  match tx_Bucket tx "urls" with
  | Some bucket =>
      match bucket_Get bucket shortCode with
      | Some _ => Ok true
      | None => Ok false
      end
  | None => Ok false
  end.

(** [func (app *App) generateShortCode].  The Go function calls itself
    until the code is free; [fuel] bounds the number of attempts, [None]
    meaning the bound was reached, and [k] counts the attempts made. *)
Fixpoint generateShortCode (fuel : nat) (env : Env) (k : nat) (app : App)
    (originalURL : string) : option (result string) :=
  match fuel with
  | O => None
  | S fuel' =>
      let hash := hashURL originalURL (gen_now env k) in
      let shortCode := encodeShortCode hash in
      match db_View (DB app) (codeExists shortCode) with
      | Err err => Some (Err err)
      | Ok true => generateShortCode fuel' env (S k) app originalURL
      | Ok false => Some (Ok shortCode)
      end
  end.

(** [func isValidURL]. *)
Definition isValidURL (str : string) : bool :=
  match url_Parse str with
  | Ok u => negb (String.eqb (Scheme u) "") && negb (String.eqb (Host u) "")
  | Err _ => false
  end.

(** "add http if missing": the input as it is validated and stored. *)
Definition normalizeURL (reqURL : string) : string :=
  if negb (strings_HasPrefix reqURL "http://") && negb (strings_HasPrefix reqURL "https://")
  then "https://" +:+ reqURL
  else reqURL.

(** The [db.View] closure of the duplicate check: the code recorded for
    [reqURL] in the [reverse] bucket, or the empty string. *)
Definition lookupExisting (reqURL : string) (tx : Tx) : result string :=
  match tx_Bucket tx "reverse" with
  | Some bucket =>
      match bucket_Get bucket reqURL with
      | Some v => Ok v
      | None => Ok EmptyString
      end
  | None => Ok EmptyString
  end.

(** The [db.Update] closure of shortenHandler: the record and the reverse
    entry, written in one transaction. *)
Definition saveURL (reqURL shortCode : string) (now : Z) (tx : Tx) : result Tx :=
  match tx_CreateBucketIfNotExists tx "urls" with
  | Err err => Err err
  | Ok tx1 =>
      let urlData := {| ID := 0; OriginalURL := reqURL; ShortCode := shortCode;
                        CreatedAt := now; ClickCount := 0 |} in
      match json_Marshal urlData with
      | Err err => Err err
      | Ok urlJSON =>
          match bucket_Put tx1 "urls" shortCode urlJSON with
          | Err err => Err err
          | Ok tx2 =>
              match tx_CreateBucketIfNotExists tx2 "reverse" with
              | Err err => Err err
              | Ok tx3 => bucket_Put tx3 "reverse" reqURL shortCode
              end
          end
      end
  end.

Definition log_Printf (line : string) (app : App) : App :=
  {| DB := DB app; Cache := Cache app; Log := Log app ++ [line];
     Goroutines := Goroutines app |}.

Definition set_DB (db : BoltDB) (app : App) : App :=
  {| DB := db; Cache := Cache app; Log := Log app; Goroutines := Goroutines app |}.

Definition set_Cache (c : gmap string Item) (app : App) : App :=
  {| DB := DB app; Cache := c; Log := Log app; Goroutines := Goroutines app |}.

Definition go (shortCode : string) (app : App) : App :=
  {| DB := DB app; Cache := Cache app; Log := Log app;
     Goroutines := Goroutines app ++ [shortCode] |}.

(** The origin both success responses are built from. *)
Definition shortURL_of (shortCode : string) : string :=
  "http://localhost:8080/" +:+ shortCode.

(** [func (app *App) shortenHandler]: the response and the state it leaves;
    [None] when generateShortCode exhausts [fuel]. *)
Definition shortenHandler (fuel : nat) (env : Env) (r : Request) (app : App)
    : option (Response * App) :=
  if negb (String.eqb (Method r) "POST") then
    Some (http_Error "method not allowed" StatusMethodNotAllowed, app)
  else
    match json_Decode (Body r) with
    | Err _ =>
        Some (WriteJSON StatusBadRequest (EncodeError {| Error := "invalid json" |}), app)
    | Ok reqURL =>
        let reqURL := normalizeURL reqURL in
        if negb (isValidURL reqURL) then
          Some (WriteJSON StatusBadRequest
                  (EncodeError {| Error := "invalid url format" |}), app)
        else
          let existingCode :=
            match db_View (DB app) (lookupExisting reqURL) with
            | Ok v => v
            | Err _ => EmptyString
            end in
          if is_Ok (db_View (DB app) (lookupExisting reqURL))
             && negb (String.eqb existingCode "") then
            Some (WriteJSON StatusOK
                    (EncodeShorten {| ShortURL := shortURL_of existingCode;
                                      resp_OriginalURL := reqURL;
                                      resp_ShortCode := existingCode |}), app)
          else
            match generateShortCode fuel env 0 app reqURL with
            | None => None
            | Some (Err err) =>
                Some (WriteJSON StatusInternalServerError
                        (EncodeError {| Error := "server error" |}),
                      log_Printf ("error generating short code: " +:+ error_Error err) app)
            | Some (Ok shortCode) =>
                match db_Update (DB app) (commit_err env)
                        (saveURL reqURL shortCode (tx_now env)) with
                | (_, Some err) =>
                    Some (WriteJSON StatusInternalServerError
                            (EncodeError {| Error := "failed to save url" |}),
                          log_Printf ("database insert error: " +:+ error_Error err) app)
                | (db', None) =>
                    let app' := set_Cache (cache_Set shortCode reqURL (set_now env) (Cache app))
                                  (set_DB db' app) in
                    Some (WriteJSON StatusOK
                            (EncodeShorten {| ShortURL := shortURL_of shortCode;
                                              resp_OriginalURL := reqURL;
                                              resp_ShortCode := shortCode |}), app')
                end
            end
    end.

(** shortenHandler in two parts, for runs in which requests overlap: net/http
    serves every request on a goroutine of its own, and the handler holds
    no lock between its transactions.  [shortenPrepare] is the handler up
    to the generated code (method, body, normalization, validity,
    duplicate check, generateShortCode): it has either answered, or goes
    on to insert [shortCode] for the normalized URL. *)
Definition shortenPrepare (fuel : nat) (env : Env) (r : Request) (app : App)
    : option (Response * App + string * string) :=
  if negb (String.eqb (Method r) "POST") then
    Some (inl (http_Error "method not allowed" StatusMethodNotAllowed, app))
  else
    match json_Decode (Body r) with
    | Err _ =>
        Some (inl (WriteJSON StatusBadRequest (EncodeError {| Error := "invalid json" |}),
                   app))
    | Ok reqURL =>
        let reqURL := normalizeURL reqURL in
        if negb (isValidURL reqURL) then
          Some (inl (WriteJSON StatusBadRequest
                       (EncodeError {| Error := "invalid url format" |}), app))
        else
          let existingCode :=
            match db_View (DB app) (lookupExisting reqURL) with
            | Ok v => v
            | Err _ => EmptyString
            end in
          if is_Ok (db_View (DB app) (lookupExisting reqURL))
             && negb (String.eqb existingCode "") then
            Some (inl (WriteJSON StatusOK
                         (EncodeShorten {| ShortURL := shortURL_of existingCode;
                                           resp_OriginalURL := reqURL;
                                           resp_ShortCode := existingCode |}), app))
          else
            match generateShortCode fuel env 0 app reqURL with
            | None => None
            | Some (Err err) =>
                Some (inl (WriteJSON StatusInternalServerError
                             (EncodeError {| Error := "server error" |}),
                           log_Printf ("error generating short code: " +:+ error_Error err)
                             app))
            | Some (Ok shortCode) => Some (inr (reqURL, shortCode))
            end
    end.

(** The rest of the handler: the insert transaction, the cache entry and
    the response, on the state the process is in by then. *)
Definition shortenInsert (env : Env) (reqURL shortCode : string) (app : App)
    : Response * App :=
  match db_Update (DB app) (commit_err env) (saveURL reqURL shortCode (tx_now env)) with
  | (_, Some err) =>
      (WriteJSON StatusInternalServerError
         (EncodeError {| Error := "failed to save url" |}),
       log_Printf ("database insert error: " +:+ error_Error err) app)
  | (db', None) =>
      (WriteJSON StatusOK
         (EncodeShorten {| ShortURL := shortURL_of shortCode;
                           resp_OriginalURL := reqURL;
                           resp_ShortCode := shortCode |}),
       set_Cache (cache_Set shortCode reqURL (set_now env) (Cache app)) (set_DB db' app))
  end.

(** The [db.Update] closure of both click-count goroutines.  It always
    returns nil: a record that is missing or does not unmarshal, a marshal
    error and the error of [bucket.Put] all leave the transaction as it is. *)
Definition incrementClicks (shortCode : string) (tx : Tx) : result Tx :=
  match tx_Bucket tx "urls" with
  | Some bucket =>
      match bucket_Get bucket shortCode with
      | Some v =>
          match json_Unmarshal v with
          | Ok urlData =>
              let urlData := set_ClickCount (wrap_int (ClickCount urlData + 1)) urlData in
              match json_Marshal urlData with
              | Ok updatedJSON =>
                  match bucket_Put tx "urls" shortCode updatedJSON with
                  | Ok tx' => Ok tx'
                  | Err _ => Ok tx
                  end
              | Err _ => Ok tx
              end
          | Err _ => Ok tx
          end
      | None => Ok tx
      end
  | None => Ok tx
  end.

(** The body of [go func() { app.DB.Update(...) }()]: the error that
    [Update] returns is dropped. *)
Definition clickGoroutine (commit_err : option error) (shortCode : string) (app : App) : App :=
  set_DB (fst (db_Update (DB app) commit_err (incrementClicks shortCode))) app.

(** The [db.View] closure of redirectHandler: the stored original URL, or
    the empty string. *)
Definition lookupOriginal (shortCode : string) (tx : Tx) : result string :=
  match tx_Bucket tx "urls" with
  | Some bucket =>
      match bucket_Get bucket shortCode with
      | Some v =>
          match json_Unmarshal v with
          | Ok urlData => Ok (OriginalURL urlData)
          | Err _ => Ok EmptyString
          end
      | None => Ok EmptyString
      end
  | None => Ok EmptyString
  end.

(** [func (app *App) redirectHandler], [shortCode] being
    [mux.Vars(r)["shortCode"]]. *)
Definition redirectHandler (env : Env) (shortCode : string) (app : App) : Response * App :=
  if String.eqb shortCode "" then (http_NotFound, app)
  else
    match cache_Get shortCode (get_now env) (Cache app) with
    | Some originalURL =>
        (http_Redirect originalURL StatusMovedPermanently, go shortCode app)
    | None =>
        match db_View (DB app) (lookupOriginal shortCode) with
        | Err _ => (http_NotFound, app)
        | Ok originalURL =>
            if String.eqb originalURL "" then (http_NotFound, app)
            else
              let app' := set_Cache (cache_Set shortCode originalURL (set_now env) (Cache app))
                            app in
              (http_Redirect originalURL StatusMovedPermanently, go shortCode app')
        end
    end.

(** [func setupDatabase]. *)
Definition setupDatabase (commit_err : option error) (db : BoltDB) : BoltDB * option error :=
  db_Update db commit_err
    (fun tx =>
       match tx_CreateBucketIfNotExists tx "urls" with
       | Err err => Err err
       | Ok tx1 => tx_CreateBucketIfNotExists tx1 "reverse"
       end).

(** [port := os.Getenv("PORT"); if port == "" { port = "8080" }]. *)
Definition main_port (PORT : string) : string :=
  if String.eqb PORT "" then "8080" else PORT.

(** The origin [main] announces for the configured port:
    ["visit http://localhost:%s to use the url shortener"]. *)
Definition main_origin (PORT : string) : string :=
  "http://localhost:" +:+ main_port PORT.

(** The state [main] serves from, given the environment variable PORT and
    the content of [urls.db] found at start-up ([None] when
    [setupDatabase] fails and [log.Fatal] exits). *)
Definition main_app (PORT : string) (file : Tx) : option App :=
  match setupDatabase None {| opened := true; buckets := file |} with
  | (db, None) =>
      Some {| DB := db; Cache := ∅;
              Log := [ "server starting on port " +:+ main_port PORT;
                       "visit " +:+ main_origin PORT +:+ " to use the url shortener" ];
              Goroutines := [] |}
  | (_, Some _) => None
  end.

(** ** Executions *)

Definition set_Goroutines (gs : list string) (app : App) : App :=
  {| DB := DB app; Cache := Cache app; Log := Log app; Goroutines := gs |}.

(** The scheduler runs the [i]-th started goroutine to its end; it is gone
    afterwards, whatever its transaction did. *)
Definition run_goroutine (commit_err : option error) (i : nat) (app : App) : App :=
  match Goroutines app !! i with
  | Some shortCode =>
      set_Goroutines (delete i (Goroutines app)) (clickGoroutine commit_err shortCode app)
  | None => app
  end.

(** All started goroutines run to their end, oldest first. *)
Definition settle (commit_err : option error) (app : App) : App :=
  set_Goroutines []
    (fold_left (fun a shortCode => clickGoroutine commit_err shortCode a)
       (Goroutines app) app).

(** What can happen to a process whose requests do not overlap: a request
    is served from its first line to its last, a started goroutine runs,
    the cache janitor runs, or the process is restarted on the database
    file it left.  Two handler calls whose transactions interleave are
    not a [step]; [shortenPrepare] and [shortenInsert] describe those. *)
Inductive step : App -> App -> Prop :=
| step_shorten fuel env r resp app app' :
    shortenHandler fuel env r app = Some (resp, app') -> step app app'
| step_redirect env shortCode app :
    step app (snd (redirectHandler env shortCode app))
| step_goroutine commit_err i app :
    step app (run_goroutine commit_err i app)
| step_janitor now app :
    step app (set_Cache (cache_DeleteExpired now (Cache app)) app)
| step_restart PORT app app' :
    main_app PORT (buckets (DB app)) = Some app' -> step app app'.

(** The states of a process started on a fresh database file and serving
    its requests one at a time. *)
Inductive reachable : App -> Prop :=
| reachable_main PORT app : main_app PORT ∅ = Some app -> reachable app
| reachable_step app app' : reachable app -> step app app' -> reachable app'.

(** The entries of a named bucket, a missing bucket holding nothing. *)
Definition bucket_of (tx : Tx) (name : string) : gmap string string :=
  default ∅ (tx !! name).

Definition urls_bucket (app : App) : gmap string string :=
  bucket_of (buckets (DB app)) "urls".

Definition reverse_bucket (app : App) : gmap string string :=
  bucket_of (buckets (DB app)) "reverse".

(** The record a bucket holds under [shortCode], when there is one that
    unmarshals. *)
Definition record_in (urls : gmap string string) (shortCode : string) : option URL :=
  match urls !! shortCode with
  | Some v =>
      match json_Unmarshal v with
      | Ok urlData => Some urlData
      | Err _ => None
      end
  | None => None
  end.

Definition record_at (app : App) (shortCode : string) : option URL :=
  record_in (urls_bucket app) shortCode.

(** A key bbolt accepts. *)
Definition valid_key (k : string) : Prop :=
  k <> EmptyString /\ Z.of_nat (String.length k) <= MaxKeySize.

(** Records, reverse index and cache agree: every entry of [urls] is a
    record filed under its own code whose URL the reverse index sends back
    to that code; every reverse entry has its record; every cached URL is
    the URL of the record under that code. *)
Definition agree (urls reverse : gmap string string) (cache : gmap string Item) : Prop :=
  (forall c v, urls !! c = Some v ->
     exists u, json_Unmarshal v = Ok u /\ ShortCode u = c
               /\ reverse !! OriginalURL u = Some c /\ valid_key c)
  /\ (forall url c, reverse !! url = Some c ->
        exists u, record_in urls c = Some u /\ OriginalURL u = url /\ valid_key url)
  /\ (forall c it, cache !! c = Some it ->
        exists u, record_in urls c = Some u /\ OriginalURL u = Object it).

Definition consistent (app : App) : Prop :=
  agree (urls_bucket app) (reverse_bucket app) (Cache app).

(** [N] resolves of [shortCode] one after the other, each one's goroutine
    finishing before the next request; [envs] gives what each sees. *)
Fixpoint resolve_each (envs : list Env) (shortCode : string) (app : App) : App :=
  match envs with
  | [] => app
  | env :: envs' =>
      resolve_each envs' shortCode
        (settle (commit_err env) (snd (redirectHandler env shortCode app)))
  end.

(** The same requests with no goroutine scheduled in between: each
    request is served as soon as the one before has been answered. *)
Definition resolve_all (envs : list Env) (shortCode : string) (app : App) : App :=
  fold_left (fun a env => snd (redirectHandler env shortCode a)) envs app.

End Handlers.

(** ** Reference instances of the library calls

    Executable stand-ins used to run the handlers on concrete requests.
    [Ref.url_Parse] follows net/url on URLs of the shape
    [scheme://host/path] written with unreserved characters and reports
    every other input as an error; [Ref.json_Marshal] writes the record as
    one JSON object with [created_at] as a number. *)

Module Ref.

Definition quote : string := String "034"%char EmptyString.

Definition is_alpha (a : ascii) : bool :=
  let n := nat_of_ascii a in
  ((97 <=? n) && (n <=? 122) || (65 <=? n) && (n <=? 90))%nat.

Definition is_digit (a : ascii) : bool :=
  let n := nat_of_ascii a in ((48 <=? n) && (n <=? 57))%nat.

Definition is_unreserved (a : ascii) : bool :=
  is_alpha a || is_digit a
  || Ascii.eqb a "-" || Ascii.eqb a "." || Ascii.eqb a "_" || Ascii.eqb a "~".

Definition to_lower (a : ascii) : ascii :=
  let n := nat_of_ascii a in
  if ((65 <=? n) && (n <=? 90))%nat then ascii_of_nat (n + 32) else a.

Fixpoint strings_ToLower (s : string) : string :=
  match s with
  | EmptyString => EmptyString
  | String c rest => String (to_lower c) (strings_ToLower rest)
  end.

(** [getScheme] of net/url: the scheme and what follows the colon. *)
Fixpoint getScheme (i : nat) (acc rawURL whole : string) : result (string * string) :=
  match rawURL with
  | EmptyString => Ok (EmptyString, whole)
  | String c rest =>
      if is_alpha c then getScheme (S i) (acc +:+ String c EmptyString) rest whole
      else if is_digit c || Ascii.eqb c "+" || Ascii.eqb c "-" || Ascii.eqb c "." then
        match i with
        | O => Ok (EmptyString, whole)
        | S _ => getScheme (S i) (acc +:+ String c EmptyString) rest whole
        end
      else if Ascii.eqb c ":" then
        match i with
        | O => Err (errors_New "missing protocol scheme")
        | S _ => Ok (acc, rest)
        end
      else Ok (EmptyString, whole)
  end.

(** The text up to the first [/], and the rest. *)
Fixpoint cut_slash (s : string) : string * string :=
  match s with
  | EmptyString => (EmptyString, EmptyString)
  | String c rest =>
      if Ascii.eqb c "/" then (EmptyString, s)
      else let '(h, t) := cut_slash rest in (String c h, t)
  end.

Fixpoint all_chars (p : ascii -> bool) (s : string) : bool :=
  match s with
  | EmptyString => true
  | String c rest => p c && all_chars p rest
  end.

Definition url_Parse (rawURL : string) : result url_URL :=
  match getScheme 0 EmptyString rawURL rawURL with
  | Err e => Err e
  | Ok (scheme, rest) =>
      match rest with
      | String "/" (String "/" authority) =>
          let '(host, path) := cut_slash authority in
          if all_chars is_unreserved host
             && all_chars (fun c => is_unreserved c || Ascii.eqb c "/") path
          then Ok {| Scheme := strings_ToLower scheme; Host := host |}
          else Err (errors_New "outside the modelled fragment")
      | _ => Err (errors_New "outside the modelled fragment")
      end
  end.

(** Strip the literal [lit] from the front of [s]. *)
Fixpoint expect (lit s : string) : option string :=
  match lit with
  | EmptyString => Some s
  | String c lit' =>
      match s with
      | String d s' => if Ascii.eqb c d then expect lit' s' else None
      | EmptyString => None
      end
  end.

(** A JSON string body: the quote and the backslash are escaped. *)
Fixpoint escape (s : string) : string :=
  match s with
  | EmptyString => EmptyString
  | String c rest =>
      if Ascii.eqb c "034" || Ascii.eqb c "\"
      then String "\" (String c (escape rest))
      else String c (escape rest)
  end.

(** Read a string body up to its closing quote. *)
Fixpoint read_string (s : string) : option (string * string) :=
  match s with
  | EmptyString => None
  | String c rest =>
      if Ascii.eqb c "034" then Some (EmptyString, rest)
      else if Ascii.eqb c "\" then
        match rest with
        | String d rest' =>
            match read_string rest' with
            | Some (t, r) => Some (String d t, r)
            | None => None
            end
        | EmptyString => None
        end
      else
        match read_string rest with
        | Some (t, r) => Some (String c t, r)
        | None => None
        end
  end.

Definition is_numeral (a : ascii) : bool := is_digit a || Ascii.eqb a "-".

(** The longest prefix of numeral characters, and the rest. *)
Fixpoint span_numeral (s : string) : string * string :=
  match s with
  | EmptyString => (EmptyString, EmptyString)
  | String c rest =>
      if is_numeral c then let '(h, t) := span_numeral rest in (String c h, t)
      else (EmptyString, s)
  end.

Definition read_int (s : string) : option (Z * string) :=
  let '(h, t) := span_numeral s in
  match NilZero.int_of_string h with
  | Some d => Some (Z.of_int d, t)
  | None => None
  end.

Definition key (name : string) : string := quote +:+ name +:+ quote +:+ ":".

(** The text between the fields of a marshalled record. *)
Definition lit_id : string := "{" +:+ key "id".
Definition lit_original_url : string := "," +:+ key "original_url" +:+ quote.
Definition lit_short_code : string := "," +:+ key "short_code" +:+ quote.
Definition lit_created_at : string := "," +:+ key "created_at".
Definition lit_click_count : string := "," +:+ key "click_count".

Definition json_Marshal (u : URL) : result string :=
  Ok (lit_id +:+ fmt_Sprintf_d (ID u)
      +:+ lit_original_url +:+ escape (OriginalURL u) +:+ quote
      +:+ lit_short_code +:+ escape (ShortCode u) +:+ quote
      +:+ lit_created_at +:+ fmt_Sprintf_d (CreatedAt u)
      +:+ lit_click_count +:+ fmt_Sprintf_d (ClickCount u) +:+ "}").

Definition bad_json : error := errors_New "invalid character".

Definition json_Unmarshal (v : string) : result URL :=
  match
    s ← expect lit_id v;
    '(id, s) ← read_int s;
    s ← expect lit_original_url s;
    '(original, s) ← read_string s;
    s ← expect lit_short_code s;
    '(code, s) ← read_string s;
    s ← expect lit_created_at s;
    '(created, s) ← read_int s;
    s ← expect lit_click_count s;
    '(clicks, s) ← read_int s;
    s ← expect "}" s;
    if String.eqb s "" then
      Some {| ID := id; OriginalURL := original; ShortCode := code;
              CreatedAt := created; ClickCount := clicks |}
    else None
  with
  | Some u => Ok u
  | None => Err bad_json
  end.

(** The request body [{"url":"..."}]. *)
Definition lit_url : string := "{" +:+ key "url" +:+ quote.

Definition json_Decode (body : string) : result string :=
  match
    s ← expect lit_url body;
    '(url, s) ← read_string s;
    s ← expect "}" s;
    if String.eqb s "" then Some url else None
  with
  | Some url => Ok url
  | None => Err bad_json
  end.

Definition body_of (url : string) : string :=
  lit_url +:+ escape url +:+ quote +:+ "}".

Definition POST (url : string) : Request :=
  {| Method := "POST"; Body := body_of url |}.

(** A clock that stands at [now] and a disk that does not fail. *)
Definition env_at (now : Z) : Env :=
  {| gen_now := fun _ => now; tx_now := now; get_now := now; set_now := now;
     commit_err := None |}.

Definition shorten := shortenHandler url_Parse json_Marshal json_Decode.
Definition redirect := redirectHandler json_Unmarshal.

(** The state [main] starts from on a fresh database file, PORT unset. *)
Definition app0 : App :=
  {| DB := {| opened := true; buckets := {[ "urls" := ∅; "reverse" := ∅ ]} |};
     Cache := ∅;
     Log := [ "server starting on port 8080";
              "visit http://localhost:8080 to use the url shortener" ];
     Goroutines := [] |}.

(** The same with PORT=9090. *)
Definition app0_9090 : App :=
  {| DB := DB app0; Cache := ∅;
     Log := [ "server starting on port 9090";
              "visit http://localhost:9090 to use the url shortener" ];
     Goroutines := [] |}.

Definition t0 : Z := 1700000000000000000.

(** [app0] after POST /api/shorten with ["example.com/a"] at time [t0]. *)
Definition app1 : App :=
  match shorten 1 (env_at t0) (POST "example.com/a") app0 with
  | Some (_, app) => app
  | None => app0
  end.

(** The code generated for ["https://example.com/a"] at [t0]. *)
Definition code1 : string := "355Y0JM0".

(** The record [app1] holds under [code1], and its stored form. *)
Definition url1 : URL :=
  {| ID := 0; OriginalURL := "https://example.com/a"; ShortCode := code1;
     CreatedAt := t0; ClickCount := 0 |}.

Definition json1 : string :=
  match json_Marshal url1 with
  | Ok v => v
  | Err _ => EmptyString
  end.

(** [app1] after GET /355Y0JM0 a nanosecond later: the click-count
    goroutine has been started and has not run. *)
Definition app2 : App := snd (redirect (env_at (t0 + 1)) code1 app1).

(** The same clock, with a disk that fails the commit. *)
Definition disk_error : error := errors_New "write urls.db: input/output error".

Definition env_disk_error (now : Z) : Env :=
  {| gen_now := fun _ => now; tx_now := now; get_now := now; set_now := now;
     commit_err := Some disk_error |}.

(** A clock that advances by one nanosecond per attempt. *)
Definition env_ticking (now : Z) : Env :=
  {| gen_now := fun k => now + Z.of_nat k; tx_now := now; get_now := now;
     set_now := now; commit_err := None |}.

(** [app2] after its goroutine has run and committed. *)
Definition app3 : App := run_goroutine json_Marshal json_Unmarshal None 0 app2.




(** [app1] with the database handle closed. *)
Definition app1_closed : App :=
  set_DB {| opened := false; buckets := buckets (DB app1) |} app1.

(** A URL of 33012 bytes. *)
Definition long_url : string :=
  "example.com/" +:+ Pos.iter (String "a") EmptyString 33000.

End Ref.

(** ** Vocabulary of the statements *)

(** The symbol generateShortCode emits for the hex digit of value [n]:
    the ASCII code of the digit, modulo 62, indexes [base62Chars]. *)
Definition symbol_of_nibble (n : Z) : ascii :=
  char_at base62Chars (Z.of_N (N_of_ascii (char_at hextable n)) mod 62).

(** The sixteen symbols a hex digit can be mapped to. *)
Definition generated_alphabet : list ascii :=
  [ "W"; "X"; "Y"; "Z"; "0"; "1"; "2"; "3"; "4"; "5";
    "J"; "K"; "L"; "M"; "N"; "O" ]%char.

(** The code of a digest as the running text of the specification words
    it: each of the first eight bytes of the hash, modulo 62. *)
Definition spec_encodeShortCode (digest : list Z) : string :=
  string_of_list_ascii
    (map (fun b => char_at base62Chars (b mod 62)) (firstn 8 digest)).

(** The code the [k]-th attempt of generateShortCode computes. *)
Definition attempt_code (env : Env) (k : nat) (originalURL : string) : string :=
  encodeShortCode (hashURL originalURL (gen_now env k)).

(** The payload of a successful create response. *)
Definition shortened (resp : Response) : option ShortenResponse :=
  match resp with
  | WriteJSON _ (EncodeShorten sr) => Some sr
  | _ => None
  end.

(** The target of a redirect response. *)
Definition redirected (resp : Response) : option string :=
  match resp with
  | http_Redirect url _ => Some url
  | _ => None
  end.

(** The state a successful insert of [shortCode] for [reqURL] leaves. *)
Definition created_app (env : Env) (reqURL shortCode : string) (tx' : Tx) (app : App) : App :=
  set_Cache (cache_Set shortCode reqURL (set_now env) (Cache app))
    (set_DB {| opened := true; buckets := tx' |} app).

Definition created_response (reqURL shortCode : string) : Response :=
  WriteJSON StatusOK
    (EncodeShorten {| ShortURL := shortURL_of shortCode;
                      resp_OriginalURL := reqURL;
                      resp_ShortCode := shortCode |}).

(** The pattern of the redirect route, ["/{shortCode:[a-zA-Z0-9]{8}}"]:
    exactly eight letters or digits. *)
Definition route_char (a : ascii) : bool :=
  let n := nat_of_ascii a in
  ((97 <=? n) && (n <=? 122) || (65 <=? n) && (n <=? 90) || (48 <=? n) && (n <=? 57))%nat.

Definition matches_shortCode_route (shortCode : string) : bool :=
  (String.length shortCode =? 8)%nat
  && forallb route_char (list_ascii_of_string shortCode).

(** * Properties *)

Section Correctness.

Variable url_Parse : string -> result url_URL.
Variable json_Marshal : URL -> result string.
Variable json_Unmarshal : string -> result URL.
Variable json_Decode : string -> result string.

(** What the program relies on from encoding/json: a marshalled record
    unmarshals to itself, and whether a record marshals does not depend on
    its click count. *)
Hypothesis json_roundtrip :
  forall u v, json_Marshal u = Ok v -> json_Unmarshal v = Ok u.
Hypothesis json_Marshal_ClickCount :
  forall u n, is_Ok (json_Marshal u) = true ->
              is_Ok (json_Marshal (set_ClickCount n u)) = true.

Local Abbreviation shorten := (shortenHandler url_Parse json_Marshal json_Decode).
Local Abbreviation redirect := (redirectHandler json_Unmarshal).
Local Abbreviation goroutine := (clickGoroutine json_Marshal json_Unmarshal).
Local Abbreviation run := (run_goroutine json_Marshal json_Unmarshal).
Local Abbreviation valid := (isValidURL url_Parse).
Local Abbreviation record := (record_at json_Unmarshal).
Local Abbreviation ok := (consistent json_Unmarshal).
Local Abbreviation agrees := (agree json_Unmarshal).
Local Abbreviation record_of := (record_in json_Unmarshal).
Local Abbreviation reach := (reachable url_Parse json_Marshal json_Unmarshal json_Decode).

(** ** The digest and its hex form *)

Lemma le_bytes_length n x : length (md5.le_bytes n x) = n.
Proof. unfold md5.le_bytes. by rewrite length_map, length_seq. Qed.

Lemma le_bytes_range n x : Forall (fun b => 0 <= b < 256) (md5.le_bytes n x).
Proof.
  unfold md5.le_bytes. apply Forall_map, Forall_forall. intros i _. simpl.
  change 255 with (Z.ones 8). rewrite Z.land_ones by lia.
  apply Z.mod_pos_bound. lia.
Qed.

Lemma Sum_length msg : length (md5.Sum msg) = 16%nat.
Proof.
  unfold md5.Sum. destruct (md5.blocks _ _ _) as [[[a b] c] d].
  by rewrite !length_app, !le_bytes_length.
Qed.

Lemma Sum_range msg : Forall (fun b => 0 <= b < 256) (md5.Sum msg).
Proof.
  unfold md5.Sum. destruct (md5.blocks _ _ _) as [[[a b] c] d].
  rewrite !Forall_app. repeat split; apply le_bytes_range.
Qed.

(** A digest starts with four bytes. *)
Lemma Sum_head msg :
  exists b0 b1 b2 b3 rest,
    md5.Sum msg = b0 :: b1 :: b2 :: b3 :: rest
    /\ (0 <= b0 < 256) /\ (0 <= b1 < 256) /\ (0 <= b2 < 256) /\ (0 <= b3 < 256).
Proof.
  pose proof (Sum_length msg) as Hlen. pose proof (Sum_range msg) as Hr.
  destruct (md5.Sum msg) as [|b0 [|b1 [|b2 [|b3 rest]]]]; simpl in Hlen; try lia.
  exists b0, b1, b2, b3, rest.
  inversion Hr as [|? ? H0 Hr1]; subst. inversion Hr1 as [|? ? H1 Hr2]; subst.
  inversion Hr2 as [|? ? H2 Hr3]; subst. inversion Hr3 as [|? ? H3 Hr4]; subst.
  tauto.
Qed.

Lemma hi_nibble_range b : 0 <= b < 256 -> 0 <= Z.shiftr b 4 < 16.
Proof.
  intros Hb. rewrite Z.shiftr_div_pow2 by lia. change (2 ^ 4) with 16.
  split; [apply Z.div_pos; lia | apply Z.div_lt_upper_bound; lia].
Qed.

Lemma lo_nibble_range b : 0 <= Z.land b 15 < 16.
Proof.
  change 15 with (Z.ones 4). rewrite Z.land_ones by lia.
  apply Z.mod_pos_bound. lia.
Qed.

(** A property checked on the sixteen nibbles holds of every nibble. *)
Lemma nibble_forall (P : Z -> bool) :
  forallb P (map Z.of_nat (seq 0 16)) = true ->
  forall n, 0 <= n < 16 -> P n = true.
Proof.
  intros Hall n Hn. rewrite forallb_forall in Hall. apply Hall.
  apply in_map_iff. exists (Z.to_nat n). split; [lia |]. apply in_seq. lia.
Qed.

(** Every hex digit is mapped into the sixteen-symbol set. *)
Lemma symbol_of_nibble_generated n :
  0 <= n < 16 -> In (symbol_of_nibble n) generated_alphabet.
Proof.
  intros Hn.
  pose proof (nibble_forall
                (fun m => existsb (Ascii.eqb (symbol_of_nibble m)) generated_alphabet)
                eq_refl n Hn) as Hex.
  apply existsb_exists in Hex as (a & Ha & Heq).
  apply Ascii.eqb_eq in Heq. by rewrite Heq.
Qed.

(** ... and so into [base62Chars]. *)
Lemma generated_alphabet_base62 a :
  In a generated_alphabet -> In a (list_ascii_of_string base62Chars).
Proof.
  intros Ha. unfold generated_alphabet in Ha. simpl in Ha.
  repeat (destruct Ha as [<- | Ha]; [vm_compute; tauto |]). destruct Ha.
Qed.

(** The loop of generateShortCode on a hash of at least eight characters
    reads exactly those eight. *)
Lemma encodeShortCode_chars c0 c1 c2 c3 c4 c5 c6 c7 rest :
  let sym c := char_at base62Chars (Z.of_N (N_of_ascii c) mod 62) in
  encodeShortCode
    (String c0 (String c1 (String c2 (String c3
      (String c4 (String c5 (String c6 (String c7 rest))))))))
  = String (sym c0) (String (sym c1) (String (sym c2) (String (sym c3)
      (String (sym c4) (String (sym c5) (String (sym c6) (String (sym c7)
        EmptyString))))))).
Proof. reflexivity. Qed.

(** On the hex form of a digest the code is determined by the eight
    nibbles of the first four bytes. *)
Lemma encodeShortCode_hex b0 b1 b2 b3 rest :
  encodeShortCode (hex_EncodeToString (b0 :: b1 :: b2 :: b3 :: rest))
  = String (symbol_of_nibble (Z.shiftr b0 4)) (String (symbol_of_nibble (Z.land b0 15))
     (String (symbol_of_nibble (Z.shiftr b1 4)) (String (symbol_of_nibble (Z.land b1 15))
     (String (symbol_of_nibble (Z.shiftr b2 4)) (String (symbol_of_nibble (Z.land b2 15))
     (String (symbol_of_nibble (Z.shiftr b3 4)) (String (symbol_of_nibble (Z.land b3 15))
        EmptyString))))))).
Proof.
  change (hex_EncodeToString (b0 :: b1 :: b2 :: b3 :: rest)) with
    (String (char_at hextable (Z.shiftr b0 4)) (String (char_at hextable (Z.land b0 15))
     (String (char_at hextable (Z.shiftr b1 4)) (String (char_at hextable (Z.land b1 15))
     (String (char_at hextable (Z.shiftr b2 4)) (String (char_at hextable (Z.land b2 15))
     (String (char_at hextable (Z.shiftr b3 4)) (String (char_at hextable (Z.land b3 15))
        (hex_EncodeToString rest))))))))).
  apply encodeShortCode_chars.
Qed.

(** Shape of every code an attempt computes: eight symbols, all from the
    sixteen-symbol set. *)
Lemma attempt_code_shape env k originalURL :
  String.length (attempt_code env k originalURL) = 8%nat
  /\ Forall (fun a => In a generated_alphabet)
       (list_ascii_of_string (attempt_code env k originalURL)).
Proof.
  unfold attempt_code, hashURL.
  destruct (Sum_head (bytes_of_string (originalURL +:+ fmt_Sprintf_d (gen_now env k))))
    as (b0 & b1 & b2 & b3 & rest & -> & H0 & H1 & H2 & H3).
  rewrite encodeShortCode_hex. split; [reflexivity |].
  cbn [list_ascii_of_string].
  repeat (apply Forall_cons; split;
          [ apply symbol_of_nibble_generated;
            first [ apply hi_nibble_range; assumption | apply lo_nibble_range ] |]).
  apply Forall_nil_2.
Qed.

(** ** The store and the handlers *)

Lemma bucket_of_insert_eq (tx : Tx) name b :
  bucket_of (<[name := b]> tx) name = b.
Proof. unfold bucket_of. by rewrite lookup_insert_eq. Qed.

Lemma bucket_of_insert_ne (tx : Tx) name name' b :
  name <> name' -> bucket_of (<[name := b]> tx) name' = bucket_of tx name'.
Proof. intros Hne. unfold bucket_of. by rewrite lookup_insert_ne. Qed.

Lemma bucket_of_create (tx tx' : Tx) name name' :
  tx_CreateBucketIfNotExists tx name = Ok tx' ->
  is_Some (tx' !! name) /\ bucket_of tx' name' = bucket_of tx name'.
Proof.
  unfold tx_CreateBucketIfNotExists, bucket_of.
  destruct (tx !! name) as [b|] eqn:Hb; intros [= <-].
  - by rewrite Hb.
  - rewrite lookup_insert_eq. split; [done |].
    destruct (decide (name = name')) as [<- | Hne].
    + by rewrite lookup_insert_eq, Hb.
    + by rewrite lookup_insert_ne.
Qed.

Lemma bucket_Put_ok (tx tx' : Tx) name key value :
  is_Some (tx !! name) ->
  bucket_Put tx name key value = Ok tx' ->
  valid_key key
  /\ bucket_of tx' name = <[key := value]> (bucket_of tx name)
  /\ (forall name', name <> name' -> bucket_of tx' name' = bucket_of tx name').
Proof.
  intros [b Hb]. unfold bucket_Put, valid_key.
  destruct (String.length key =? 0)%nat eqn:Hz; [done |].
  destruct (MaxKeySize <? Z.of_nat (String.length key)) eqn:Hm; [done |].
  rewrite Hb. intros [= <-].
  apply Nat.eqb_neq in Hz. apply Z.ltb_ge in Hm.
  split; [split; [by intros -> | done] |].
  split.
  - rewrite bucket_of_insert_eq. unfold bucket_of. by rewrite Hb.
  - intros name' Hne. by apply bucket_of_insert_ne.
Qed.

(** A put that is refused names a key bbolt does not accept. *)
Lemma bucket_Put_valid (tx : Tx) name key value :
  valid_key key -> exists tx', bucket_Put tx name key value = Ok tx'.
Proof.
  intros [Hne Hlen]. unfold bucket_Put.
  destruct (String.length key =? 0)%nat eqn:Hz.
  - apply Nat.eqb_eq in Hz. destruct key; [done | discriminate].
  - destruct (MaxKeySize <? Z.of_nat (String.length key)) eqn:Hm.
    + apply Z.ltb_lt in Hm. lia.
    + destruct (tx !! name); eauto.
Qed.

(** The insert transaction writes exactly the record and its reverse
    entry. *)
Lemma saveURL_ok reqURL shortCode now (tx tx' : Tx) :
  saveURL json_Marshal reqURL shortCode now tx = Ok tx' ->
  exists v,
    json_Marshal {| ID := 0; OriginalURL := reqURL; ShortCode := shortCode;
                    CreatedAt := now; ClickCount := 0 |} = Ok v
    /\ bucket_of tx' "urls" = <[shortCode := v]> (bucket_of tx "urls")
    /\ bucket_of tx' "reverse" = <[reqURL := shortCode]> (bucket_of tx "reverse")
    /\ valid_key shortCode /\ valid_key reqURL.
Proof.
  unfold saveURL.
  destruct (tx_CreateBucketIfNotExists tx "urls") as [tx1|] eqn:H1; [| done].
  destruct (json_Marshal _) as [v|] eqn:Hv; [| done].
  destruct (bucket_Put tx1 "urls" shortCode v) as [tx2|] eqn:H2; [| done].
  destruct (tx_CreateBucketIfNotExists tx2 "reverse") as [tx3|] eqn:H3; [| done].
  intros H4. exists v. split; [done |].
  apply (bucket_of_create _ _ _ "urls") in H1 as Hu1.
  apply (bucket_of_create _ _ _ "reverse") in H1 as Hr1.
  destruct Hu1 as [Hs1 Hu1]. destruct Hr1 as [_ Hr1].
  apply bucket_Put_ok in H2 as (Hk2 & Hu2 & Ho2); [| done].
  apply (bucket_of_create _ _ _ "urls") in H3 as Hu3.
  apply (bucket_of_create _ _ _ "reverse") in H3 as Hr3.
  destruct Hu3 as [Hs3 Hu3]. destruct Hr3 as [_ Hr3].
  apply bucket_Put_ok in H4 as (Hk4 & Hr4 & Ho4); [| done].
  rewrite Ho4, Hu3, Hu2, Hu1 by done.
  rewrite Hr4, Hr3, (Ho2 "reverse"), Hr1 by done.
  done.
Qed.

(** The click-count transaction never fails; it leaves the reverse bucket
    alone and either leaves [urls] alone or rewrites the one record with
    its count advanced. *)
Lemma incrementClicks_ok shortCode (tx : Tx) :
  exists tx',
    incrementClicks json_Marshal json_Unmarshal shortCode tx = Ok tx'
    /\ bucket_of tx' "reverse" = bucket_of tx "reverse"
    /\ (tx' = tx
        \/ exists v u v',
             bucket_of tx "urls" !! shortCode = Some v
             /\ json_Unmarshal v = Ok u
             /\ json_Marshal (set_ClickCount (wrap_int (ClickCount u + 1)) u) = Ok v'
             /\ valid_key shortCode
             /\ bucket_of tx' "urls" = <[shortCode := v']> (bucket_of tx "urls")).
Proof.
  unfold incrementClicks, tx_Bucket, bucket_Get.
  assert (Hsame : exists tx', Ok tx = Ok tx'
            /\ bucket_of tx' "reverse" = bucket_of tx "reverse"
            /\ (tx' = tx
                \/ exists v u v',
                     bucket_of tx "urls" !! shortCode = Some v
                     /\ json_Unmarshal v = Ok u
                     /\ json_Marshal (set_ClickCount (wrap_int (ClickCount u + 1)) u) = Ok v'
                     /\ valid_key shortCode
                     /\ bucket_of tx' "urls" = <[shortCode := v']> (bucket_of tx "urls")))
    by (exists tx; auto).
  destruct (tx !! "urls") as [b|] eqn:Hb; [| exact Hsame].
  destruct (b !! shortCode) as [v|] eqn:Hv; [| exact Hsame].
  destruct (json_Unmarshal v) as [u|] eqn:Hu; [| exact Hsame].
  destruct (json_Marshal _) as [v'|] eqn:Hv'; [| exact Hsame].
  destruct (bucket_Put tx "urls" shortCode v') as [tx'|] eqn:Hp; [| exact Hsame].
  clear Hsame. exists tx'. split; [done |].
  apply bucket_Put_ok in Hp as (Hk & Hu' & Ho); [| by rewrite Hb].
  split; [by apply Ho |]. right. exists v, u, v'.
  unfold bucket_of at 1. rewrite Hb. simpl. auto.
Qed.

Lemma codeExists_ok shortCode (tx : Tx) :
  codeExists shortCode tx
  = Ok (match bucket_of tx "urls" !! shortCode with Some _ => true | None => false end).
Proof.
  unfold codeExists, tx_Bucket, bucket_Get, bucket_of.
  destruct (tx !! "urls") as [b|]; simpl; [by destruct (b !! shortCode) |].
  by rewrite lookup_empty.
Qed.

Lemma lookupExisting_ok reqURL (tx : Tx) :
  lookupExisting reqURL tx = Ok (default EmptyString (bucket_of tx "reverse" !! reqURL)).
Proof.
  unfold lookupExisting, tx_Bucket, bucket_Get, bucket_of.
  destruct (tx !! "reverse") as [b|]; simpl; [by destruct (b !! reqURL) |].
  by rewrite lookup_empty.
Qed.

Lemma lookupOriginal_ok shortCode (tx : Tx) :
  lookupOriginal json_Unmarshal shortCode tx
  = Ok (match bucket_of tx "urls" !! shortCode with
        | Some v => match json_Unmarshal v with
                    | Ok u => OriginalURL u
                    | Err _ => EmptyString
                    end
        | None => EmptyString
        end).
Proof.
  unfold lookupOriginal, tx_Bucket, bucket_Get, bucket_of.
  destruct (tx !! "urls") as [b|]; simpl; [| by rewrite lookup_empty].
  destruct (b !! shortCode) as [v|]; [| done]. by destruct (json_Unmarshal v).
Qed.

(** ** generateShortCode *)

Lemma generateShortCode_step fuel env k app originalURL :
  generateShortCode (S fuel) env k app originalURL
  = if opened (DB app) then
      match urls_bucket app !! attempt_code env k originalURL with
      | Some _ => generateShortCode fuel env (S k) app originalURL
      | None => Some (Ok (attempt_code env k originalURL))
      end
    else Some (Err ErrDatabaseNotOpen).
Proof.
  cbn [generateShortCode]. unfold db_View.
  destruct (opened (DB app)); [| done].
  rewrite codeExists_ok. fold (attempt_code env k originalURL).
  unfold urls_bucket. by destruct (bucket_of _ _ !! _).
Qed.

(** The result of generateShortCode is the code of the first attempt whose
    code is not a key of [urls]; it is returned as soon as [fuel] exceeds
    the number of colliding attempts. *)
Lemma generateShortCode_iff fuel env k app originalURL c :
  generateShortCode fuel env k app originalURL = Some (Ok c) <->
  opened (DB app) = true
  /\ exists n, (n < fuel)%nat
       /\ (forall j, (j < n)%nat ->
             is_Some (urls_bucket app !! attempt_code env (k + j) originalURL))
       /\ urls_bucket app !! attempt_code env (k + n) originalURL = None
       /\ c = attempt_code env (k + n) originalURL.
Proof.
  revert k. induction fuel as [|fuel IH]; intros k.
  - split; [done |]. intros (_ & n & Hn & _). lia.
  - rewrite generateShortCode_step.
    destruct (opened (DB app)) eqn:Hopen; [| split; [done | by intros [? _]]].
    destruct (urls_bucket app !! attempt_code env k originalURL) as [v|] eqn:Hk.
    + rewrite IH. split.
      * intros (_ & n & Hn & Hcol & Hfree & ->). split; [done |].
        exists (S n). replace (k + S n)%nat with (S k + n)%nat by lia.
        repeat split; [lia | | done].
        intros [|j] Hj; [rewrite Nat.add_0_r, Hk; eauto |].
        replace (k + S j)%nat with (S k + j)%nat by lia. apply Hcol. lia.
      * intros (_ & [|n] & Hn & Hcol & Hfree & ->).
        { rewrite Nat.add_0_r, Hk in Hfree. done. }
        split; [done |]. exists n.
        replace (S k + n)%nat with (k + S n)%nat by lia.
        repeat split; [lia | | done].
        intros j Hj. replace (S k + j)%nat with (k + S j)%nat by lia.
        apply Hcol. lia.
    + split.
      * intros [= <-]. split; [done |]. exists 0%nat.
        rewrite Nat.add_0_r. repeat split; [lia | | done]. intros j Hj. lia.
      * intros (_ & [|n] & Hn & Hcol & Hfree & ->).
        { by rewrite Nat.add_0_r. }
        destruct (Hcol 0%nat ltac:(lia)) as [v Hv].
        rewrite Nat.add_0_r, Hk in Hv. done.
Qed.

Lemma generateShortCode_fresh fuel env k app originalURL c :
  generateShortCode fuel env k app originalURL = Some (Ok c) ->
  opened (DB app) = true /\ urls_bucket app !! c = None
  /\ String.length c = 8%nat
  /\ Forall (fun a => In a generated_alphabet) (list_ascii_of_string c).
Proof.
  intros (Hopen & n & _ & _ & Hfree & ->)%generateShortCode_iff.
  pose proof (attempt_code_shape env (k + n) originalURL) as [Hlen Hall]. done.
Qed.

Lemma generateShortCode_closed fuel env k app originalURL :
  opened (DB app) = false -> (0 < fuel)%nat ->
  generateShortCode fuel env k app originalURL = Some (Err ErrDatabaseNotOpen).
Proof.
  intros Hclosed Hfuel. destruct fuel as [|fuel]; [lia |].
  by rewrite generateShortCode_step, Hclosed.
Qed.

(** ** shortenHandler, path by path *)

Lemma db_View_lookupExisting app reqURL :
  db_View (DB app) (lookupExisting reqURL)
  = if opened (DB app)
    then Ok (default EmptyString (reverse_bucket app !! reqURL))
    else Err ErrDatabaseNotOpen.
Proof. unfold db_View. by rewrite lookupExisting_ok. Qed.

Lemma db_Update_cases db commit_err fn db' err :
  db_Update db commit_err fn = (db', err) ->
  (db' = db /\ exists e, err = Some e)
  \/ (exists tx', opened db = true /\ fn (buckets db) = Ok tx' /\ commit_err = None
                  /\ db' = {| opened := true; buckets := tx' |} /\ err = None).
Proof.
  unfold db_Update. destruct (opened db); [| intros [= <- <-]; eauto].
  destruct (fn (buckets db)) as [tx'|e]; [| intros [= <- <-]; eauto].
  destruct commit_err as [e|]; intros [= <- <-]; [eauto |].
  right. by exists tx'.
Qed.

(** Every way [shortenHandler] can end: without a short code and with at
    most a log line written; on the duplicate path; or having inserted. *)
Lemma shorten_inv fuel env r app resp app' :
  shorten fuel env r app = Some (resp, app') ->
  (shortened resp = None
     /\ (app' = app \/ exists line, app' = log_Printf line app))
  \/ (exists input c,
        Method r = "POST"
        /\ json_Decode (Body r) = Ok input
        /\ valid (normalizeURL input) = true
        /\ opened (DB app) = true
        /\ reverse_bucket app !! normalizeURL input = Some c /\ c <> EmptyString
        /\ resp = created_response (normalizeURL input) c
        /\ app' = app)
  \/ (exists input c tx',
        Method r = "POST"
        /\ json_Decode (Body r) = Ok input
        /\ valid (normalizeURL input) = true
        /\ default EmptyString (reverse_bucket app !! normalizeURL input) = EmptyString
        /\ generateShortCode fuel env 0 app (normalizeURL input) = Some (Ok c)
        /\ saveURL json_Marshal (normalizeURL input) c (tx_now env) (buckets (DB app)) = Ok tx'
        /\ commit_err env = None
        /\ resp = created_response (normalizeURL input) c
        /\ app' = created_app env (normalizeURL input) c tx' app).
Proof.
  unfold shortenHandler.
  destruct (String.eqb_spec (Method r) "POST") as [Hpost | Hpost]; simpl;
    [| intros [= <- <-]; left; auto].
  destruct (json_Decode (Body r)) as [input|e] eqn:Hdec; [| intros [= <- <-]; left; auto].
  destruct (isValidURL url_Parse (normalizeURL input)) eqn:Hvalid; simpl;
    [| intros [= <- <-]; left; auto].
  rewrite db_View_lookupExisting.
  assert (Hnew : (opened (DB app) = true ->
             default EmptyString (reverse_bucket app !! normalizeURL input) = EmptyString) ->
            match generateShortCode fuel env 0 app (normalizeURL input) with
            | Some (Ok shortCode) =>
                match db_Update (DB app) (commit_err env)
                        (saveURL json_Marshal (normalizeURL input) shortCode (tx_now env)) with
                | (_, Some err) =>
                    Some (WriteJSON StatusInternalServerError
                            (EncodeError {| Error := "failed to save url" |}),
                          log_Printf ("database insert error: " +:+ error_Error err) app)
                | (db', None) =>
                    Some (created_response (normalizeURL input) shortCode,
                          set_Cache (cache_Set shortCode (normalizeURL input)
                                       (set_now env) (Cache app)) (set_DB db' app))
                end
            | Some (Err err) =>
                Some (WriteJSON StatusInternalServerError
                        (EncodeError {| Error := "server error" |}),
                      log_Printf ("error generating short code: " +:+ error_Error err) app)
            | None => None
            end = Some (resp, app') ->
            (shortened resp = None
               /\ (app' = app \/ exists line, app' = log_Printf line app))
            \/ (exists input c tx',
                  Method r = "POST"
                  /\ json_Decode (Body r) = Ok input
                  /\ valid (normalizeURL input) = true
                  /\ default EmptyString (reverse_bucket app !! normalizeURL input)
                     = EmptyString
                  /\ generateShortCode fuel env 0 app (normalizeURL input) = Some (Ok c)
                  /\ saveURL json_Marshal (normalizeURL input) c (tx_now env)
                       (buckets (DB app)) = Ok tx'
                  /\ commit_err env = None
                  /\ resp = created_response (normalizeURL input) c
                  /\ app' = created_app env (normalizeURL input) c tx' app)).
  { intros Hmiss.
    destruct (generateShortCode fuel env 0 app (normalizeURL input)) as [[c|e]|] eqn:Hgen;
      [| intros [= <- <-]; left; eauto | done].
    destruct (db_Update _ _ _) as [db' [e|]] eqn:Hupd; [intros [= <- <-]; left; eauto |].
    intros [= <- <-].
    apply db_Update_cases in Hupd as [[_ [e [=]]] | (tx' & Ho & Hsave & Hce & -> & _)].
    right. exists input, c, tx'. auto 10. }
  rewrite Hdec in Hnew.
  remember (opened (DB app)) as o eqn:Hopen in |- *.
  remember (reverse_bucket app !! normalizeURL input) as rv eqn:Hrev in |- *.
  destruct o; simpl.
  - destruct rv as [c|]; simpl.
    + destruct (String.eqb_spec c EmptyString) as [-> | Hc]; simpl.
      * intros Hrun. apply Hnew in Hrun as [H | H]; [left; exact H | right; right; exact H |].
        by rewrite <- Hrev.
      * intros [= <- <-]. right; left. exists input, c. auto 10.
    + intros Hrun. apply Hnew in Hrun as [H | H]; [left; exact H | right; right; exact H |].
      by rewrite <- Hrev.
  - intros Hrun. apply Hnew in Hrun as [H | H]; [left; exact H | right; right; exact H |].
    by rewrite <- Hopen.
Qed.

(** ** The agreement of records, reverse index and cache is preserved *)

Lemma record_in_Some urls c u :
  record_of urls c = Some u <-> exists v, urls !! c = Some v /\ json_Unmarshal v = Ok u.
Proof.
  unfold record_in. destruct (urls !! c) as [v|]; [| split; [done | by intros (? & ? & _)]].
  destruct (json_Unmarshal v) as [u'|e] eqn:Hu.
  - split; [intros [= <-]; eauto | by intros (? & [= <-] & Hv); rewrite Hu in Hv; inversion Hv].
  - split; [done | by intros (? & [= <-] & Hv); rewrite Hu in Hv].
Qed.

Lemma record_in_insert_ne urls c c' v :
  c <> c' -> record_of (<[c := v]> urls) c' = record_of urls c'.
Proof. intros Hne. unfold record_in. by rewrite lookup_insert_ne. Qed.

Lemma record_in_insert_eq urls c v u :
  json_Unmarshal v = Ok u -> record_of (<[c := v]> urls) c = Some u.
Proof. intros Hu. unfold record_in. by rewrite lookup_insert_eq, Hu. Qed.

Lemma agree_empty : agrees ∅ ∅ ∅.
Proof. repeat split; intros ? ?; by rewrite lookup_empty. Qed.

(** Rewriting a record with another of the same code and URL. *)
Lemma agree_rewrite urls reverse cache c v u v' u' :
  agrees urls reverse cache ->
  urls !! c = Some v -> json_Unmarshal v = Ok u -> json_Unmarshal v' = Ok u' ->
  OriginalURL u' = OriginalURL u -> ShortCode u' = ShortCode u ->
  agrees (<[c := v']> urls) reverse cache.
Proof.
  intros (Hu & Hr & Hc) Hv Hdec Hdec' Hurl Hcode.
  assert (Hrec : forall c0 u0, record_of urls c0 = Some u0 ->
            exists u1, record_of (<[c := v']> urls) c0 = Some u1
                       /\ OriginalURL u1 = OriginalURL u0).
  { intros c0 u0 H0. destruct (decide (c = c0)) as [<- | Hne].
    - exists u'. split; [by apply record_in_insert_eq |].
      apply record_in_Some in H0 as (v0 & Hv0 & Hd0). congruence.
    - exists u0. by rewrite record_in_insert_ne. }
  repeat split.
  - intros c0 v0. destruct (decide (c = c0)) as [<- | Hne].
    + rewrite lookup_insert_eq. intros [= <-].
      destruct (Hu c v Hv) as (u0 & Hd0 & Hc0 & Hr0 & Hk0).
      exists u'. rewrite Hurl, Hcode. by replace u with u0 by congruence.
    + rewrite lookup_insert_ne by done. apply Hu.
  - intros url c0 H0. destruct (Hr url c0 H0) as (u0 & Hrec0 & Hurl0 & Hk0).
    destruct (Hrec c0 u0 Hrec0) as (u1 & Hrec1 & Hurl1).
    exists u1. by rewrite Hurl1.
  - intros c0 it H0. destruct (Hc c0 it H0) as (u0 & Hrec0 & Hurl0).
    destruct (Hrec c0 u0 Hrec0) as (u1 & Hrec1 & Hurl1).
    exists u1. by rewrite Hurl1.
Qed.

(** Inserting a new record together with its reverse entry and its cache
    entry. *)
Lemma agree_insert urls reverse cache c url v u now :
  agrees urls reverse cache ->
  urls !! c = None -> reverse !! url = None ->
  json_Unmarshal v = Ok u -> OriginalURL u = url -> ShortCode u = c ->
  valid_key c -> valid_key url ->
  agrees (<[c := v]> urls) (<[url := c]> reverse) (cache_Set c url now cache).
Proof.
  intros (Hu & Hr & Hc) Hfree Hnew Hdec Hurl Hcode Hkc Hku.
  assert (Hrec : forall c0 u0, record_of urls c0 = Some u0 ->
            record_of (<[c := v]> urls) c0 = Some u0).
  { intros c0 u0 H0. rewrite record_in_insert_ne; [done |].
    intros <-. apply record_in_Some in H0 as (v0 & Hv0 & _). congruence. }
  repeat split.
  - intros c0 v0. destruct (decide (c = c0)) as [<- | Hne].
    + rewrite lookup_insert_eq. intros [= <-]. exists u.
      rewrite Hurl, lookup_insert_eq. done.
    + rewrite lookup_insert_ne by done. intros H0.
      destruct (Hu c0 v0 H0) as (u0 & Hd0 & Hc0 & Hr0 & Hk0).
      exists u0. rewrite lookup_insert_ne; [done |]. congruence.
  - intros url0 c0. destruct (decide (url = url0)) as [<- | Hne].
    + rewrite lookup_insert_eq. intros [= <-]. exists u.
      by rewrite (record_in_insert_eq _ _ _ u).
    + rewrite lookup_insert_ne by done. intros H0.
      destruct (Hr url0 c0 H0) as (u0 & Hrec0 & Hurl0 & Hk0). eauto.
  - intros c0 it. unfold cache_Set. destruct (decide (c = c0)) as [<- | Hne].
    + rewrite lookup_insert_eq. intros [= <-]. exists u.
      by rewrite (record_in_insert_eq _ _ _ u).
    + rewrite lookup_insert_ne by done. intros H0.
      destruct (Hc c0 it H0) as (u0 & Hrec0 & Hurl0). eauto.
Qed.

(** Caching the URL of a stored record. *)
Lemma agree_cache_Set urls reverse cache c url u now :
  agrees urls reverse cache ->
  record_of urls c = Some u -> OriginalURL u = url ->
  agrees urls reverse (cache_Set c url now cache).
Proof.
  intros (Hu & Hr & Hc) Hrec Hurl. repeat split; [done | done |].
  intros c0 it. unfold cache_Set. destruct (decide (c = c0)) as [<- | Hne].
  - rewrite lookup_insert_eq. intros [= <-]. eauto.
  - rewrite lookup_insert_ne by done. apply Hc.
Qed.

(** Dropping cache entries. *)
Lemma agree_cache_DeleteExpired urls reverse cache now :
  agrees urls reverse cache -> agrees urls reverse (cache_DeleteExpired now cache).
Proof.
  intros (Hu & Hr & Hc). repeat split; [done | done |].
  intros c it [H0 _]%map_lookup_filter_Some. by apply Hc.
Qed.

Lemma agree_no_cache urls reverse cache :
  agrees urls reverse cache -> agrees urls reverse ∅.
Proof.
  intros (Hu & Hr & Hc). repeat split; [done | done |].
  intros c it. by rewrite lookup_empty.
Qed.

(** No reverse entry holds the empty code. *)
Lemma agree_reverse_miss urls reverse cache url :
  agrees urls reverse cache ->
  default EmptyString (reverse !! url) = EmptyString -> reverse !! url = None.
Proof.
  intros (Hu & Hr & _). destruct (reverse !! url) as [c|] eqn:Hrev; [| done].
  simpl. intros ->. destruct (Hr url EmptyString Hrev) as (u & Hrec & _).
  apply record_in_Some in Hrec as (v & Hv & _).
  destruct (Hu EmptyString v Hv) as (_ & _ & _ & _ & [Hne _]). done.
Qed.

Lemma shorten_created_consistent fuel env k app reqURL c tx' :
  ok app ->
  default EmptyString (reverse_bucket app !! reqURL) = EmptyString ->
  generateShortCode fuel env k app reqURL = Some (Ok c) ->
  saveURL json_Marshal reqURL c (tx_now env) (buckets (DB app)) = Ok tx' ->
  ok (created_app env reqURL c tx' app).
Proof.
  intros Hok Hmiss Hgen Hsave. unfold consistent in *.
  apply generateShortCode_fresh in Hgen as (_ & Hfree & _).
  apply saveURL_ok in Hsave as (v & Hv & Hu' & Hr' & Hkc & Hku).
  change (urls_bucket (created_app env reqURL c tx' app)) with (bucket_of tx' "urls").
  change (reverse_bucket (created_app env reqURL c tx' app)) with (bucket_of tx' "reverse").
  rewrite Hu', Hr'. apply json_roundtrip in Hv.
  eapply agree_insert; eauto using agree_reverse_miss.
Qed.

Lemma shorten_consistent fuel env r app resp app' :
  ok app -> shorten fuel env r app = Some (resp, app') -> ok app'.
Proof.
  intros Hok Hrun.
  apply shorten_inv in Hrun
    as [(_ & [-> | [line ->]]) | [(input & c & _ & _ & _ & _ & _ & _ & _ & ->)
        | (input & c & tx' & _ & _ & _ & Hmiss & Hgen & Hsave & _ & _ & ->)]];
    eauto using shorten_created_consistent.
Qed.

(** ** The click-count goroutine *)

Lemma clickGoroutine_cases commit_err shortCode app :
  let app' := goroutine commit_err shortCode app in
  Cache app' = Cache app /\ Log app' = Log app /\ Goroutines app' = Goroutines app
  /\ opened (DB app') = opened (DB app)
  /\ reverse_bucket app' = reverse_bucket app
  /\ (urls_bucket app' = urls_bucket app
      \/ exists v u v',
           opened (DB app) = true /\ commit_err = None
           /\ urls_bucket app !! shortCode = Some v
           /\ json_Unmarshal v = Ok u
           /\ json_Marshal (set_ClickCount (wrap_int (ClickCount u + 1)) u) = Ok v'
           /\ valid_key shortCode
           /\ urls_bucket app' = <[shortCode := v']> (urls_bucket app)).
Proof.
  unfold clickGoroutine. simpl.
  destruct (db_Update (DB app) commit_err
              (incrementClicks json_Marshal json_Unmarshal shortCode)) as [db' err] eqn:Hupd.
  apply db_Update_cases in Hupd
    as [[-> _] | (tx' & Hopen & Hinc & -> & -> & _)]; simpl; [by auto 10 |].
  destruct (incrementClicks_ok shortCode (buckets (DB app)))
    as (tx'' & Hinc' & Hrev & Hurls).
  rewrite Hinc in Hinc'. injection Hinc' as <-.
  unfold reverse_bucket, urls_bucket. simpl.
  repeat split; [done | done |].
  destruct Hurls as [-> | (v & u & v' & H1 & H2 & H3 & H4 & H5)].
  - by left.
  - right. exists v, u, v'. auto 10.
Qed.

(** A goroutine whose transaction fails leaves the database as it was. *)
Lemma clickGoroutine_failed commit_err shortCode app e :
  snd (db_Update (DB app) commit_err
         (incrementClicks json_Marshal json_Unmarshal shortCode)) = Some e ->
  DB (goroutine commit_err shortCode app) = DB app.
Proof.
  unfold clickGoroutine. simpl.
  destruct (db_Update _ _ _) as [db' err] eqn:Hupd. simpl. intros ->.
  by apply db_Update_cases in Hupd as [[-> _] | (tx' & _ & _ & _ & _ & [=])].
Qed.

Lemma clickGoroutine_consistent commit_err shortCode app :
  ok app -> ok (goroutine commit_err shortCode app).
Proof.
  intros Hok. unfold consistent in *.
  destruct (clickGoroutine_cases commit_err shortCode app)
    as (-> & _ & _ & _ & -> & [-> | (v & u & v' & _ & _ & Hv & Hu & Hv' & _ & ->)]);
    [done |].
  apply json_roundtrip in Hv'. by eapply agree_rewrite.
Qed.

Lemma run_goroutine_consistent commit_err i app :
  ok app -> ok (run commit_err i app).
Proof.
  intros Hok. unfold run_goroutine. destruct (Goroutines app !! i) as [c|]; [| done].
  by apply (clickGoroutine_consistent commit_err c) in Hok.
Qed.

(** ** redirectHandler, path by path *)

Lemma db_View_lookupOriginal app shortCode :
  db_View (DB app) (lookupOriginal json_Unmarshal shortCode)
  = if opened (DB app)
    then Ok (match record app shortCode with
             | Some u => OriginalURL u
             | None => EmptyString
             end)
    else Err ErrDatabaseNotOpen.
Proof.
  unfold db_View. rewrite lookupOriginal_ok. destruct (opened (DB app)); [| done].
  unfold record_at, record_in, urls_bucket.
  destruct (bucket_of _ _ !! _) as [v|]; [| done]. by destruct (json_Unmarshal v).
Qed.

(** Every way [redirectHandler] can end: not found, nothing changed; a
    cache hit; or a store hit that fills the cache.  Both hits start one
    goroutine. *)
Lemma redirect_inv env shortCode app resp app' :
  redirect env shortCode app = (resp, app') ->
  (resp = http_NotFound /\ app' = app)
  \/ (exists url,
        shortCode <> EmptyString
        /\ cache_Get shortCode (get_now env) (Cache app) = Some url
        /\ resp = http_Redirect url StatusMovedPermanently
        /\ app' = go shortCode app)
  \/ (exists u,
        shortCode <> EmptyString
        /\ cache_Get shortCode (get_now env) (Cache app) = None
        /\ opened (DB app) = true
        /\ record app shortCode = Some u /\ OriginalURL u <> EmptyString
        /\ resp = http_Redirect (OriginalURL u) StatusMovedPermanently
        /\ app' = go shortCode
                    (set_Cache (cache_Set shortCode (OriginalURL u) (set_now env)
                                  (Cache app)) app)).
Proof.
  unfold redirectHandler.
  destruct (String.eqb_spec shortCode EmptyString) as [-> | Hne]; [intros [= <- <-]; auto |].
  destruct (cache_Get shortCode (get_now env) (Cache app)) as [url|] eqn:Hget.
  { intros [= <- <-]. right; left. by exists url. }
  rewrite db_View_lookupOriginal.
  destruct (opened (DB app)) eqn:Hopen; [| intros [= <- <-]; auto].
  destruct (record app shortCode) as [u|] eqn:Hrec; [| intros [= <- <-]; auto].
  destruct (String.eqb_spec (OriginalURL u) EmptyString) as [Hempty | Hurl];
    [intros [= <- <-]; auto |].
  intros [= <- <-]. right; right. by exists u.
Qed.

Lemma redirect_consistent env shortCode app :
  ok app -> ok (snd (redirect env shortCode app)).
Proof.
  intros Hok. destruct (redirect env shortCode app) as [resp app'] eqn:Hrun. simpl.
  apply redirect_inv in Hrun
    as [[_ ->] | [(url & _ & _ & _ & ->) | (u & _ & _ & _ & Hrec & _ & _ & ->)]];
    [done | done |].
  unfold consistent in *. by eapply agree_cache_Set.
Qed.

(** ** Reachable states *)

Lemma main_app_inv PORT (file : Tx) app :
  main_app PORT file = Some app ->
  opened (DB app) = true
  /\ urls_bucket app = bucket_of file "urls"
  /\ reverse_bucket app = bucket_of file "reverse"
  /\ Cache app = ∅ /\ Goroutines app = [].
Proof.
  unfold main_app, setupDatabase, db_Update. simpl.
  destruct (tx_CreateBucketIfNotExists file "urls") as [tx1|] eqn:H1; [| done].
  destruct (tx_CreateBucketIfNotExists tx1 "reverse") as [tx2|] eqn:H2; [| done].
  intros [= <-]. unfold urls_bucket, reverse_bucket. simpl.
  destruct (bucket_of_create _ _ _ "urls" H1) as [_ Hu1].
  destruct (bucket_of_create _ _ _ "reverse" H1) as [_ Hr1].
  destruct (bucket_of_create _ _ _ "urls" H2) as [_ Hu2].
  destruct (bucket_of_create _ _ _ "reverse" H2) as [_ Hr2].
  rewrite Hu2, Hu1, Hr2, Hr1. done.
Qed.

Lemma step_consistent app app' :
  step url_Parse json_Marshal json_Unmarshal json_Decode app app' -> ok app -> ok app'.
Proof.
  intros Hstep Hok. destruct Hstep as
    [fuel env r resp app app' Hrun | env c app | ce i app | now app | PORT app app' Hmain].
  - by eapply shorten_consistent.
  - by apply redirect_consistent.
  - by apply run_goroutine_consistent.
  - unfold consistent in *. by apply agree_cache_DeleteExpired.
  - apply main_app_inv in Hmain as (_ & Hu & Hr & Hc & _).
    unfold consistent in *. rewrite Hu, Hr, Hc. by eapply agree_no_cache.
Qed.

Lemma reachable_consistent app : reach app -> ok app.
Proof.
  induction 1 as [PORT app Hmain | app app' _ IH Hstep].
  - apply main_app_inv in Hmain as (_ & Hu & Hr & Hc & _).
    unfold consistent. rewrite Hu, Hr, Hc. unfold bucket_of.
    rewrite !lookup_empty. apply agree_empty.
  - by eapply step_consistent.
Qed.
(** ** What lets a create through *)

Lemma normalizeURL_nonempty reqURL : normalizeURL reqURL <> EmptyString.
Proof.
  unfold normalizeURL.
  destruct (strings_HasPrefix reqURL "http://") eqn:H1; simpl.
  - intros ->. done.
  - destruct (strings_HasPrefix reqURL "https://") eqn:H2; simpl; [| done].
    intros ->. done.
Qed.

(** generateShortCode returns a code as soon as one of the attempts that
    [fuel] allows computes a code that is not yet a key of [urls]. *)
Lemma generateShortCode_enough fuel env k app originalURL :
  opened (DB app) = true ->
  (exists n, (n < fuel)%nat
     /\ urls_bucket app !! attempt_code env (k + n) originalURL = None) ->
  exists c, generateShortCode fuel env k app originalURL = Some (Ok c).
Proof.
  intros Hopen. revert k. induction fuel as [|fuel IH]; intros k (n & Hn & Hfree); [lia |].
  rewrite generateShortCode_step, Hopen.
  destruct (urls_bucket app !! attempt_code env k originalURL) as [v|] eqn:Hk; [| eauto].
  apply IH. destruct n as [|n].
  - rewrite Nat.add_0_r, Hk in Hfree. done.
  - exists n. split; [lia |].
    by replace (S k + n)%nat with (k + S n)%nat by lia.
Qed.

(** The insert transaction goes through when the record marshals and
    both keys are ones bbolt accepts. *)
Lemma saveURL_valid reqURL shortCode now (tx : Tx) :
  is_Ok (json_Marshal {| ID := 0; OriginalURL := reqURL; ShortCode := shortCode;
                         CreatedAt := now; ClickCount := 0 |}) = true ->
  valid_key shortCode -> valid_key reqURL ->
  exists tx', saveURL json_Marshal reqURL shortCode now tx = Ok tx'.
Proof.
  intros Hm Hc Hu. unfold saveURL.
  destruct (tx_CreateBucketIfNotExists tx "urls") as [tx1|] eqn:H1;
    [| unfold tx_CreateBucketIfNotExists in H1; by destruct (tx !! "urls")].
  destruct (json_Marshal _) as [v|]; [| done].
  destruct (bucket_Put_valid tx1 "urls" shortCode v Hc) as [tx2 ->].
  destruct (tx_CreateBucketIfNotExists tx2 "reverse") as [tx3|] eqn:H3;
    [| unfold tx_CreateBucketIfNotExists in H3; by destruct (tx2 !! "reverse")].
  apply bucket_Put_valid, Hu.
Qed.

(** A request whose URL is valid once normalized is served to the end:
    on an open database, with a commit that succeeds, a URL bbolt accepts
    as a key, a record that marshals and a free code among the attempts
    that [fuel] allows, the answer is the success response for the
    normalized URL, which the reverse index then sends to the code. *)
Lemma shorten_accepts fuel env r app input :
  Method r = "POST" ->
  json_Decode (Body r) = Ok input ->
  valid (normalizeURL input) = true ->
  opened (DB app) = true ->
  commit_err env = None ->
  Z.of_nat (String.length (normalizeURL input)) <= MaxKeySize ->
  (forall c, is_Ok (json_Marshal {| ID := 0; OriginalURL := normalizeURL input;
                                    ShortCode := c; CreatedAt := tx_now env;
                                    ClickCount := 0 |}) = true) ->
  (exists n, (n < fuel)%nat
     /\ urls_bucket app !! attempt_code env n (normalizeURL input) = None) ->
  exists c app',
    shorten fuel env r app = Some (created_response (normalizeURL input) c, app')
    /\ reverse_bucket app' !! normalizeURL input = Some c.
Proof.
  intros Hpost Hdec Hvalid Hopen Hce Hlen Hm Hfree.
  destruct (generateShortCode_enough fuel env 0 app (normalizeURL input) Hopen Hfree)
    as [c Hgen].
  pose proof (generateShortCode_fresh _ _ _ _ _ _ Hgen) as (_ & _ & Hc8 & _).
  assert (Hkc : valid_key c).
  { split; [intros ->; done |]. rewrite Hc8. unfold MaxKeySize. lia. }
  assert (Hku : valid_key (normalizeURL input))
    by (split; [apply normalizeURL_nonempty | done]).
  destruct (saveURL_valid (normalizeURL input) c (tx_now env) (buckets (DB app))
              (Hm c) Hkc Hku) as [tx' Hsave].
  assert (Hnew : match generateShortCode fuel env 0 app (normalizeURL input) with
                 | None => None
                 | Some (Err err) =>
                     Some (WriteJSON StatusInternalServerError
                             (EncodeError {| Error := "server error" |}),
                           log_Printf ("error generating short code: " +:+ error_Error err)
                             app)
                 | Some (Ok shortCode) =>
                     match db_Update (DB app) (commit_err env)
                             (saveURL json_Marshal (normalizeURL input) shortCode
                                (tx_now env)) with
                     | (_, Some err) =>
                         Some (WriteJSON StatusInternalServerError
                                 (EncodeError {| Error := "failed to save url" |}),
                               log_Printf ("database insert error: " +:+ error_Error err)
                                 app)
                     | (db', None) =>
                         Some (created_response (normalizeURL input) shortCode,
                               set_Cache (cache_Set shortCode (normalizeURL input)
                                            (set_now env) (Cache app)) (set_DB db' app))
                     end
                 end
                 = Some (created_response (normalizeURL input) c,
                         created_app env (normalizeURL input) c tx' app)).
  { rewrite Hgen. unfold db_Update. by rewrite Hopen, Hsave, Hce. }
  assert (Hrev' : reverse_bucket (created_app env (normalizeURL input) c tx' app)
                    !! normalizeURL input = Some c).
  { apply saveURL_ok in Hsave as (_ & _ & _ & Hr' & _).
    change (reverse_bucket (created_app env (normalizeURL input) c tx' app))
      with (bucket_of tx' "reverse").
    by rewrite Hr', lookup_insert_eq. }
  unfold shortenHandler. rewrite Hpost, Hdec, Hvalid. simpl.
  rewrite db_View_lookupExisting, Hopen. simpl.
  destruct (reverse_bucket app !! normalizeURL input) as [c0|] eqn:Hrev; simpl.
  - destruct (String.eqb_spec c0 EmptyString) as [-> | Hc0]; simpl.
    + exists c, (created_app env (normalizeURL input) c tx' app). done.
    + exists c0, app. done.
  - exists c, (created_app env (normalizeURL input) c tx' app). done.
Qed.

(** With a well-formed request, the only 400 is the one of the validity
    check, and it is given exactly when the normalized URL is invalid. *)
Lemma shorten_refuses_iff fuel env r app input resp app' :
  Method r = "POST" ->
  json_Decode (Body r) = Ok input ->
  shorten fuel env r app = Some (resp, app') ->
  (resp = WriteJSON StatusBadRequest (EncodeError {| Error := "invalid url format" |})
   <-> valid (normalizeURL input) = false).
Proof.
  intros Hpost Hdec. unfold shortenHandler. rewrite Hpost, Hdec. simpl.
  destruct (isValidURL url_Parse (normalizeURL input)) eqn:Hvalid; simpl;
    [| intros [= <- <-]; done].
  destruct (is_Ok _ && negb _); [intros [= <- <-]; split; discriminate |].
  destruct (generateShortCode _ _ _ _ _) as [[c|e]|];
    [| intros [= <- <-]; split; discriminate | done].
  destruct (db_Update _ _ _) as [db' [e|]]; intros [= <- <-]; split; discriminate.
Qed.


(** ** Resolving a stored record *)

Lemma valid_key_nonempty k : valid_key k -> k <> EmptyString.
Proof. by intros [? _]. Qed.

(** In a consistent state a stored record is what both the cache and the
    store give for its code, and what [redirectHandler] redirects to. *)
Lemma resolve_record env shortCode app u :
  ok app -> opened (DB app) = true -> record app shortCode = Some u ->
  fst (redirect env shortCode app) = http_Redirect (OriginalURL u) StatusMovedPermanently
  /\ (forall url, cache_Get shortCode (get_now env) (Cache app) = Some url ->
        url = OriginalURL u)
  /\ db_View (DB app) (lookupOriginal json_Unmarshal shortCode) = Ok (OriginalURL u).
Proof.
  intros Hok Hopen Hrec. pose proof Hok as (Hu & Hr & Hc).
  assert (Hcache : forall url,
            cache_Get shortCode (get_now env) (Cache app) = Some url ->
            url = OriginalURL u).
  { unfold cache_Get. intros url.
    destruct (Cache app !! shortCode) as [it|] eqn:Hit; [| done].
    destruct (expired (get_now env) it); [done |]. intros [= <-].
    destruct (Hc shortCode it Hit) as (u' & Hrec' & <-).
    unfold record_at in Hrec. congruence. }
  assert (Hview : db_View (DB app) (lookupOriginal json_Unmarshal shortCode)
                  = Ok (OriginalURL u)).
  { by rewrite db_View_lookupOriginal, Hopen, Hrec. }
  split; [| done].
  pose proof Hrec as (v & Hv & Hdec)%record_in_Some.
  destruct (Hu shortCode v Hv) as (u' & Hdec' & _ & Hrev & Hkc).
  replace u' with u in * by congruence.
  destruct (Hr _ _ Hrev) as (_ & _ & _ & Hku).
  unfold redirectHandler.
  destruct (String.eqb_spec shortCode EmptyString) as [-> | _];
    [by apply valid_key_nonempty in Hkc |].
  destruct (cache_Get shortCode (get_now env) (Cache app)) as [url|] eqn:Hget.
  { simpl. by rewrite (Hcache url). }
  rewrite Hview.
  destruct (String.eqb_spec (OriginalURL u) EmptyString) as [Hempty | _]; [| done].
  by apply valid_key_nonempty in Hku.
Qed.

(** After a successful create, the returned code has a record holding the
    normalized URL, in a consistent state with an open database. *)
Lemma shorten_success fuel env r app resp app' sr :
  ok app ->
  shorten fuel env r app = Some (resp, app') ->
  shortened resp = Some sr ->
  exists input,
    Method r = "POST"
    /\ json_Decode (Body r) = Ok input
    /\ valid (normalizeURL input) = true
    /\ resp = created_response (normalizeURL input) (resp_ShortCode sr)
    /\ resp_OriginalURL sr = normalizeURL input
    /\ ok app' /\ opened (DB app') = true
    /\ reverse_bucket app' !! normalizeURL input = Some (resp_ShortCode sr)
    /\ exists u, record app' (resp_ShortCode sr) = Some u
                 /\ OriginalURL u = normalizeURL input.
Proof.
  intros Hok Hrun Hsr. pose proof (shorten_consistent _ _ _ _ _ _ Hok Hrun) as Hok'.
  apply shorten_inv in Hrun
    as [(Hnone & _) | [(input & c & Hpost & Hdec & Hvalid & Hopen & Hrev & Hc & -> & ->)
        | (input & c & tx' & Hpost & Hdec & Hvalid & Hmiss & Hgen & Hsave & Hce & -> & ->)]].
  - congruence.
  - injection Hsr as <-. simpl. exists input.
    destruct Hok as (_ & Hr & _). destruct (Hr _ _ Hrev) as (u & Hrec & Hurl & _).
    eauto 12.
  - injection Hsr as <-. simpl. exists input.
    apply saveURL_ok in Hsave as (v & Hv & Hu' & Hr' & _ & _).
    apply json_roundtrip in Hv.
    assert (Hrev : reverse_bucket (created_app env (normalizeURL input) c tx' app)
                     !! normalizeURL input = Some c).
    { change (reverse_bucket (created_app env (normalizeURL input) c tx' app))
        with (bucket_of tx' "reverse"). by rewrite Hr', lookup_insert_eq. }
    assert (Hrec : record (created_app env (normalizeURL input) c tx' app) c
                   = Some {| ID := 0; OriginalURL := normalizeURL input; ShortCode := c;
                             CreatedAt := tx_now env; ClickCount := 0 |}).
    { unfold record_at.
      change (urls_bucket (created_app env (normalizeURL input) c tx' app))
        with (bucket_of tx' "urls").
      rewrite Hu'. by apply record_in_insert_eq. }
    eauto 12.
Qed.

(** ** The claims *)

(** C1. For every input that Shorten accepts, Resolve on the short code
    Shorten returned redirects to exactly the normalized URL Shorten
    stored; the Hot Cache, when it answers, and the Persistent Store both
    hold that URL for the code. *)
Theorem shorten_then_resolve fuel env r app resp app' sr env' :
  reach app ->
  shorten fuel env r app = Some (resp, app') ->
  shortened resp = Some sr ->
  exists input,
    json_Decode (Body r) = Ok input
    /\ valid (normalizeURL input) = true
    /\ resp_OriginalURL sr = normalizeURL input
    /\ fst (redirect env' (resp_ShortCode sr) app')
       = http_Redirect (normalizeURL input) StatusMovedPermanently
    /\ (forall url,
          cache_Get (resp_ShortCode sr) (get_now env') (Cache app') = Some url ->
          url = normalizeURL input)
    /\ db_View (DB app') (lookupOriginal json_Unmarshal (resp_ShortCode sr))
       = Ok (normalizeURL input).
Proof.
  intros Hreach Hrun Hsr. apply reachable_consistent in Hreach.
  destruct (shorten_success _ _ _ _ _ _ _ Hreach Hrun Hsr)
    as (input & _ & Hdec & Hvalid & _ & Hurl & Hok' & Hopen' & _ & u & Hrec & Hu).
  exists input.
  destruct (resolve_record env' _ _ _ Hok' Hopen' Hrec) as (Hresp & Hcache & Hview).
  rewrite Hu in *. done.
Qed.

(** C2. Calling Shorten a second time with the same request gives the same
    response, hence the same short_code, and changes nothing; the store
    then holds exactly one record for that URL, the one under the returned
    code. *)
Theorem shorten_idempotent fuel env r app resp app1 sr fuel' env' :
  reach app ->
  shorten fuel env r app = Some (resp, app1) ->
  shortened resp = Some sr ->
  shorten fuel' env' r app1 = Some (resp, app1)
  /\ (exists u, record app1 (resp_ShortCode sr) = Some u
                /\ OriginalURL u = resp_OriginalURL sr)
  /\ (forall c u, record app1 c = Some u -> OriginalURL u = resp_OriginalURL sr ->
                  c = resp_ShortCode sr).
Proof.
  intros Hreach Hrun Hsr. apply reachable_consistent in Hreach.
  destruct (shorten_success _ _ _ _ _ _ _ Hreach Hrun Hsr)
    as (input & Hpost & Hdec & Hvalid & -> & Hurl & Hok' & Hopen' & Hrev & u & Hrec & Hu).
  rewrite Hurl. split; [| split].
  - unfold shortenHandler. rewrite Hpost, Hdec, Hvalid. simpl.
    rewrite db_View_lookupExisting, Hopen', Hrev. simpl.
    destruct (String.eqb_spec (resp_ShortCode sr) EmptyString) as [Hempty | _]; [| done].
    destruct Hok' as (Hu' & _). apply record_in_Some in Hrec as (v & Hv & _).
    destruct (Hu' _ _ Hv) as (_ & _ & _ & _ & Hk). by apply valid_key_nonempty in Hk.
  - eauto.
  - intros c u' Hrec' Hu'. destruct Hok' as (Hurls & _).
    apply record_in_Some in Hrec' as (v & Hv & Hdec').
    destruct (Hurls _ _ Hv) as (u'' & Hdec'' & _ & Hrev' & _).
    replace u'' with u' in * by congruence. rewrite Hu' in Hrev'. congruence.
Qed.

(** C5. In every state reachable by Shorten and Resolve operations (with
    their goroutines, the cache janitor and restarts), an entry stored
    under a short code in [urls] is a record whose original_url the
    [reverse] bucket maps to that same code, and every [reverse] entry has
    its record: neither exists without its counterpart. *)
Theorem records_match_reverse_index app :
  reach app ->
  (forall c v, urls_bucket app !! c = Some v ->
     exists u, json_Unmarshal v = Ok u /\ ShortCode u = c
               /\ reverse_bucket app !! OriginalURL u = Some c)
  /\ (forall url c, reverse_bucket app !! url = Some c ->
        exists v u, urls_bucket app !! c = Some v /\ json_Unmarshal v = Ok u
                    /\ OriginalURL u = url).
Proof.
  intros (Hu & Hr & _)%reachable_consistent. split.
  - intros c v Hv. destruct (Hu c v Hv) as (u & ? & ? & ? & _). eauto.
  - intros url c Hrev. destruct (Hr url c Hrev) as (u & Hrec & ? & _).
    apply record_in_Some in Hrec as (v & ? & ?). eauto.
Qed.

(** C7. An input without an http:// or https:// prefix is validated with
    https:// prepended, an input with one as it is; the result must parse
    with a non-empty scheme and a non-empty host, and otherwise Shorten
    answers "invalid url format" and leaves the whole state, store and
    cache included, as it was.  It is the prefixed URL that decides: the
    answer is "invalid url format" exactly when the prefixed URL is
    invalid, whatever the input was before; and a request whose prefixed
    URL is valid is served to the end, with the success response for the
    prefixed URL and the reverse index sending that URL to the code,
    whenever the rest of the handler cannot fail (database open, commit
    succeeding, URL within bbolt's key size, record marshalling, a free
    code among the attempts). *)
Theorem shorten_normalizes_then_validates fuel env r app input :
  Method r = "POST" ->
  json_Decode (Body r) = Ok input ->
  (strings_HasPrefix input "http://" = false ->
   strings_HasPrefix input "https://" = false ->
   normalizeURL input = "https://" +:+ input)
  /\ (strings_HasPrefix input "http://" = true \/ strings_HasPrefix input "https://" = true ->
      normalizeURL input = input)
  /\ (valid (normalizeURL input) = true <->
      exists u, url_Parse (normalizeURL input) = Ok u
                /\ Scheme u <> EmptyString /\ Host u <> EmptyString)
  /\ (valid (normalizeURL input) = false ->
      shorten fuel env r app
      = Some (WriteJSON StatusBadRequest (EncodeError {| Error := "invalid url format" |}),
              app))
  /\ (forall resp app' sr,
        shorten fuel env r app = Some (resp, app') -> shortened resp = Some sr ->
        valid (normalizeURL input) = true /\ resp_OriginalURL sr = normalizeURL input)
  /\ (forall resp app',
        shorten fuel env r app = Some (resp, app') ->
        (resp = WriteJSON StatusBadRequest (EncodeError {| Error := "invalid url format" |})
         <-> valid (normalizeURL input) = false))
  /\ (valid (normalizeURL input) = true ->
      opened (DB app) = true ->
      commit_err env = None ->
      Z.of_nat (String.length (normalizeURL input)) <= MaxKeySize ->
      (forall c, is_Ok (json_Marshal {| ID := 0; OriginalURL := normalizeURL input;
                                        ShortCode := c; CreatedAt := tx_now env;
                                        ClickCount := 0 |}) = true) ->
      (exists n, (n < fuel)%nat
         /\ urls_bucket app !! attempt_code env n (normalizeURL input) = None) ->
      exists c app',
        shorten fuel env r app = Some (created_response (normalizeURL input) c, app')
        /\ reverse_bucket app' !! normalizeURL input = Some c).
Proof.
  intros Hpost Hdec. split; [| split; [| split; [| split; [| split; [| split]]]]].
  - intros H1 H2. unfold normalizeURL. by rewrite H1, H2.
  - intros [H | H]; unfold normalizeURL; rewrite H; simpl; [done |].
    by rewrite andb_false_r.
  - unfold isValidURL. destruct (url_Parse (normalizeURL input)) as [u|e].
    + split.
      * intros [Hs Hh]%andb_true_iff. exists u.
        apply negb_true_iff, String.eqb_neq in Hs, Hh. done.
      * intros (u' & [= <-] & Hs & Hh).
        apply andb_true_iff. split; by apply negb_true_iff, String.eqb_neq.
    + split; [done | by intros (u & ? & _)].
  - intros Hinvalid. unfold shortenHandler. by rewrite Hpost, Hdec, Hinvalid.
  - intros resp app' sr Hrun Hsr.
    apply shorten_inv in Hrun
      as [(Hnone & _) | [(input' & c & _ & Hdec' & Hvalid & _ & _ & _ & -> & _)
          | (input' & c & tx' & _ & Hdec' & Hvalid & _ & _ & _ & _ & -> & _)]].
    + congruence.
    + injection Hsr as <-. simpl. by replace input' with input in * by congruence.
    + injection Hsr as <-. simpl. by replace input' with input in * by congruence.
  - intros resp app' Hrun. by eapply shorten_refuses_iff.
  - by apply shorten_accepts.
Qed.

(** C8. When the transaction that persists the new record and its reverse
    entry fails, Shorten answers "failed to save url", logs the error,
    and leaves database and cache as they were; the cache holds no entry
    for the code that was generated. *)
Theorem failed_insert_not_cached fuel env r app input c e :
  reach app ->
  Method r = "POST" ->
  json_Decode (Body r) = Ok input ->
  valid (normalizeURL input) = true ->
  reverse_bucket app !! normalizeURL input = None ->
  generateShortCode fuel env 0 app (normalizeURL input) = Some (Ok c) ->
  snd (db_Update (DB app) (commit_err env)
         (saveURL json_Marshal (normalizeURL input) c (tx_now env))) = Some e ->
  exists app',
    shorten fuel env r app
    = Some (WriteJSON StatusInternalServerError
              (EncodeError {| Error := "failed to save url" |}), app')
    /\ Cache app' = Cache app /\ DB app' = DB app
    /\ Log app' = Log app ++ ["database insert error: " +:+ error_Error e]
    /\ Cache app' !! c = None
    /\ forall now, cache_Get c now (Cache app') = None.
Proof.
  intros Hreach Hpost Hdec Hvalid Hrev Hgen Hfail.
  apply reachable_consistent in Hreach as (_ & _ & Hc).
  exists (log_Printf ("database insert error: " +:+ error_Error e) app).
  assert (Hnone : Cache app !! c = None).
  { destruct (Cache app !! c) as [it|] eqn:Hit; [| done].
    destruct (Hc c it Hit) as (u & (v & Hv & _)%record_in_Some & _).
    apply generateShortCode_fresh in Hgen as (_ & Hfree & _).
    unfold urls_bucket in *. congruence. }
  split; [| repeat split; try done; intros now; unfold cache_Get; simpl; by rewrite Hnone].
  unfold shortenHandler. rewrite Hpost, Hdec, Hvalid. simpl.
  rewrite db_View_lookupExisting.
  pose proof Hgen as (Hopen & _)%generateShortCode_fresh.
  rewrite Hopen, Hrev, Hgen. simpl.
  destruct (db_Update _ _ _) as [db' err]. simpl in Hfail. by rewrite Hfail.
Qed.

(** C9, as amended.  Whatever happens inside a click-count goroutine, no
    log line is written and the cache is untouched; the goroutine is gone
    afterwards and none is started in its place; its transaction body never
    reports an error of its own, and when the transaction fails the
    database is as before.  The response of [redirectHandler] does not
    depend on the outcome of any transaction. *)
Theorem goroutine_errors_dropped commit_err i app :
  Log (run commit_err i app) = Log app
  /\ Cache (run commit_err i app) = Cache app
  /\ (forall c, Goroutines app !! i = Some c ->
        Goroutines (run commit_err i app) = delete i (Goroutines app))
  /\ (forall c e,
        Goroutines app !! i = Some c ->
        snd (db_Update (DB app) commit_err
               (incrementClicks json_Marshal json_Unmarshal c)) = Some e ->
        DB (run commit_err i app) = DB app)
  /\ (forall c tx, is_Ok (incrementClicks json_Marshal json_Unmarshal c tx) = true)
  /\ (forall env env' c,
        get_now env = get_now env' -> set_now env = set_now env' ->
        redirect env c app = redirect env' c app).
Proof.
  unfold run_goroutine.
  split; [| split; [| split; [| split; [| split]]]].
  - by destruct (Goroutines app !! i) as [c|].
  - by destruct (Goroutines app !! i) as [c|].
  - by intros c ->.
  - intros c e -> Hfail. simpl. by eapply clickGoroutine_failed.
  - intros c tx. by destruct (incrementClicks_ok c tx) as (tx' & -> & _).
  - intros env env' c Hget Hset. unfold redirectHandler. by rewrite Hget, Hset.
Qed.

(** ** Counting clicks *)

Lemma wrap_int_small z :
  -9223372036854775808 <= z <= 9223372036854775807 -> wrap_int z = z.
Proof. intros Hz. unfold wrap_int. rewrite Z.mod_small; lia. Qed.

Lemma set_ClickCount_twice n m u :
  set_ClickCount n (set_ClickCount m u) = set_ClickCount n u.
Proof. done. Qed.

(** A goroutine whose transaction goes through advances the count. *)
Lemma clickGoroutine_increments shortCode app v u v' :
  opened (DB app) = true ->
  urls_bucket app !! shortCode = Some v ->
  json_Unmarshal v = Ok u ->
  json_Marshal (set_ClickCount (wrap_int (ClickCount u + 1)) u) = Ok v' ->
  valid_key shortCode ->
  let app' := goroutine None shortCode app in
  opened (DB app') = true
  /\ urls_bucket app' = <[shortCode := v']> (urls_bucket app)
  /\ Cache app' = Cache app /\ Goroutines app' = Goroutines app.
Proof.
  intros Hopen Hv Hu Hv' Hk. simpl.
  unfold clickGoroutine, db_Update. rewrite Hopen.
  assert (Hb : exists b, buckets (DB app) !! "urls" = Some b /\ b !! shortCode = Some v).
  { unfold urls_bucket, bucket_of in Hv.
    destruct (buckets (DB app) !! "urls") as [b|]; [eauto |].
    simpl in Hv. by rewrite lookup_empty in Hv. }
  destruct Hb as (b & Hb & Hbv).
  unfold incrementClicks, tx_Bucket, bucket_Get. rewrite Hb, Hbv, Hu, Hv'.
  destruct (bucket_Put_valid (buckets (DB app)) "urls" shortCode v' Hk) as [tx' Hput].
  rewrite Hput. simpl.
  apply bucket_Put_ok in Hput as (_ & Hurls & _); [| by rewrite Hb].
  unfold urls_bucket. simpl. done.
Qed.

(** One resolve followed by its goroutine, on a record whose count is [n]. *)
Lemma resolve_settle_counts env shortCode app v u n :
  opened (DB app) = true -> Goroutines app = [] ->
  urls_bucket app !! shortCode = Some v ->
  json_Marshal (set_ClickCount n u) = Ok v ->
  OriginalURL u <> EmptyString -> valid_key shortCode ->
  commit_err env = None ->
  0 <= n < 9223372036854775807 ->
  let app' := settle json_Marshal json_Unmarshal (commit_err env)
                (snd (redirect env shortCode app)) in
  opened (DB app') = true /\ Goroutines app' = []
  /\ exists v', urls_bucket app' !! shortCode = Some v'
                /\ json_Marshal (set_ClickCount (n + 1) u) = Ok v'.
Proof.
  intros Hopen Hgo Hv Hm Hurl Hk Hce Hn. simpl.
  pose proof (json_roundtrip _ _ Hm) as Hdec.
  assert (Hrec : record app shortCode = Some (set_ClickCount n u)).
  { apply record_in_Some. eauto. }
  assert (Hinc : exists v', json_Marshal (set_ClickCount (n + 1) u) = Ok v').
  { pose proof (json_Marshal_ClickCount (set_ClickCount n u) (n + 1)) as H.
    rewrite Hm, set_ClickCount_twice in H. specialize (H eq_refl).
    destruct (json_Marshal (set_ClickCount (n + 1) u)); [eauto | done]. }
  destruct Hinc as [v' Hv'].
  assert (Hstarted : exists app1,
            snd (redirect env shortCode app) = app1
            /\ DB app1 = DB app /\ Goroutines app1 = [shortCode]).
  { destruct (redirect env shortCode app) as [resp app1] eqn:Hrun. simpl.
    exists app1. split; [done |].
    pose proof Hrun as Hrun'.
    apply redirect_inv in Hrun
      as [[-> ->] | [(url & _ & _ & _ & ->) | (u' & _ & _ & _ & _ & _ & _ & ->)]];
      simpl; rewrite ?Hgo; [| done | done].
    exfalso. revert Hrun'. unfold redirectHandler.
    destruct (String.eqb_spec shortCode EmptyString) as [-> | _];
      [by apply valid_key_nonempty in Hk |].
    destruct (cache_Get _ _ _); [done |].
    rewrite db_View_lookupOriginal, Hopen, Hrec. simpl.
    destruct (String.eqb_spec (OriginalURL u) EmptyString); done. }
  destruct Hstarted as (app1 & -> & Hdb1 & Hgo1).
  unfold settle. rewrite Hgo1, Hce. cbn [fold_left].
  change (opened (DB (goroutine None shortCode app1)) = true
          /\ @nil string = []
          /\ exists v0, urls_bucket (goroutine None shortCode app1) !! shortCode = Some v0
                        /\ json_Marshal (set_ClickCount (n + 1) u) = Ok v0).
  destruct (clickGoroutine_increments shortCode app1 v (set_ClickCount n u) v')
    as (Hopen' & Hurls' & _).
  - by rewrite Hdb1.
  - unfold urls_bucket. by rewrite Hdb1.
  - done.
  - simpl. rewrite wrap_int_small by lia. done.
  - done.
  - split; [done |]. split; [done |]. exists v'.
    by rewrite Hurls', lookup_insert_eq.
Qed.

Lemma resolve_each_counts envs shortCode app v u n :
  opened (DB app) = true -> Goroutines app = [] ->
  urls_bucket app !! shortCode = Some v ->
  json_Marshal (set_ClickCount n u) = Ok v ->
  OriginalURL u <> EmptyString -> valid_key shortCode ->
  Forall (fun env => commit_err env = None) envs ->
  0 <= n -> n + Z.of_nat (length envs) <= 9223372036854775807 ->
  exists v',
    urls_bucket (resolve_each json_Marshal json_Unmarshal envs shortCode app) !! shortCode
    = Some v'
    /\ json_Marshal (set_ClickCount (n + Z.of_nat (length envs)) u) = Ok v'.
Proof.
  revert app v n. induction envs as [|env envs IH]; intros app v n
    Hopen Hgo Hv Hm Hurl Hk Hce Hn Hmax.
  - simpl. rewrite Z.add_0_r. eauto.
  - inversion Hce as [|? ? Hce1 Hce2]; subst.
    cbn [resolve_each].
    destruct (resolve_settle_counts env shortCode app v u n)
      as (Hopen' & Hgo' & v1 & Hv1 & Hm1); try done.
    { simpl length in Hmax. lia. }
    destruct (IH _ v1 (n + 1) Hopen' Hgo' Hv1 Hm1 Hurl Hk Hce2) as (v' & Hv' & Hm').
    { lia. }
    { simpl length in Hmax. lia. }
    exists v'. split; [done |].
    replace (n + Z.of_nat (length (env :: envs))) with (n + 1 + Z.of_nat (length envs))
      by (simpl length; lia).
    done.
Qed.

(** C6. From a store holding a record for [shortCode] with click_count 0,
    N sequential resolves, each one's goroutine committing before the next
    request, leave the record with click_count N and its other fields as
    they were.  Cache content and clock are arbitrary, so each resolve may
    be served from the cache or from the store; N is within Go's [int]. *)
Theorem click_count_after_resolves envs shortCode app v u :
  opened (DB app) = true -> Goroutines app = [] ->
  urls_bucket app !! shortCode = Some v ->
  json_Marshal u = Ok v -> ClickCount u = 0 ->
  OriginalURL u <> EmptyString -> valid_key shortCode ->
  Forall (fun env => commit_err env = None) envs ->
  Z.of_nat (length envs) <= 9223372036854775807 ->
  exists u',
    record (resolve_each json_Marshal json_Unmarshal envs shortCode app) shortCode = Some u'
    /\ ClickCount u' = Z.of_nat (length envs)
    /\ OriginalURL u' = OriginalURL u /\ ShortCode u' = ShortCode u
    /\ CreatedAt u' = CreatedAt u /\ ID u' = ID u.
Proof.
  intros Hopen Hgo Hv Hm Hzero Hurl Hk Hce Hmax.
  assert (Hu : set_ClickCount 0 u = u) by (destruct u; simpl in *; by subst).
  assert (Hm0 : json_Marshal (set_ClickCount 0 u) = Ok v) by (by rewrite Hu).
  destruct (resolve_each_counts envs shortCode app v u 0 Hopen Hgo Hv Hm0 Hurl Hk Hce)
    as (v' & Hv' & Hm'); [lia | lia |].
  exists (set_ClickCount (Z.of_nat (length envs)) u). split; [| done].
  apply record_in_Some. exists v'. split; [done |].
  rewrite Z.add_0_l in Hm'. by apply json_roundtrip.
Qed.

(** ** The generated code *)

Lemma hex_digit_code n :
  0 <= n < 16 ->
  48 <= Z.of_N (N_of_ascii (char_at hextable n)) <= 57
  \/ 97 <= Z.of_N (N_of_ascii (char_at hextable n)) <= 102.
Proof.
  intros Hn.
  pose proof (nibble_forall
                (fun m => let d := Z.of_N (N_of_ascii (char_at hextable m)) in
                          (48 <=? d) && (d <=? 57) || (97 <=? d) && (d <=? 102))
                eq_refl n Hn) as Hd.
  cbn zeta in Hd.
  apply orb_true_iff in Hd as [Hd | Hd]; apply andb_true_iff in Hd as [Hlo Hhi];
    apply Z.leb_le in Hlo, Hhi; auto.
Qed.

(** C3, as amended.  generateShortCode returns the code of the first
    attempt whose code is not a key of [urls]: the MD5 digest of the URL
    followed by the decimal timestamp of that attempt is written in
    lowercase hex, and each of the first eight hex characters (the nibbles
    of the first four digest bytes) is mapped through its ASCII code
    modulo 62 into [base62Chars]; all earlier attempts collided.  The code
    has exactly eight characters, all from the 62-symbol alphabet, and it
    is returned as soon as [fuel] exceeds the number of collisions. *)
Theorem generateShortCode_hex_digits fuel env k app originalURL c :
  generateShortCode fuel env k app originalURL = Some (Ok c) <->
  opened (DB app) = true
  /\ exists n,
       (n < fuel)%nat
       /\ (forall j, (j < n)%nat ->
             is_Some (urls_bucket app !! attempt_code env (k + j) originalURL))
       /\ urls_bucket app !! c = None
       /\ exists b0 b1 b2 b3 rest,
            md5.Sum (bytes_of_string (originalURL +:+ fmt_Sprintf_d (gen_now env (k + n))))
            = b0 :: b1 :: b2 :: b3 :: rest
            /\ c = String (symbol_of_nibble (Z.shiftr b0 4))
                    (String (symbol_of_nibble (Z.land b0 15))
                    (String (symbol_of_nibble (Z.shiftr b1 4))
                    (String (symbol_of_nibble (Z.land b1 15))
                    (String (symbol_of_nibble (Z.shiftr b2 4))
                    (String (symbol_of_nibble (Z.land b2 15))
                    (String (symbol_of_nibble (Z.shiftr b3 4))
                    (String (symbol_of_nibble (Z.land b3 15)) EmptyString)))))))
            /\ String.length c = 8%nat
            /\ Forall (fun a => In a (list_ascii_of_string base62Chars))
                 (list_ascii_of_string c).
Proof.
  rewrite generateShortCode_iff. split.
  - intros (Hopen & n & Hn & Hcol & Hfree & ->). split; [done |].
    exists n. split; [done |]. split; [done |]. split; [done |].
    destruct (attempt_code_shape env (k + n) originalURL) as [Hlen Hall].
    destruct (Sum_head (bytes_of_string (originalURL +:+ fmt_Sprintf_d (gen_now env (k + n)))))
      as (b0 & b1 & b2 & b3 & rest & Hsum & _).
    exists b0, b1, b2, b3, rest. split; [done |]. split.
    + unfold attempt_code, hashURL. by rewrite Hsum, encodeShortCode_hex.
    + split; [done |]. eapply Forall_impl; [exact Hall |].
      intros a. apply generated_alphabet_base62.
  - intros (Hopen & n & Hn & Hcol & Hfree & b0 & b1 & b2 & b3 & rest & Hsum & Hc & _).
    split; [done |]. exists n.
    assert (Hcode : c = attempt_code env (k + n) originalURL).
    { unfold attempt_code, hashURL. by rewrite Hsum, encodeShortCode_hex. }
    rewrite <- Hcode. done.
Qed.

(** C4. Every code generateShortCode returns consists only of the sixteen
    symbols J K L M N O W X Y Z 0 1 2 3 4 5: each of its characters is
    [base62Chars] indexed by the ASCII code, modulo 62, of one of the
    first eight characters of the hex-encoded hash, and those codes lie
    in 48..57 or 97..102. *)
Theorem generateShortCode_sixteen_symbols fuel env k app originalURL c :
  generateShortCode fuel env k app originalURL = Some (Ok c) ->
  Forall (fun a => In a generated_alphabet) (list_ascii_of_string c)
  /\ exists n,
       let hash := hashURL originalURL (gen_now env (k + n)) in
       c = encodeShortCode hash
       /\ forall i, (i < 8)%nat ->
            (48 <= byte_at hash i <= 57 \/ 97 <= byte_at hash i <= 102)
            /\ String.get i c = Some (char_at base62Chars (byte_at hash i mod 62)).
Proof.
  intros (_ & n & _ & _ & _ & ->)%generateShortCode_iff.
  split; [apply attempt_code_shape |].
  exists n. cbn zeta. split; [done |].
  unfold attempt_code, hashURL.
  destruct (Sum_head (bytes_of_string (originalURL +:+ fmt_Sprintf_d (gen_now env (k + n)))))
    as (b0 & b1 & b2 & b3 & rest & -> & H0 & H1 & H2 & H3).
  rewrite encodeShortCode_hex.
  pose proof (hi_nibble_range _ H0). pose proof (lo_nibble_range b0).
  pose proof (hi_nibble_range _ H1). pose proof (lo_nibble_range b1).
  pose proof (hi_nibble_range _ H2). pose proof (lo_nibble_range b2).
  pose proof (hi_nibble_range _ H3). pose proof (lo_nibble_range b3).
  intros i Hi.
  do 8 (destruct i as [|i]; [split; [by apply hex_digit_code | reflexivity] |]).
  lia.
Qed.

(** C10, as amended.  The short URL of every successful Shorten call is
    the fixed origin http://localhost:8080, written in the handler and the
    same on the duplicate and on the insert path, followed by a slash and
    the returned short_code. *)
Theorem shortURL_fixed_origin fuel env r app resp app' sr :
  shorten fuel env r app = Some (resp, app') ->
  shortened resp = Some sr ->
  ShortURL sr = "http://localhost:8080/" +:+ resp_ShortCode sr.
Proof.
  intros Hrun Hsr.
  apply shorten_inv in Hrun
    as [(Hnone & _) | [(input & c & _ & _ & _ & _ & _ & _ & -> & _)
        | (input & c & tx' & _ & _ & _ & _ & _ & _ & _ & -> & _)]];
    [congruence | |]; by injection Hsr as <-.
Qed.

(** ** Further properties of the generator *)

Lemma prefix_app p s : String.prefix p (p +:+ s) = true.
Proof.
  induction p as [|c p IH]; simpl; [by destruct s |].
  destruct (ascii_dec c c); [done | congruence].
Qed.

(** X1. What shortenHandler validates and stores always starts with
    http:// or https://, so it is never empty, and normalizing it again
    changes nothing. *)
Theorem normalizeURL_prefixed reqURL :
  (strings_HasPrefix (normalizeURL reqURL) "http://" = true
   \/ strings_HasPrefix (normalizeURL reqURL) "https://" = true)
  /\ normalizeURL (normalizeURL reqURL) = normalizeURL reqURL
  /\ normalizeURL reqURL <> EmptyString.
Proof.
  assert (Hp : strings_HasPrefix (normalizeURL reqURL) "http://" = true
               \/ strings_HasPrefix (normalizeURL reqURL) "https://" = true).
  { unfold normalizeURL.
    destruct (strings_HasPrefix reqURL "http://") eqn:H1; simpl; [by left |].
    destruct (strings_HasPrefix reqURL "https://") eqn:H2; simpl; [by right |].
    right. apply prefix_app. }
  split; [done |]. split.
  - unfold normalizeURL at 1.
    destruct Hp as [-> | ->]; simpl; [done | by rewrite andb_false_r].
  - intros Hempty. rewrite Hempty in Hp. by destruct Hp.
Qed.

Lemma encodeShortCode_size hash :
  String.length (encodeShortCode hash) = Nat.min 8 (String.length hash).
Proof.
  destruct hash as [|c0 [|c1 [|c2 [|c3 [|c4 [|c5 [|c6 [|c7 rest]]]]]]]]; reflexivity.
Qed.

(** X2. The loop of generateShortCode emits one symbol per character it
    finds among the first eight of the hash: the code has eight characters
    when the hash has at least eight, and as many as the hash otherwise, a
    hash without characters giving the empty code. *)
Theorem encodeShortCode_length hash :
  String.length (encodeShortCode hash) = Nat.min 8 (String.length hash)
  /\ (encodeShortCode hash = EmptyString <-> hash = EmptyString).
Proof.
  split; [apply encodeShortCode_size |].
  pose proof (encodeShortCode_size hash) as Hlen. split.
  - intros Hempty. rewrite Hempty in Hlen. destruct hash; [done | discriminate].
  - by intros ->.
Qed.

Lemma hex_EncodeToString_length src :
  String.length (hex_EncodeToString src) = (2 * length src)%nat.
Proof. induction src as [|v src IH]; simpl; [done |]. rewrite IH. lia. Qed.

Lemma hex_digit_in_table n :
  0 <= n < 16 -> In (char_at hextable n) (list_ascii_of_string hextable).
Proof.
  intros Hn.
  pose proof (nibble_forall
                (fun m => existsb (Ascii.eqb (char_at hextable m))
                            (list_ascii_of_string hextable))
                eq_refl n Hn) as Hex.
  apply existsb_exists in Hex as (a & Ha & Heq).
  apply Ascii.eqb_eq in Heq. by rewrite Heq.
Qed.

Lemma hex_EncodeToString_digits src :
  Forall (fun b => 0 <= b < 256) src ->
  Forall (fun a => In a (list_ascii_of_string hextable))
    (list_ascii_of_string (hex_EncodeToString src)).
Proof.
  induction 1 as [|b src Hb _ IH]; simpl; [constructor |].
  apply Forall_cons; split; [by apply hex_digit_in_table, hi_nibble_range |].
  apply Forall_cons; split; [apply hex_digit_in_table, lo_nibble_range | done].
Qed.

(** X3. The hash generateShortCode indexes is always 32 lowercase hex
    digits, whatever the URL and the timestamp: the guard [i < len(hash)]
    of its loop never fails. *)
Theorem hashURL_hex32 originalURL now :
  String.length (hashURL originalURL now) = 32%nat
  /\ Forall (fun a => In a (list_ascii_of_string hextable))
       (list_ascii_of_string (hashURL originalURL now))
  /\ String.length (encodeShortCode (hashURL originalURL now)) = 8%nat.
Proof.
  unfold hashURL.
  assert (Hlen : String.length
                   (hex_EncodeToString
                      (md5.Sum (bytes_of_string (originalURL +:+ fmt_Sprintf_d now))))
                 = 32%nat).
  { by rewrite hex_EncodeToString_length, Sum_length. }
  split; [done |]. split; [apply hex_EncodeToString_digits, Sum_range |].
  by rewrite encodeShortCode_size, Hlen.
Qed.

Lemma symbol_of_nibble_inj n m :
  0 <= n < 16 -> 0 <= m < 16 -> symbol_of_nibble n = symbol_of_nibble m -> n = m.
Proof.
  intros Hn Hm Heq.
  pose proof (nibble_forall
                (fun a => forallb
                            (fun b => implb (Ascii.eqb (symbol_of_nibble a)
                                               (symbol_of_nibble b)) (a =? b))
                            (map Z.of_nat (seq 0 16)))
                eq_refl n Hn) as Hall.
  pose proof (nibble_forall _ Hall m Hm) as Himp. cbn beta in Himp.
  rewrite Heq, Ascii.eqb_refl in Himp. simpl in Himp. by apply Z.eqb_eq.
Qed.

Lemma byte_of_nibbles b : 0 <= b -> b = 16 * Z.shiftr b 4 + Z.land b 15.
Proof.
  intros Hb. rewrite Z.shiftr_div_pow2 by lia.
  change 15 with (Z.ones 4). rewrite Z.land_ones by lia.
  change (2 ^ 4) with 16. apply Z.div_mod. lia.
Qed.

Lemma nibbles_inj b b' :
  0 <= b < 256 -> 0 <= b' < 256 ->
  symbol_of_nibble (Z.shiftr b 4) = symbol_of_nibble (Z.shiftr b' 4) ->
  symbol_of_nibble (Z.land b 15) = symbol_of_nibble (Z.land b' 15) ->
  b = b'.
Proof.
  intros Hb Hb' Hhi Hlo.
  apply symbol_of_nibble_inj in Hhi; [| by apply hi_nibble_range | by apply hi_nibble_range].
  apply symbol_of_nibble_inj in Hlo; [| apply lo_nibble_range | apply lo_nibble_range].
  rewrite (byte_of_nibbles b), (byte_of_nibbles b') by lia. by rewrite Hhi, Hlo.
Qed.

(** X4. Two digests give the same short code exactly when their first four
    bytes are the same: the code carries 32 of the digest's 128 bits, and
    the other twelve bytes never matter. *)
Theorem shortCode_iff_first_four_bytes b0 b1 b2 b3 rest b0' b1' b2' b3' rest' :
  Forall (fun b => 0 <= b < 256) [b0; b1; b2; b3; b0'; b1'; b2'; b3'] ->
  encodeShortCode (hex_EncodeToString (b0 :: b1 :: b2 :: b3 :: rest))
  = encodeShortCode (hex_EncodeToString (b0' :: b1' :: b2' :: b3' :: rest'))
  <-> b0 = b0' /\ b1 = b1' /\ b2 = b2' /\ b3 = b3'.
Proof.
  intros Hr. rewrite !encodeShortCode_hex.
  repeat (apply Forall_cons in Hr as [? Hr]).
  split.
  - intros [= E0 E0' E1 E1' E2 E2' E3 E3'].
    repeat split; by apply nibbles_inj.
  - by intros (-> & -> & -> & ->).
Qed.

(** ** Further properties of the handlers *)

Lemma step_opened app app' :
  step url_Parse json_Marshal json_Unmarshal json_Decode app app' ->
  opened (DB app) = true -> opened (DB app') = true.
Proof.
  intros Hstep Hopen. destruct Hstep as
    [fuel env r resp app app' Hrun | env c app | ce i app | now app | PORT app app' Hmain].
  - apply shorten_inv in Hrun
      as [(_ & [-> | [line ->]]) | [(input & c & _ & _ & _ & _ & _ & _ & _ & ->)
          | (input & c & tx' & _ & _ & _ & _ & _ & _ & _ & _ & ->)]]; done.
  - destruct (redirect env c app) as [resp app'] eqn:Hrun. simpl.
    by apply redirect_inv in Hrun
      as [[_ ->] | [(url & _ & _ & _ & ->) | (u & _ & _ & _ & _ & _ & _ & ->)]].
  - unfold run_goroutine. destruct (Goroutines app !! i) as [c|]; [| done].
    destruct (clickGoroutine_cases ce c app) as (_ & _ & _ & Ho & _).
    simpl in *. congruence.
  - done.
  - by apply main_app_inv in Hmain as (? & _).
Qed.

Lemma reachable_opened app : reach app -> opened (DB app) = true.
Proof.
  induction 1 as [PORT app Hmain | app app' _ IH Hstep].
  - by apply main_app_inv in Hmain as (? & _).
  - by eapply step_opened.
Qed.

Lemma generateShortCode_Err fuel env k app originalURL err :
  generateShortCode fuel env k app originalURL = Some (Err err) ->
  opened (DB app) = false /\ err = ErrDatabaseNotOpen.
Proof.
  revert k. induction fuel as [|fuel IH]; intros k; [done |].
  rewrite generateShortCode_step. destruct (opened (DB app)); [| by intros [= <-]].
  destruct (urls_bucket app !! attempt_code env k originalURL); [apply IH | done].
Qed.

(** X5. In a reachable state, resolving a code that has no record answers
    NotFound and leaves everything as it was: nothing is cached and no
    click-count goroutine is started. *)
Theorem redirect_unknown_code env shortCode app :
  reach app ->
  urls_bucket app !! shortCode = None ->
  redirect env shortCode app = (http_NotFound, app).
Proof.
  intros Hreach Hnone. pose proof (reachable_opened _ Hreach) as Hopen.
  apply reachable_consistent in Hreach as (_ & _ & Hc).
  unfold redirectHandler. destruct (String.eqb shortCode EmptyString); [done |].
  assert (Hget : cache_Get shortCode (get_now env) (Cache app) = None).
  { unfold cache_Get. destruct (Cache app !! shortCode) as [it|] eqn:Hit; [| done].
    destruct (Hc _ _ Hit) as (u & (v & Hv & _)%record_in_Some & _). congruence. }
  rewrite Hget, db_View_lookupOriginal, Hopen.
  unfold record_at, record_in. by rewrite Hnone.
Qed.

(** X6. A shortenHandler call that returns no short code, whatever the
    reason, leaves the database, the cache and the started goroutines as
    they were; it writes at most one log line. *)
Theorem shorten_failure_leaves_store fuel env r app resp app' :
  shorten fuel env r app = Some (resp, app') ->
  shortened resp = None ->
  DB app' = DB app /\ Cache app' = Cache app /\ Goroutines app' = Goroutines app
  /\ (Log app' = Log app \/ exists line, Log app' = Log app ++ [line]).
Proof.
  intros Hrun Hnone.
  apply shorten_inv in Hrun
    as [(_ & [-> | [line ->]]) | [(input & c & _ & _ & _ & _ & _ & _ & -> & _)
        | (input & c & tx' & _ & _ & _ & _ & _ & _ & _ & -> & _)]];
    [by auto | | done | done].
  simpl. eauto 6.
Qed.


Lemma step_keeps_reverse app app' url c :
  ok app ->
  step url_Parse json_Marshal json_Unmarshal json_Decode app app' ->
  reverse_bucket app !! url = Some c ->
  reverse_bucket app' !! url = Some c.
Proof.
  intros Hok Hstep Hrev. destruct Hstep as
    [fuel env r resp app app' Hrun | env c0 app | ce i app | now app | PORT app app' Hmain].
  - apply shorten_inv in Hrun
      as [(_ & [-> | [line ->]]) | [(input & c0 & _ & _ & _ & _ & _ & _ & _ & ->)
          | (input & c0 & tx' & _ & _ & _ & Hmiss & _ & Hsave & _ & _ & ->)]];
      [done .. |].
    apply saveURL_ok in Hsave as (v & _ & _ & Hr' & _).
    change (reverse_bucket (created_app env (normalizeURL input) c0 tx' app))
      with (bucket_of tx' "reverse").
    rewrite Hr', lookup_insert_ne; [done |].
    intros <-. apply (agree_reverse_miss _ _ _ _ Hok) in Hmiss.
    unfold reverse_bucket in *. congruence.
  - destruct (redirect env c0 app) as [resp app'] eqn:Hrun. simpl.
    by apply redirect_inv in Hrun
      as [[_ ->] | [(url0 & _ & _ & _ & ->) | (u0 & _ & _ & _ & _ & _ & _ & ->)]].
  - unfold run_goroutine. destruct (Goroutines app !! i) as [c0|]; [| done].
    destruct (clickGoroutine_cases ce c0 app) as (_ & _ & _ & _ & Hr & _).
    change (reverse_bucket (set_Goroutines (delete i (Goroutines app))
                              (goroutine ce c0 app)))
      with (reverse_bucket (goroutine ce c0 app)).
    by rewrite Hr.
  - done.
  - apply main_app_inv in Hmain as (_ & _ & -> & _). done.
Qed.

(** X8. While requests are served one at a time, a short code is
    permanent.  Once the reverse index of a reachable state maps a URL to
    a code, then after any further steps, each one a whole handler call,
    a goroutine, a cache sweep or a restart, it still does, resolving
    the code redirects to that URL, and shortening the URL again answers
    with that code and changes nothing.  Creates whose transactions
    overlap are not steps, and can replace the code of the reverse
    index (X22). *)
Theorem short_code_permanent app app' url c :
  reach app ->
  rtc (step url_Parse json_Marshal json_Unmarshal json_Decode) app app' ->
  reverse_bucket app !! url = Some c ->
  reverse_bucket app' !! url = Some c
  /\ (forall env,
        fst (redirect env c app') = http_Redirect url StatusMovedPermanently)
  /\ (forall fuel env r input,
        Method r = "POST" -> json_Decode (Body r) = Ok input ->
        normalizeURL input = url -> valid url = true ->
        shorten fuel env r app' = Some (created_response url c, app')).
Proof.
  intros Hreach Hsteps Hrev.
  assert (Hboth : reach app' /\ reverse_bucket app' !! url = Some c).
  { induction Hsteps as [app | app app1 app' Hstep _ IH]; [done |].
    apply IH.
    - by eapply reachable_step.
    - eapply step_keeps_reverse; eauto using reachable_consistent. }
  destruct Hboth as [Hreach' Hrev'].
  pose proof (reachable_opened _ Hreach') as Hopen.
  pose proof (reachable_consistent _ Hreach') as Hok.
  pose proof Hok as (Hu & Hr & _).
  destruct (Hr _ _ Hrev') as (u & Hrec & Hurl & _).
  split; [done |]. split.
  - intros env. destruct (resolve_record env c app' u Hok Hopen Hrec) as (-> & _).
    by rewrite Hurl.
  - intros fuel env r input Hpost Hdec Hnorm Hvalid.
    unfold shortenHandler. rewrite Hpost, Hdec, Hnorm, Hvalid. simpl.
    rewrite db_View_lookupExisting, Hopen, Hrev'. simpl.
    destruct (String.eqb_spec c EmptyString) as [-> | _]; [| done].
    apply record_in_Some in Hrec as (v & Hv & _).
    destruct (Hu _ _ Hv) as (_ & _ & _ & _ & Hk). by apply valid_key_nonempty in Hk.
Qed.

(** X9. On an open database setupDatabase succeeds, after it both buckets
    exist, no entry of any bucket has changed, and running it again
    changes nothing; on a closed database, or when the commit fails, it
    returns the error and the database is as before. *)
Theorem setupDatabase_ensures_buckets commit_err db :
  (opened db = true -> commit_err = None ->
   exists db',
     setupDatabase commit_err db = (db', None)
     /\ opened db' = true
     /\ is_Some (buckets db' !! "urls") /\ is_Some (buckets db' !! "reverse")
     /\ (forall name, bucket_of (buckets db') name = bucket_of (buckets db) name)
     /\ setupDatabase None db' = (db', None))
  /\ (opened db = false -> setupDatabase commit_err db = (db, Some ErrDatabaseNotOpen))
  /\ (forall e, opened db = true -> commit_err = Some e ->
        setupDatabase commit_err db = (db, Some e)).
Proof.
  unfold setupDatabase, db_Update. split; [| split].
  - intros Hopen ->. rewrite Hopen.
    destruct (tx_CreateBucketIfNotExists (buckets db) "urls") as [tx1|] eqn:H1;
      [| by unfold tx_CreateBucketIfNotExists in H1; destruct (_ !! _)].
    destruct (tx_CreateBucketIfNotExists tx1 "reverse") as [tx2|] eqn:H2;
      [| by unfold tx_CreateBucketIfNotExists in H2; destruct (_ !! _)].
    eexists. split; [done |]. simpl.
    destruct (bucket_of_create _ _ _ "urls" H1) as [Hs1 _].
    destruct (bucket_of_create _ _ _ "reverse" H2) as [Hs2 _].
    assert (Hs1' : is_Some (tx2 !! "urls")).
    { revert H2. unfold tx_CreateBucketIfNotExists.
      destruct (tx1 !! "reverse"); intros [= <-]; [done |].
      by rewrite lookup_insert_ne. }
    split; [done |]. split; [done |]. split; [done |]. split.
    + intros name.
      destruct (bucket_of_create _ _ _ name H2) as [_ ->].
      by destruct (bucket_of_create _ _ _ name H1) as [_ ->].
    + unfold tx_CreateBucketIfNotExists.
      destruct Hs1' as [b1 ->]. by destruct Hs2 as [b2 ->].
  - by intros ->.
  - intros e Hopen ->. rewrite Hopen.
    destruct (tx_CreateBucketIfNotExists (buckets db) "urls") as [tx1|] eqn:H1;
      [| by unfold tx_CreateBucketIfNotExists in H1; destruct (_ !! _)].
    destruct (tx_CreateBucketIfNotExists tx1 "reverse") as [tx2|] eqn:H2;
      [done | by unfold tx_CreateBucketIfNotExists in H2; destruct (_ !! _)].
Qed.

(** X10. On a closed database a valid create request is answered "server
    error" with the line "error generating short code: database not open"
    logged and nothing else changed; a resolve is still served from a live
    cache entry and is NotFound otherwise. *)
Theorem closed_database_responses fuel env r app input shortCode :
  opened (DB app) = false ->
  (Method r = "POST" -> json_Decode (Body r) = Ok input ->
   valid (normalizeURL input) = true -> (0 < fuel)%nat ->
   shorten fuel env r app
   = Some (WriteJSON StatusInternalServerError (EncodeError {| Error := "server error" |}),
           log_Printf "error generating short code: database not open" app))
  /\ (cache_Get shortCode (get_now env) (Cache app) = None ->
      redirect env shortCode app = (http_NotFound, app))
  /\ (forall url, shortCode <> EmptyString ->
        cache_Get shortCode (get_now env) (Cache app) = Some url ->
        redirect env shortCode app
        = (http_Redirect url StatusMovedPermanently, go shortCode app)).
Proof.
  intros Hclosed. split; [| split].
  - intros Hpost Hdec Hvalid Hfuel. unfold shortenHandler.
    rewrite Hpost, Hdec, Hvalid. simpl.
    rewrite db_View_lookupExisting, Hclosed. simpl.
    by rewrite generateShortCode_closed.
  - intros Hget. unfold redirectHandler.
    destruct (String.eqb shortCode EmptyString); [done |].
    by rewrite Hget, db_View_lookupOriginal, Hclosed.
  - intros url Hne Hget. unfold redirectHandler.
    destruct (String.eqb_spec shortCode EmptyString) as [-> | _]; [done |].
    by rewrite Hget.
Qed.

(** X11. While the process serves, the database stays open, so
    generateShortCode never fails and shortenHandler never answers
    "server error" in a reachable state. *)
Theorem reachable_never_server_error fuel env r app resp app' :
  reach app ->
  shorten fuel env r app = Some (resp, app') ->
  opened (DB app) = true /\ opened (DB app') = true
  /\ resp <> WriteJSON StatusInternalServerError
               (EncodeError {| Error := "server error" |})
  /\ forall k originalURL err,
       generateShortCode fuel env k app originalURL <> Some (Err err).
Proof.
  intros Hreach Hrun. pose proof (reachable_opened _ Hreach) as Hopen.
  assert (Hgen : forall k originalURL err,
            generateShortCode fuel env k app originalURL <> Some (Err err)).
  { intros k originalURL err Herr. apply generateShortCode_Err in Herr as [Hc _].
    congruence. }
  split; [done |]. split.
  { apply reachable_opened. eapply reachable_step; [done |]. by eapply step_shorten. }
  split; [| done].
  revert Hrun. unfold shortenHandler.
  destruct (negb (Method r =? "POST")%string); [by intros [= <- <-] |].
  destruct (json_Decode (Body r)) as [input|e]; [| by intros [= <- <-]].
  destruct (negb (valid (normalizeURL input))); [by intros [= <- <-] |].
  destruct (is_Ok _ && _); [by intros [= <- <-] |].
  destruct (generateShortCode fuel env 0 app (normalizeURL input)) as [[c|err]|] eqn:Hg;
    [| by destruct (Hgen _ _ _ Hg) | done].
  destruct (db_Update _ _ _) as [db' [err|]]; by intros [= <- <-].
Qed.

(** X12. The cache janitor cannot be observed: after it has deleted the
    entries expired at some time, a lookup at that time or later finds what
    it would have found, and so redirectHandler answers the same. *)
Theorem janitor_unobservable swept now env shortCode app :
  swept <= now -> swept <= get_now env ->
  (forall k, cache_Get k now (cache_DeleteExpired swept (Cache app))
             = cache_Get k now (Cache app))
  /\ fst (redirect env shortCode
            (set_Cache (cache_DeleteExpired swept (Cache app)) app))
     = fst (redirect env shortCode app).
Proof.
  intros Hnow Henv.
  assert (Hget : forall t k, swept <= t ->
            cache_Get k t (cache_DeleteExpired swept (Cache app))
            = cache_Get k t (Cache app)).
  { intros t k Ht. unfold cache_Get, cache_DeleteExpired.
    destruct (Cache app !! k) as [it|] eqn:Hit.
    - destruct (expired swept it) eqn:Hexp.
      + assert (Hgone : filter (fun kv => expired swept kv.2 = false) (Cache app) !! k
                        = None).
        { apply map_lookup_filter_None. right. intros it' Hit'. simpl. congruence. }
        rewrite Hgone. unfold expired in *.
        apply andb_true_iff in Hexp as [Hpos Hlt]. rewrite Hpos. simpl.
        apply Z.ltb_lt in Hlt.
        destruct (Expiration it <? t) eqn:Hlt'; [done |]. apply Z.ltb_ge in Hlt'. lia.
      + assert (Hkept : filter (fun kv => expired swept kv.2 = false) (Cache app) !! k
                        = Some it) by (by apply map_lookup_filter_Some).
        by rewrite Hkept.
    - assert (Hgone : filter (fun kv => expired swept kv.2 = false) (Cache app) !! k
                      = None).
      { apply map_lookup_filter_None. by left. }
      by rewrite Hgone. }
  split; [intros k; by apply Hget |].
  unfold redirectHandler. simpl.
  destruct (String.eqb shortCode EmptyString); [done |].
  rewrite (Hget _ _ Henv).
  destruct (cache_Get shortCode (get_now env) (Cache app)); [done |].
  destruct (db_View (DB app) (lookupOriginal json_Unmarshal shortCode)) as [url|]; [| done].
  by destruct (String.eqb url EmptyString).
Qed.

(** X13. redirectHandler never writes to the database and never logs.  It
    starts exactly one goroutine, for the requested code, when it
    redirects, and none when it answers NotFound; it touches the cache
    only on a store hit, where it writes that code's entry and no other. *)
Theorem redirect_effects env shortCode app :
  let resp := fst (redirect env shortCode app) in
  let app' := snd (redirect env shortCode app) in
  DB app' = DB app /\ Log app' = Log app
  /\ (redirected resp = None -> resp = http_NotFound /\ app' = app)
  /\ (forall url, redirected resp = Some url ->
        Goroutines app' = Goroutines app ++ [shortCode]
        /\ (Cache app' = Cache app
            \/ (cache_Get shortCode (get_now env) (Cache app) = None
                /\ Cache app' = cache_Set shortCode url (set_now env) (Cache app)))).
Proof.
  cbn zeta. destruct (redirect env shortCode app) as [resp app'] eqn:Hrun. simpl.
  apply redirect_inv in Hrun
    as [[-> ->] | [(url & _ & Hget & -> & ->) | (u & _ & Hget & _ & _ & _ & -> & ->)]];
    simpl.
  - split; [done |]. split; [done |]. split; [done |]. by intros url.
  - split; [done |]. split; [done |]. split; [done |]. intros ? [= <-]. auto.
  - split; [done |]. split; [done |]. split; [done |]. intros ? [= <-]. auto.
Qed.

(** X14. A click-count goroutine whose code has no record that unmarshals
    leaves the database exactly as it was. *)
Theorem goroutine_without_record commit_err shortCode app :
  record_at json_Unmarshal app shortCode = None ->
  DB (clickGoroutine json_Marshal json_Unmarshal commit_err shortCode app) = DB app.
Proof.
  intros Hnone. unfold clickGoroutine, db_Update. simpl.
  destruct (opened (DB app)) eqn:Hopen; [| done].
  assert (Hinc : incrementClicks json_Marshal json_Unmarshal shortCode (buckets (DB app))
                 = Ok (buckets (DB app))).
  { unfold incrementClicks, tx_Bucket, bucket_Get.
    unfold record_at, record_in, urls_bucket, bucket_of in Hnone.
    destruct (buckets (DB app) !! "urls") as [b|]; [| done]. simpl in Hnone.
    destruct (b !! shortCode) as [v|]; [| done].
    by destruct (json_Unmarshal v). }
  rewrite Hinc. destruct commit_err; simpl; [done |].
  destruct (DB app) as [o b]. simpl in *. by subst.
Qed.

(** X15. Counting clicks never changes where a code leads: after any
    goroutine has run, with whatever outcome, redirectHandler gives the
    same response for every code. *)
Theorem goroutine_keeps_redirect commit_err i env shortCode app :
  fst (redirect env shortCode (run commit_err i app))
  = fst (redirect env shortCode app).
Proof.
  unfold run_goroutine. destruct (Goroutines app !! i) as [c0|]; [| done].
  destruct (clickGoroutine_cases commit_err c0 app)
    as (Hcache & _ & _ & Hopen & _ & Hurls).
  assert (Hurl : match record (goroutine commit_err c0 app) shortCode with
                 | Some u => OriginalURL u
                 | None => EmptyString
                 end
                 = match record app shortCode with
                   | Some u => OriginalURL u
                   | None => EmptyString
                   end).
  { unfold record_at.
    destruct Hurls as [-> | (v & u0 & v' & _ & _ & Hv & Hdec & Hv' & _ & ->)]; [done |].
    apply json_roundtrip in Hv'.
    destruct (decide (c0 = shortCode)) as [<- | Hne].
    - rewrite (record_in_insert_eq _ _ _ _ Hv'). unfold record_in. by rewrite Hv, Hdec.
    - by rewrite record_in_insert_ne. }
  unfold redirectHandler.
  destruct (String.eqb shortCode EmptyString); [done |].
  change (Cache (set_Goroutines (delete i (Goroutines app)) (goroutine commit_err c0 app)))
    with (Cache (goroutine commit_err c0 app)).
  change (DB (set_Goroutines (delete i (Goroutines app)) (goroutine commit_err c0 app)))
    with (DB (goroutine commit_err c0 app)).
  rewrite Hcache.
  destruct (cache_Get shortCode (get_now env) (Cache app)); [done |].
  rewrite !db_View_lookupOriginal, Hopen, Hurl.
  destruct (opened (DB app)); [| done].
  by destruct (String.eqb _ EmptyString).
Qed.

(** X16. A successful create either finds the code already filed, and then
    changes nothing at all, or files it: then the new record has id 0,
    click_count 0 and the transaction's time as created_at, the reverse
    entry and the cache entry of the code are written, and no other entry
    of either bucket, no log line and no goroutine is touched. *)
Theorem shorten_creates_record fuel env r app resp app' sr :
  reach app ->
  shorten fuel env r app = Some (resp, app') ->
  shortened resp = Some sr ->
  (is_Some (urls_bucket app !! resp_ShortCode sr) -> app' = app)
  /\ (urls_bucket app !! resp_ShortCode sr = None ->
      record app' (resp_ShortCode sr)
      = Some {| ID := 0; OriginalURL := resp_OriginalURL sr;
                ShortCode := resp_ShortCode sr;
                CreatedAt := tx_now env; ClickCount := 0 |}
      /\ reverse_bucket app' !! resp_OriginalURL sr = Some (resp_ShortCode sr)
      /\ Cache app'
         = cache_Set (resp_ShortCode sr) (resp_OriginalURL sr) (set_now env) (Cache app)
      /\ (forall c, c <> resp_ShortCode sr ->
            urls_bucket app' !! c = urls_bucket app !! c)
      /\ (forall url, url <> resp_OriginalURL sr ->
            reverse_bucket app' !! url = reverse_bucket app !! url)
      /\ Log app' = Log app /\ Goroutines app' = Goroutines app).
Proof.
  intros Hreach Hrun Hsr. apply reachable_consistent in Hreach as Hok.
  apply shorten_inv in Hrun
    as [(Hnone & _) | [(input & c & _ & _ & _ & _ & Hrev & _ & -> & ->)
        | (input & c & tx' & _ & _ & _ & _ & Hgen & Hsave & _ & -> & ->)]].
  - congruence.
  - injection Hsr as <-. simpl. split; [done |]. intros Hnone.
    destruct Hok as (_ & Hr & _).
    destruct (Hr _ _ Hrev) as (u & (v & Hv & _)%record_in_Some & _). congruence.
  - injection Hsr as <-. simpl.
    apply generateShortCode_fresh in Hgen as (_ & Hfree & _).
    split; [intros [v Hv]; congruence |]. intros _.
    apply saveURL_ok in Hsave as (v & Hv & Hu' & Hr' & _).
    apply json_roundtrip in Hv.
    unfold record_at.
    change (urls_bucket (created_app env (normalizeURL input) c tx' app))
      with (bucket_of tx' "urls").
    change (reverse_bucket (created_app env (normalizeURL input) c tx' app))
      with (bucket_of tx' "reverse").
    rewrite Hu', Hr'.
    split; [by apply record_in_insert_eq |].
    split; [by rewrite lookup_insert_eq |].
    split; [done |].
    split; [intros c0 Hne; by rewrite lookup_insert_ne |].
    split; [intros url Hne; by rewrite lookup_insert_ne |]. done.
Qed.

(** The keys of [urls] in a reachable state are generated codes. *)
Lemma reachable_keys app c v :
  reach app -> urls_bucket app !! c = Some v ->
  String.length c = 8%nat
  /\ Forall (fun a => In a generated_alphabet) (list_ascii_of_string c).
Proof.
  intros Hreach. revert c v.
  induction Hreach as [PORT app Hmain | app app' _ IH Hstep]; intros c v Hv.
  - apply main_app_inv in Hmain as (_ & Hu & _). rewrite Hu in Hv.
    unfold bucket_of in Hv. by rewrite !lookup_empty in Hv.
  - destruct Hstep as
      [fuel env r resp app app' Hrun | env c0 app | ce i app | now app | PORT app app' Hmain].
    + apply shorten_inv in Hrun
        as [(_ & [-> | [line ->]]) | [(input & c0 & _ & _ & _ & _ & _ & _ & _ & ->)
            | (input & c0 & tx' & _ & _ & _ & _ & Hgen & Hsave & _ & _ & ->)]];
        [by eapply IH .. |].
      apply generateShortCode_fresh in Hgen as (_ & _ & Hlen & Hall).
      apply saveURL_ok in Hsave as (v0 & _ & Hu' & _).
      change (urls_bucket (created_app env (normalizeURL input) c0 tx' app))
        with (bucket_of tx' "urls") in Hv.
      rewrite Hu' in Hv. destruct (decide (c0 = c)) as [<- | Hne]; [done |].
      rewrite lookup_insert_ne in Hv by done. by eapply IH.
    + destruct (redirect env c0 app) as [resp app'] eqn:Hrun. simpl in Hv.
      apply redirect_inv in Hrun
        as [[_ ->] | [(url & _ & _ & _ & ->) | (u0 & _ & _ & _ & _ & _ & _ & ->)]];
        by eapply IH.
    + unfold run_goroutine in Hv. destruct (Goroutines app !! i) as [c0|]; [| by eapply IH].
      change (urls_bucket (set_Goroutines (delete i (Goroutines app))
                             (goroutine ce c0 app)))
        with (urls_bucket (goroutine ce c0 app)) in Hv.
      destruct (clickGoroutine_cases ce c0 app)
        as (_ & _ & _ & _ & _ & [Hu | (v0 & u0 & v' & _ & _ & Hv0 & _ & _ & _ & Hu)]);
        rewrite Hu in Hv; [by eapply IH |].
      destruct (decide (c0 = c)) as [<- | Hne]; [by eapply IH |].
      rewrite lookup_insert_ne in Hv by done. by eapply IH.
    + by eapply IH.
    + apply main_app_inv in Hmain as (_ & Hu & _). rewrite Hu in Hv. by eapply IH.
Qed.

Lemma generated_route_char a : In a generated_alphabet -> route_char a = true.
Proof.
  unfold generated_alphabet. simpl.
  intros Ha. repeat (destruct Ha as [<- | Ha]; [reflexivity |]). destruct Ha.
Qed.

(** X17. Every short code shortenHandler returns in a reachable state, new
    or found by the duplicate check, is eight characters of the generated
    alphabet and so matches the pattern of the redirect route. *)
Theorem shorten_codes_match_route fuel env r app resp app' sr :
  reach app ->
  shorten fuel env r app = Some (resp, app') ->
  shortened resp = Some sr ->
  matches_shortCode_route (resp_ShortCode sr) = true
  /\ String.length (resp_ShortCode sr) = 8%nat
  /\ Forall (fun a => In a generated_alphabet) (list_ascii_of_string (resp_ShortCode sr)).
Proof.
  intros Hreach Hrun Hsr.
  assert (Hreach' : reach app').
  { eapply reachable_step; [done |]. by eapply step_shorten. }
  destruct (shorten_success _ _ _ _ _ _ _ (reachable_consistent _ Hreach) Hrun Hsr)
    as (input & _ & _ & _ & _ & _ & _ & _ & _ & u & (v & Hv & _)%record_in_Some & _).
  destruct (reachable_keys _ _ _ Hreach' Hv) as [Hlen Hall].
  split; [| done]. unfold matches_shortCode_route. rewrite Hlen. simpl.
  apply forallb_forall. intros a Ha. apply generated_route_char.
  exact (proj1 (List.Forall_forall _ _) Hall a Ha).
Qed.

Lemma saveURL_oversized reqURL shortCode now (tx : Tx) :
  MaxKeySize < Z.of_nat (String.length reqURL) ->
  exists e, saveURL json_Marshal reqURL shortCode now tx = Err e.
Proof.
  intros Hlong. unfold saveURL.
  destruct (tx_CreateBucketIfNotExists tx "urls") as [tx1|e]; [| eauto].
  destruct (json_Marshal _) as [v|e]; [| eauto].
  destruct (bucket_Put tx1 "urls" shortCode v) as [tx2|e]; [| eauto].
  destruct (tx_CreateBucketIfNotExists tx2 "reverse") as [tx3|e]; [| eauto].
  unfold bucket_Put.
  destruct (String.length reqURL =? 0)%nat; [eauto |].
  destruct (MaxKeySize <? Z.of_nat (String.length reqURL)) eqn:Hm; [eauto |].
  apply Z.ltb_ge in Hm. lia.
Qed.

(** X18. A URL of more than 32768 bytes is never stored: bbolt refuses it
    as a key of the reverse bucket, the whole transaction is rolled back,
    and the request is answered "failed to save url" with one log line
    written and database and cache as before. *)
Theorem shorten_oversized_url fuel env r app input c :
  reach app ->
  Method r = "POST" -> json_Decode (Body r) = Ok input ->
  valid (normalizeURL input) = true ->
  MaxKeySize < Z.of_nat (String.length (normalizeURL input)) ->
  generateShortCode fuel env 0 app (normalizeURL input) = Some (Ok c) ->
  exists line,
    shorten fuel env r app
    = Some (WriteJSON StatusInternalServerError
              (EncodeError {| Error := "failed to save url" |}),
            log_Printf line app).
Proof.
  intros Hreach Hpost Hdec Hvalid Hlong Hgen.
  pose proof (reachable_opened _ Hreach) as Hopen.
  apply reachable_consistent in Hreach as (_ & Hr & _).
  assert (Hrev : reverse_bucket app !! normalizeURL input = None).
  { destruct (reverse_bucket app !! normalizeURL input) as [c0|] eqn:Hrev; [| done].
    destruct (Hr _ _ Hrev) as (_ & _ & _ & _ & Hmax). lia. }
  destruct (saveURL_oversized (normalizeURL input) c (tx_now env) (buckets (DB app)) Hlong)
    as [e He].
  exists ("database insert error: " +:+ error_Error e).
  unfold shortenHandler. rewrite Hpost, Hdec, Hvalid. simpl.
  rewrite db_View_lookupExisting, Hopen, Hrev, Hgen. simpl.
  unfold db_Update. by rewrite Hopen, He.
Qed.


Lemma resolve_all_started envs shortCode app u :
  opened (DB app) = true -> record app shortCode = Some u ->
  OriginalURL u <> EmptyString -> shortCode <> EmptyString ->
  DB (resolve_all json_Unmarshal envs shortCode app) = DB app
  /\ Goroutines (resolve_all json_Unmarshal envs shortCode app)
     = Goroutines app ++ repeat shortCode (length envs).
Proof.
  revert app. induction envs as [|env envs IH]; intros app Hopen Hrec Hurl Hne.
  - simpl. by rewrite app_nil_r.
  - change (resolve_all json_Unmarshal (env :: envs) shortCode app)
      with (resolve_all json_Unmarshal envs shortCode (snd (redirect env shortCode app))).
    destruct (redirect env shortCode app) as [resp app1] eqn:Hrun.
    cbn [snd length repeat].
    assert (H1 : DB app1 = DB app /\ Goroutines app1 = Goroutines app ++ [shortCode]).
    { pose proof Hrun as Hrun'.
      apply redirect_inv in Hrun
        as [[-> ->] | [(url & _ & _ & _ & ->) | (u' & _ & _ & _ & _ & _ & _ & ->)]];
        [| done | done].
      exfalso. revert Hrun'. unfold redirectHandler.
      destruct (String.eqb_spec shortCode EmptyString) as [-> | _]; [done |].
      destruct (cache_Get _ _ _); [done |].
      rewrite db_View_lookupOriginal, Hopen, Hrec.
      by destruct (String.eqb_spec (OriginalURL u) EmptyString). }
    destruct H1 as [Hdb1 Hgo1].
    destruct (IH app1) as [Hdb Hgo]; try done.
    + by rewrite Hdb1.
    + unfold record_at, urls_bucket in *. by rewrite Hdb1.
    + rewrite Hdb, Hgo, Hdb1, Hgo1. split; [done |].
      by rewrite <- app_assoc.
Qed.

Lemma goroutines_count n : forall shortCode app v u k,
  opened (DB app) = true ->
  urls_bucket app !! shortCode = Some v ->
  json_Marshal (set_ClickCount k u) = Ok v ->
  valid_key shortCode ->
  0 <= k -> k + Z.of_nat n <= 9223372036854775807 ->
  exists v',
    urls_bucket (fold_left (fun a c => goroutine None c a) (repeat shortCode n) app)
      !! shortCode = Some v'
    /\ json_Marshal (set_ClickCount (k + Z.of_nat n) u) = Ok v'.
Proof.
  induction n as [|n IH]; intros shortCode app v u k Hopen Hv Hm Hk Hk0 Hmax.
  - simpl. rewrite Z.add_0_r. eauto.
  - cbn [repeat fold_left].
    assert (Hinc : exists v1, json_Marshal (set_ClickCount (k + 1) u) = Ok v1).
    { pose proof (json_Marshal_ClickCount (set_ClickCount k u) (k + 1)) as H.
      rewrite Hm, set_ClickCount_twice in H. specialize (H eq_refl).
      destruct (json_Marshal (set_ClickCount (k + 1) u)); [eauto | done]. }
    destruct Hinc as [v1 Hv1].
    destruct (clickGoroutine_increments shortCode app v (set_ClickCount k u) v1)
      as (Hopen' & Hurls' & _); try done.
    { by apply json_roundtrip. }
    { simpl. rewrite wrap_int_small by lia. done. }
    destruct (IH shortCode (goroutine None shortCode app) v1 u (k + 1)) as (v' & Hv' & Hm');
      try done; try lia.
    { by rewrite Hurls', lookup_insert_eq. }
    exists v'. split; [done |].
    replace (k + Z.of_nat (S n)) with (k + 1 + Z.of_nat n) by lia. done.
Qed.

(** X20. Click counts are not lost when goroutines pile up: after N
    resolves of a code served back to back, with no goroutine run in
    between, letting the N started goroutines commit one after the other
    leaves click_count advanced by exactly N, each increment being one
    read-write transaction. *)
Theorem click_count_settled_late envs shortCode app v u :
  opened (DB app) = true -> Goroutines app = [] ->
  urls_bucket app !! shortCode = Some v ->
  json_Marshal u = Ok v ->
  OriginalURL u <> EmptyString -> valid_key shortCode ->
  0 <= ClickCount u ->
  ClickCount u + Z.of_nat (length envs) <= 9223372036854775807 ->
  let app' := settle json_Marshal json_Unmarshal None
                (resolve_all json_Unmarshal envs shortCode app) in
  Goroutines (resolve_all json_Unmarshal envs shortCode app)
  = repeat shortCode (length envs)
  /\ Goroutines app' = []
  /\ record app' shortCode
     = Some (set_ClickCount (ClickCount u + Z.of_nat (length envs)) u).
Proof.
  intros Hopen Hgo Hv Hm Hurl Hk Hpos Hmax. cbn zeta.
  pose proof (json_roundtrip _ _ Hm) as Hdec.
  assert (Hrec : record app shortCode = Some u) by (apply record_in_Some; eauto).
  destruct (resolve_all_started envs shortCode app u Hopen Hrec Hurl
              (valid_key_nonempty _ Hk)) as [Hdb Hgo'].
  rewrite Hgo in Hgo'. simpl in Hgo'.
  split; [done |]. split; [done |].
  unfold settle. rewrite Hgo'.
  assert (Hu : set_ClickCount (ClickCount u) u = u) by (by destruct u).
  destruct (goroutines_count (length envs) shortCode
              (resolve_all json_Unmarshal envs shortCode app) v u (ClickCount u))
    as (v' & Hv' & Hm'); try done.
  - by rewrite Hdb.
  - unfold urls_bucket. by rewrite Hdb.
  - by rewrite Hu.
  - apply record_in_Some. exists v'. split; [| by apply json_roundtrip].
    exact Hv'.
Qed.

(** X21. A newly created code is served from the cache until the five
    minutes after its creation are over, and from the store afterwards:
    a resolve whose clock is not past creation plus five minutes redirects
    without touching the cache; a later one finds the entry expired,
    redirects from the record and writes the entry anew with its own
    clock. *)
Theorem new_code_cache_window fuel env r app resp app' sr env' :
  reach app ->
  shorten fuel env r app = Some (resp, app') ->
  shortened resp = Some sr ->
  urls_bucket app !! resp_ShortCode sr = None ->
  (get_now env' <= set_now env + defaultExpiration ->
   redirect env' (resp_ShortCode sr) app'
   = (http_Redirect (resp_OriginalURL sr) StatusMovedPermanently,
      go (resp_ShortCode sr) app'))
  /\ (0 < set_now env + defaultExpiration < get_now env' ->
      redirect env' (resp_ShortCode sr) app'
      = (http_Redirect (resp_OriginalURL sr) StatusMovedPermanently,
         go (resp_ShortCode sr)
           (set_Cache (cache_Set (resp_ShortCode sr) (resp_OriginalURL sr)
                         (set_now env') (Cache app')) app'))).
Proof.
  intros Hreach Hrun Hsr Hnone.
  pose proof (reachable_consistent _ Hreach) as Hok.
  destruct (shorten_success _ _ _ _ _ _ _ Hok Hrun Hsr)
    as (input & _ & _ & _ & _ & Hurl & Hok' & Hopen' & Hrev' & u & Hrec & Hu).
  assert (Hcache : Cache app'
                   = cache_Set (resp_ShortCode sr) (resp_OriginalURL sr) (set_now env)
                       (Cache app)).
  { apply shorten_inv in Hrun
      as [(Hn & _) | [(input' & c & _ & _ & _ & _ & Hrev & _ & -> & ->)
          | (input' & c & tx' & _ & _ & _ & _ & _ & _ & _ & -> & ->)]].
    - congruence.
    - injection Hsr as <-. simpl in *. destruct Hok as (_ & Hr & _).
      destruct (Hr _ _ Hrev) as (u0 & (v & Hv & _)%record_in_Some & _). congruence.
    - by injection Hsr as <-. }
  assert (Hcode : resp_ShortCode sr <> EmptyString).
  { destruct Hok' as (Hu' & _). apply record_in_Some in Hrec as (v & Hv & _).
    destruct (Hu' _ _ Hv) as (_ & _ & _ & _ & Hk). by apply valid_key_nonempty. }
  assert (Hne : resp_OriginalURL sr <> EmptyString).
  { destruct Hok' as (_ & Hr' & _). rewrite <- Hurl in Hrev'.
    destruct (Hr' _ _ Hrev') as (_ & _ & _ & Hk). by apply valid_key_nonempty. }
  assert (Hget : forall now,
            cache_Get (resp_ShortCode sr) now (Cache app')
            = if (0 <? set_now env + defaultExpiration)
                 && (set_now env + defaultExpiration <? now)
              then None else Some (resp_OriginalURL sr)).
  { intros now. rewrite Hcache. unfold cache_Get, cache_Set.
    by rewrite lookup_insert_eq. }
  split.
  - intros Hearly. unfold redirectHandler.
    destruct (String.eqb_spec (resp_ShortCode sr) EmptyString) as [? | _]; [done |].
    rewrite Hget.
    replace (set_now env + defaultExpiration <? get_now env') with false
      by (symmetry; apply Z.ltb_ge; lia).
    by rewrite andb_false_r.
  - intros [Hpos Hlate]. unfold redirectHandler.
    destruct (String.eqb_spec (resp_ShortCode sr) EmptyString) as [? | _]; [done |].
    rewrite Hget.
    replace (0 <? set_now env + defaultExpiration) with true
      by (symmetry; apply Z.ltb_lt; lia).
    replace (set_now env + defaultExpiration <? get_now env') with true
      by (symmetry; apply Z.ltb_lt; lia).
    simpl. rewrite db_View_lookupOriginal, Hopen', Hrec, Hu, <- Hurl.
    by destruct (String.eqb_spec (resp_OriginalURL sr) EmptyString).
Qed.

(** ** Requests that overlap *)

(** Run without interruption, the two parts are shortenHandler. *)
Lemma shortenHandler_phases fuel env r app :
  shorten fuel env r app
  = match shortenPrepare url_Parse json_Decode fuel env r app with
    | None => None
    | Some (inl answered) => Some answered
    | Some (inr (reqURL, shortCode)) =>
        Some (shortenInsert json_Marshal env reqURL shortCode app)
    end.
Proof.
  unfold shortenHandler, shortenPrepare, shortenInsert.
  destruct (negb (String.eqb (Method r) "POST")); [done |].
  destruct (json_Decode (Body r)) as [input|e]; [| done].
  cbv zeta.
  destruct (negb (isValidURL url_Parse (normalizeURL input))); [done |].
  destruct (is_Ok _ && negb _); [done |].
  destruct (generateShortCode _ _ _ _ _) as [[c|e]|]; [| done | done].
  by destruct (db_Update _ _ _) as [db' [e|]].
Qed.



End Correctness.

(** ** The reference codec round-trips *)

Module RefFacts.

Lemma expect_app lit s : Ref.expect lit (lit +:+ s) = Some s.
Proof.
  induction lit as [|c lit IH]; [done |]. simpl. by rewrite Ascii.eqb_refl.
Qed.

Lemma read_string_escape s rest :
  Ref.read_string (Ref.escape s +:+ Ref.quote +:+ rest) = Some (s, rest).
Proof.
  induction s as [|c s IH]; [done |]. simpl.
  destruct (Ascii.eqb c "034") eqn:Hq; simpl.
  - by rewrite IH.
  - destruct (Ascii.eqb c "\") eqn:Hb; simpl.
    + by rewrite IH.
    + by rewrite Hq, Hb, IH.
Qed.

Lemma span_numeral_app d c rest :
  Ref.all_chars Ref.is_numeral d = true -> Ref.is_numeral c = false ->
  Ref.span_numeral (d +:+ String c rest) = (d, String c rest).
Proof.
  intros Hd Hc. induction d as [|a d IH]; simpl.
  - by rewrite Hc.
  - simpl in Hd. apply andb_true_iff in Hd as [Ha Hd]. by rewrite Ha, IH.
Qed.

Lemma string_of_uint_numeral d :
  Ref.all_chars Ref.is_numeral (NilEmpty.string_of_uint d) = true.
Proof. induction d; simpl; auto. Qed.

Lemma fmt_Sprintf_d_numeral z :
  Ref.all_chars Ref.is_numeral (fmt_Sprintf_d z) = true.
Proof.
  unfold fmt_Sprintf_d.
  assert (Hu : forall d, Ref.all_chars Ref.is_numeral (NilZero.string_of_uint d) = true).
  { intros d. destruct d; try done; apply (string_of_uint_numeral (_ d)). }
  destruct (Z.to_int z) as [d|d]; simpl; [apply Hu |].
  apply Hu.
Qed.

Lemma int_of_string_fmt z :
  NilZero.int_of_string (fmt_Sprintf_d z) = Some (Z.to_int z).
Proof.
  unfold fmt_Sprintf_d. apply NilZero.isi.
  - destruct z as [|p|p]; simpl; [done | | done].
    intros [= H]. by apply DecimalPos.Unsigned.to_uint_nonnil in H.
  - destruct z as [|p|p]; simpl; [done | done |].
    intros [= H]. by apply DecimalPos.Unsigned.to_uint_nonnil in H.
Qed.

Lemma read_int_fmt z c rest :
  Ref.is_numeral c = false ->
  Ref.read_int (fmt_Sprintf_d z +:+ String c rest) = Some (z, String c rest).
Proof.
  intros Hc. unfold Ref.read_int.
  rewrite span_numeral_app by auto using fmt_Sprintf_d_numeral.
  by rewrite int_of_string_fmt, DecimalZ.of_to.
Qed.

Lemma read_int_fmt_lit z lit c l rest :
  lit = String c l -> Ref.is_numeral c = false ->
  Ref.read_int (fmt_Sprintf_d z +:+ lit +:+ rest) = Some (z, lit +:+ rest).
Proof. intros -> Hc. by apply read_int_fmt. Qed.

Lemma marshal_unmarshal u v :
  Ref.json_Marshal u = Ok v -> Ref.json_Unmarshal v = Ok u.
Proof.
  intros [= <-]. unfold Ref.json_Unmarshal.
  rewrite expect_app. cbn [mbind option_bind].
  erewrite read_int_fmt_lit; [| reflexivity | reflexivity]. cbn [mbind option_bind].
  rewrite expect_app. cbn [mbind option_bind].
  rewrite read_string_escape. cbn [mbind option_bind].
  rewrite expect_app. cbn [mbind option_bind].
  rewrite read_string_escape. cbn [mbind option_bind].
  rewrite expect_app. cbn [mbind option_bind].
  erewrite read_int_fmt_lit; [| reflexivity | reflexivity]. cbn [mbind option_bind].
  rewrite expect_app. cbn [mbind option_bind].
  rewrite read_int_fmt by reflexivity. cbn [mbind option_bind].
  by destruct u.
Qed.

Lemma marshal_any_count u n :
  is_Ok (Ref.json_Marshal u) = true ->
  is_Ok (Ref.json_Marshal (set_ClickCount n u)) = true.
Proof. done. Qed.

Lemma json_Decode_body url : Ref.json_Decode (Ref.body_of url) = Ok url.
Proof.
  unfold Ref.json_Decode, Ref.body_of.
  rewrite expect_app. cbn [mbind option_bind].
  by rewrite read_string_escape.
Qed.

End RefFacts.

(** ** The handlers on concrete requests *)

Example main_app_fresh : main_app "" ∅ = Some Ref.app0.
Proof. vm_compute. reflexivity. Qed.

Example main_app_9090 : main_app "9090" ∅ = Some Ref.app0_9090.
Proof. vm_compute. reflexivity. Qed.

Example shorten_example :
  Ref.shorten 1 (Ref.env_at Ref.t0) (Ref.POST "example.com/a") Ref.app0
  = Some (created_response "https://example.com/a" Ref.code1, Ref.app1).
Proof. vm_compute. reflexivity. Qed.

Example app1_record : urls_bucket Ref.app1 !! Ref.code1 = Some Ref.json1.
Proof. vm_compute. reflexivity. Qed.

Example app1_reverse : reverse_bucket Ref.app1 !! "https://example.com/a" = Some Ref.code1.
Proof. vm_compute. reflexivity. Qed.

Example redirect_unknown :
  fst (Ref.redirect (Ref.env_at Ref.t0) "zzzzzzzz" Ref.app1) = http_NotFound.
Proof. vm_compute. reflexivity. Qed.

(** A colliding first attempt: the code of the second attempt is returned. *)
Example generateShortCode_retry :
  generateShortCode 2 (Ref.env_ticking Ref.t0) 0 Ref.app1 "https://example.com/a"
  = Some (Ok "KZZO2OMX")
  /\ generateShortCode 1 (Ref.env_ticking Ref.t0) 0 Ref.app1 "https://example.com/a" = None.
Proof. vm_compute. split; reflexivity. Qed.

Lemma reachable_app0 :
  reachable Ref.url_Parse Ref.json_Marshal Ref.json_Unmarshal Ref.json_Decode Ref.app0.
Proof. apply (reachable_main _ _ _ _ ""). vm_compute. reflexivity. Defined.

Lemma reachable_app1 :
  reachable Ref.url_Parse Ref.json_Marshal Ref.json_Unmarshal Ref.json_Decode Ref.app1.
Proof.
  apply (reachable_step _ _ _ _ Ref.app0); [exact reachable_app0 |].
  apply (step_shorten _ _ _ _ 1%nat (Ref.env_at Ref.t0) (Ref.POST "example.com/a")
           (created_response "https://example.com/a" Ref.code1)).
  vm_compute. reflexivity.
Defined.

Lemma valid_key_code1 : valid_key Ref.code1.
Proof. split; [discriminate | vm_compute; discriminate]. Defined.

(** ** Witnesses: the theorems at the request POST {"url":"example.com/a"} *)

Lemma shorten_then_resolve_witness :
  reachable Ref.url_Parse Ref.json_Marshal Ref.json_Unmarshal Ref.json_Decode Ref.app0
  /\ Ref.shorten 1 (Ref.env_at Ref.t0) (Ref.POST "example.com/a") Ref.app0
     = Some (created_response "https://example.com/a" Ref.code1, Ref.app1)
  /\ exists input,
       Ref.json_Decode (Body (Ref.POST "example.com/a")) = Ok input
       /\ isValidURL Ref.url_Parse (normalizeURL input) = true
       /\ "https://example.com/a" = normalizeURL input
       /\ fst (Ref.redirect (Ref.env_at (Ref.t0 + 1)) Ref.code1 Ref.app1)
          = http_Redirect (normalizeURL input) StatusMovedPermanently
       /\ (forall url,
             cache_Get Ref.code1 (Ref.t0 + 1) (Cache Ref.app1) = Some url ->
             url = normalizeURL input)
       /\ db_View (DB Ref.app1) (lookupOriginal Ref.json_Unmarshal Ref.code1)
          = Ok (normalizeURL input).
Proof.
  split; [exact reachable_app0 |]. split; [vm_compute; reflexivity |].
  apply (shorten_then_resolve Ref.url_Parse Ref.json_Marshal Ref.json_Unmarshal
           Ref.json_Decode RefFacts.marshal_unmarshal 1 (Ref.env_at Ref.t0)
           (Ref.POST "example.com/a") Ref.app0
           (created_response "https://example.com/a" Ref.code1) Ref.app1
           {| ShortURL := shortURL_of Ref.code1;
              resp_OriginalURL := "https://example.com/a";
              resp_ShortCode := Ref.code1 |}
           (Ref.env_at (Ref.t0 + 1)) reachable_app0).
  - vm_compute. reflexivity.
  - reflexivity.
Defined.

Lemma shorten_idempotent_witness :
  reachable Ref.url_Parse Ref.json_Marshal Ref.json_Unmarshal Ref.json_Decode Ref.app0
  /\ Ref.shorten 1 (Ref.env_at Ref.t0) (Ref.POST "example.com/a") Ref.app0
     = Some (created_response "https://example.com/a" Ref.code1, Ref.app1)
  /\ Ref.shorten 0 (Ref.env_at (Ref.t0 + 5)) (Ref.POST "example.com/a") Ref.app1
     = Some (created_response "https://example.com/a" Ref.code1, Ref.app1)
  /\ (exists u, record_at Ref.json_Unmarshal Ref.app1 Ref.code1 = Some u
                /\ OriginalURL u = "https://example.com/a")
  /\ (forall c u, record_at Ref.json_Unmarshal Ref.app1 c = Some u ->
                  OriginalURL u = "https://example.com/a" -> c = Ref.code1).
Proof.
  split; [exact reachable_app0 |]. split; [vm_compute; reflexivity |].
  apply (shorten_idempotent Ref.url_Parse Ref.json_Marshal Ref.json_Unmarshal
           Ref.json_Decode RefFacts.marshal_unmarshal 1 (Ref.env_at Ref.t0)
           (Ref.POST "example.com/a") Ref.app0
           (created_response "https://example.com/a" Ref.code1) Ref.app1
           {| ShortURL := shortURL_of Ref.code1;
              resp_OriginalURL := "https://example.com/a";
              resp_ShortCode := Ref.code1 |}
           0 (Ref.env_at (Ref.t0 + 5)) reachable_app0).
  - vm_compute. reflexivity.
  - reflexivity.
Defined.

Lemma records_match_reverse_index_witness :
  reachable Ref.url_Parse Ref.json_Marshal Ref.json_Unmarshal Ref.json_Decode Ref.app1
  /\ (forall c v, urls_bucket Ref.app1 !! c = Some v ->
        exists u, Ref.json_Unmarshal v = Ok u /\ ShortCode u = c
                  /\ reverse_bucket Ref.app1 !! OriginalURL u = Some c)
  /\ (forall url c, reverse_bucket Ref.app1 !! url = Some c ->
        exists v u, urls_bucket Ref.app1 !! c = Some v /\ Ref.json_Unmarshal v = Ok u
                    /\ OriginalURL u = url).
Proof.
  split; [exact reachable_app1 |].
  exact (records_match_reverse_index Ref.url_Parse Ref.json_Marshal Ref.json_Unmarshal
           Ref.json_Decode RefFacts.marshal_unmarshal Ref.app1 reachable_app1).
Defined.

(** Three resolves of [code1]: within the cache's five minutes, after
    them, and again within. *)
Lemma click_count_after_resolves_witness :
  let envs := [Ref.env_at (Ref.t0 + 1); Ref.env_at (Ref.t0 + 2 * defaultExpiration);
               Ref.env_at (Ref.t0 + 2 * defaultExpiration + 1)] in
  urls_bucket Ref.app1 !! Ref.code1 = Some Ref.json1
  /\ Ref.json_Marshal Ref.url1 = Ok Ref.json1
  /\ exists u',
       record_at Ref.json_Unmarshal
         (resolve_each Ref.json_Marshal Ref.json_Unmarshal envs Ref.code1 Ref.app1) Ref.code1
       = Some u'
       /\ ClickCount u' = 3
       /\ OriginalURL u' = "https://example.com/a" /\ ShortCode u' = Ref.code1
       /\ CreatedAt u' = Ref.t0 /\ ID u' = 0.
Proof.
  intros envs. split; [vm_compute; reflexivity |]. split; [reflexivity |].
  apply (click_count_after_resolves Ref.json_Marshal Ref.json_Unmarshal
           RefFacts.marshal_unmarshal RefFacts.marshal_any_count
           envs Ref.code1 Ref.app1 Ref.json1 Ref.url1).
  - reflexivity.
  - reflexivity.
  - vm_compute. reflexivity.
  - reflexivity.
  - reflexivity.
  - discriminate.
  - exact valid_key_code1.
  - repeat constructor.
  - vm_compute. discriminate.
Defined.

(** ["example.com/a"], invalid as typed, is accepted as
    ["https://example.com/a"]; the empty URL is refused, and the state
    stays as it was. *)
Lemma shorten_normalizes_then_validates_witness :
  isValidURL Ref.url_Parse "example.com/a" = false
  /\ normalizeURL "example.com/a" = "https://example.com/a"
  /\ isValidURL Ref.url_Parse "https://example.com/a" = true
  /\ (exists c app',
        shortenHandler Ref.url_Parse Ref.json_Marshal Ref.json_Decode
          1 (Ref.env_at Ref.t0) (Ref.POST "example.com/a") Ref.app0
        = Some (created_response "https://example.com/a" c, app')
        /\ reverse_bucket app' !! "https://example.com/a" = Some c)
  /\ shortenHandler Ref.url_Parse Ref.json_Marshal Ref.json_Decode
       1 (Ref.env_at Ref.t0) (Ref.POST "") Ref.app0
     = Some (WriteJSON StatusBadRequest (EncodeError {| Error := "invalid url format" |}),
             Ref.app0).
Proof.
  destruct (shorten_normalizes_then_validates Ref.url_Parse Ref.json_Marshal Ref.json_Decode
              1 (Ref.env_at Ref.t0) (Ref.POST "example.com/a") Ref.app0 "example.com/a"
              eq_refl eq_refl) as (Hprefix & _ & Hvalid & _ & _ & _ & Haccept).
  destruct (shorten_normalizes_then_validates Ref.url_Parse Ref.json_Marshal Ref.json_Decode
              1 (Ref.env_at Ref.t0) (Ref.POST "") Ref.app0 ""
              eq_refl eq_refl) as (_ & _ & _ & Hrefuse & _).
  assert (Hv : isValidURL Ref.url_Parse (normalizeURL "example.com/a") = true).
  { apply Hvalid. rewrite (Hprefix eq_refl eq_refl).
    exists {| Scheme := "https"; Host := "example.com" |}.
    split; [reflexivity |]. split; discriminate. }
  split; [reflexivity |]. split; [exact (Hprefix eq_refl eq_refl) |].
  split; [exact Hv |]. split.
  - apply Haccept.
    + exact Hv.
    + reflexivity.
    + reflexivity.
    + vm_compute. discriminate.
    + intros c. reflexivity.
    + exists 0%nat. split; [lia | vm_compute; reflexivity].
  - apply Hrefuse. vm_compute. reflexivity.
Defined.

Lemma failed_insert_not_cached_witness :
  generateShortCode 1 (Ref.env_disk_error Ref.t0) 0 Ref.app0 "https://example.com/a"
  = Some (Ok Ref.code1)
  /\ snd (db_Update (DB Ref.app0) (Some Ref.disk_error)
            (saveURL Ref.json_Marshal "https://example.com/a" Ref.code1 Ref.t0))
     = Some Ref.disk_error
  /\ exists app',
       Ref.shorten 1 (Ref.env_disk_error Ref.t0) (Ref.POST "example.com/a") Ref.app0
       = Some (WriteJSON StatusInternalServerError
                 (EncodeError {| Error := "failed to save url" |}), app')
       /\ Cache app' = Cache Ref.app0 /\ DB app' = DB Ref.app0
       /\ Log app' = Log Ref.app0
                     ++ ["database insert error: " +:+ error_Error Ref.disk_error]
       /\ Cache app' !! Ref.code1 = None
       /\ forall now, cache_Get Ref.code1 now (Cache app') = None.
Proof.
  split; [vm_compute; reflexivity |]. split; [vm_compute; reflexivity |].
  apply (failed_insert_not_cached Ref.url_Parse Ref.json_Marshal Ref.json_Unmarshal
           Ref.json_Decode RefFacts.marshal_unmarshal 1 (Ref.env_disk_error Ref.t0)
           (Ref.POST "example.com/a") Ref.app0 "example.com/a" Ref.code1 Ref.disk_error
           reachable_app0).
  - reflexivity.
  - reflexivity.
  - vm_compute. reflexivity.
  - vm_compute. reflexivity.
  - vm_compute. reflexivity.
  - vm_compute. reflexivity.
Defined.

Lemma generateShortCode_sixteen_symbols_witness :
  generateShortCode 1 (Ref.env_at Ref.t0) 0 Ref.app0 "https://example.com/a"
  = Some (Ok Ref.code1)
  /\ Forall (fun a => In a generated_alphabet) (list_ascii_of_string Ref.code1).
Proof.
  assert (Hgen : generateShortCode 1 (Ref.env_at Ref.t0) 0 Ref.app0 "https://example.com/a"
                 = Some (Ok Ref.code1)) by (vm_compute; reflexivity).
  split; [exact Hgen |].
  exact (proj1 (generateShortCode_sixteen_symbols 1 (Ref.env_at Ref.t0) 0 Ref.app0
                  "https://example.com/a" Ref.code1 Hgen)).
Defined.

Lemma shortURL_fixed_origin_witness :
  Ref.shorten 1 (Ref.env_at Ref.t0) (Ref.POST "example.com/a") Ref.app0
  = Some (created_response "https://example.com/a" Ref.code1, Ref.app1)
  /\ shortURL_of Ref.code1 = "http://localhost:8080/355Y0JM0".
Proof.
  assert (Hrun : Ref.shorten 1 (Ref.env_at Ref.t0) (Ref.POST "example.com/a") Ref.app0
                 = Some (created_response "https://example.com/a" Ref.code1, Ref.app1))
    by (vm_compute; reflexivity).
  split; [exact Hrun |].
  exact (shortURL_fixed_origin Ref.url_Parse Ref.json_Marshal Ref.json_Decode
           1 (Ref.env_at Ref.t0) (Ref.POST "example.com/a") Ref.app0
           (created_response "https://example.com/a" Ref.code1) Ref.app1
           {| ShortURL := shortURL_of Ref.code1;
              resp_OriginalURL := "https://example.com/a";
              resp_ShortCode := Ref.code1 |}
           Hrun eq_refl).
Defined.

(** ** Where the code departs from the specification *)

(** C3, counterexample.  For ["https://example.com/a"] at [t0] the digest
    starts 79 92 4a d4 ef 53 9f e9.  Mapping its first eight bytes modulo
    62 would give 7wmA1vJV; generateShortCode maps the hex digits
    7 9 9 2 4 a d 4 and returns 355Y0JM0. *)
Lemma generateShortCode_not_bytes_mod_62 :
  generateShortCode 1 (Ref.env_at Ref.t0) 0 Ref.app0 "https://example.com/a"
  = Some (Ok "355Y0JM0")
  /\ spec_encodeShortCode
       (md5.Sum (bytes_of_string ("https://example.com/a" +:+ fmt_Sprintf_d Ref.t0)))
     = "7wmA1vJV"
  /\ generateShortCode 1 (Ref.env_at Ref.t0) 0 Ref.app0 "https://example.com/a"
     <> Some (Ok (spec_encodeShortCode
                    (md5.Sum (bytes_of_string
                                ("https://example.com/a" +:+ fmt_Sprintf_d Ref.t0))))).
Proof. vm_compute. repeat split; discriminate. Qed.

(** C9, counterexample.  The goroutine started by GET /355Y0JM0 runs while
    the disk fails the commit: its transaction returns the error, and the
    log is as empty as before. *)
Lemma goroutine_error_not_logged :
  Goroutines Ref.app2 = [Ref.code1]
  /\ snd (db_Update (DB Ref.app2) (Some Ref.disk_error)
            (incrementClicks Ref.json_Marshal Ref.json_Unmarshal Ref.code1))
     = Some Ref.disk_error
  /\ Log (run_goroutine Ref.json_Marshal Ref.json_Unmarshal (Some Ref.disk_error) 0 Ref.app2)
     = Log Ref.app2
  /\ Log Ref.app2 = Log Ref.app0.
Proof. vm_compute. repeat split; reflexivity. Qed.

(** C10, counterexample.  Started with PORT=9090 the server listens on
    and announces http://localhost:9090, and the short URL it returns for
    POST {"url":"example.com/a"} is built on http://localhost:8080. *)
Lemma shortURL_ignores_PORT :
  main_app "9090" ∅ = Some Ref.app0_9090
  /\ main_origin "9090" = "http://localhost:9090"
  /\ exists sr app',
       Ref.shorten 1 (Ref.env_at Ref.t0) (Ref.POST "example.com/a") Ref.app0_9090
       = Some (WriteJSON StatusOK (EncodeShorten sr), app')
       /\ resp_ShortCode sr = "355Y0JM0"
       /\ ShortURL sr = "http://localhost:8080/355Y0JM0"
       /\ ShortURL sr <> main_origin "9090" +:+ "/" +:+ resp_ShortCode sr.
Proof.
  split; [vm_compute; reflexivity |]. split; [reflexivity |].
  destruct (Ref.shorten 1 (Ref.env_at Ref.t0) (Ref.POST "example.com/a") Ref.app0_9090)
    as [[resp app']|] eqn:Hrun; [| vm_compute in Hrun; discriminate].
  exists {| ShortURL := shortURL_of Ref.code1;
            resp_OriginalURL := "https://example.com/a";
            resp_ShortCode := Ref.code1 |}, app'.
  split.
  - vm_compute in Hrun. injection Hrun as <- <-. reflexivity.
  - split; [reflexivity |]. split; [reflexivity |]. vm_compute. discriminate.
Qed.

(** ** Witnesses of the further properties *)

Lemma shortCode_iff_first_four_bytes_witness :
  encodeShortCode (hex_EncodeToString [121; 146; 74; 212; 0; 0])
  = encodeShortCode (hex_EncodeToString [121; 146; 74; 212; 239; 83; 159; 233])
  <-> 121 = 121 /\ 146 = 146 /\ 74 = 74 /\ 212 = 212.
Proof.
  apply (shortCode_iff_first_four_bytes 121 146 74 212 [0; 0]
           121 146 74 212 [239; 83; 159; 233]).
  repeat (apply Forall_cons; split; [lia |]). apply Forall_nil_2.
Defined.

Lemma redirect_unknown_code_witness :
  urls_bucket Ref.app1 !! "zzzzzzzz" = None
  /\ Ref.redirect (Ref.env_at Ref.t0) "zzzzzzzz" Ref.app1 = (http_NotFound, Ref.app1).
Proof.
  assert (Hnone : urls_bucket Ref.app1 !! "zzzzzzzz" = None) by (vm_compute; reflexivity).
  split; [exact Hnone |].
  exact (redirect_unknown_code Ref.url_Parse Ref.json_Marshal Ref.json_Unmarshal
           Ref.json_Decode RefFacts.marshal_unmarshal (Ref.env_at Ref.t0) "zzzzzzzz"
           Ref.app1 reachable_app1 Hnone).
Defined.

Lemma shorten_failure_leaves_store_witness :
  exists resp app',
    Ref.shorten 1 (Ref.env_disk_error Ref.t0) (Ref.POST "example.com/b") Ref.app1
    = Some (resp, app')
    /\ shortened resp = None
    /\ DB app' = DB Ref.app1 /\ Cache app' = Cache Ref.app1
    /\ Goroutines app' = Goroutines Ref.app1
    /\ (Log app' = Log Ref.app1 \/ exists line, Log app' = Log Ref.app1 ++ [line]).
Proof.
  destruct (Ref.shorten 1 (Ref.env_disk_error Ref.t0) (Ref.POST "example.com/b") Ref.app1)
    as [[resp app']|] eqn:Hrun; [| vm_compute in Hrun; discriminate].
  exists resp, app'. split; [reflexivity |].
  assert (Hnone : shortened resp = None).
  { vm_compute in Hrun. injection Hrun as <- _. reflexivity. }
  split; [exact Hnone |].
  exact (shorten_failure_leaves_store Ref.url_Parse Ref.json_Marshal Ref.json_Decode
           1 (Ref.env_disk_error Ref.t0) (Ref.POST "example.com/b") Ref.app1 resp app'
           Hrun Hnone).
Defined.

Lemma step_app1_app2 :
  step Ref.url_Parse Ref.json_Marshal Ref.json_Unmarshal Ref.json_Decode Ref.app1 Ref.app2.
Proof. exact (step_redirect _ _ _ _ (Ref.env_at (Ref.t0 + 1)) Ref.code1 Ref.app1). Defined.

Lemma step_app2_app3 :
  step Ref.url_Parse Ref.json_Marshal Ref.json_Unmarshal Ref.json_Decode Ref.app2 Ref.app3.
Proof. exact (step_goroutine _ _ _ _ None 0%nat Ref.app2). Defined.



Lemma short_code_permanent_witness :
  reverse_bucket Ref.app3 !! "https://example.com/a" = Some Ref.code1
  /\ (forall env,
        fst (Ref.redirect env Ref.code1 Ref.app3)
        = http_Redirect "https://example.com/a" StatusMovedPermanently)
  /\ (forall fuel env r input,
        Method r = "POST" -> Ref.json_Decode (Body r) = Ok input ->
        normalizeURL input = "https://example.com/a" ->
        isValidURL Ref.url_Parse "https://example.com/a" = true ->
        Ref.shorten fuel env r Ref.app3
        = Some (created_response "https://example.com/a" Ref.code1, Ref.app3)).
Proof.
  apply (short_code_permanent Ref.url_Parse Ref.json_Marshal Ref.json_Unmarshal
           Ref.json_Decode RefFacts.marshal_unmarshal Ref.app1 Ref.app3
           "https://example.com/a" Ref.code1 reachable_app1).
  - exact (rtc_l _ _ _ _ step_app1_app2 (rtc_l _ _ _ _ step_app2_app3 (rtc_refl _ _))).
  - vm_compute. reflexivity.
Defined.

Lemma closed_database_responses_witness :
  opened (DB Ref.app1_closed) = false
  /\ Ref.shorten 1 (Ref.env_at Ref.t0) (Ref.POST "example.com/b") Ref.app1_closed
     = Some (WriteJSON StatusInternalServerError
               (EncodeError {| Error := "server error" |}),
             log_Printf "error generating short code: database not open" Ref.app1_closed)
  /\ Ref.redirect (Ref.env_at (Ref.t0 + 1)) Ref.code1 Ref.app1_closed
     = (http_Redirect "https://example.com/a" StatusMovedPermanently,
        go Ref.code1 Ref.app1_closed).
Proof.
  split; [reflexivity |].
  destruct (closed_database_responses Ref.url_Parse Ref.json_Marshal Ref.json_Unmarshal
              Ref.json_Decode 1 (Ref.env_at (Ref.t0 + 1)) (Ref.POST "example.com/b")
              Ref.app1_closed "example.com/b" Ref.code1 eq_refl)
    as (Hshorten & _ & Hhit).
  split.
  - apply Hshorten; [reflexivity | reflexivity | vm_compute; reflexivity | lia].
  - apply Hhit; [discriminate | vm_compute; reflexivity].
Defined.

Lemma reachable_never_server_error_witness :
  Ref.shorten 1 (Ref.env_at Ref.t0) (Ref.POST "example.com/a") Ref.app0
  = Some (created_response "https://example.com/a" Ref.code1, Ref.app1)
  /\ opened (DB Ref.app0) = true /\ opened (DB Ref.app1) = true
  /\ created_response "https://example.com/a" Ref.code1
     <> WriteJSON StatusInternalServerError (EncodeError {| Error := "server error" |})
  /\ forall k originalURL err,
       generateShortCode 1 (Ref.env_at Ref.t0) k Ref.app0 originalURL <> Some (Err err).
Proof.
  assert (Hrun : Ref.shorten 1 (Ref.env_at Ref.t0) (Ref.POST "example.com/a") Ref.app0
                 = Some (created_response "https://example.com/a" Ref.code1, Ref.app1))
    by (vm_compute; reflexivity).
  split; [exact Hrun |].
  exact (reachable_never_server_error Ref.url_Parse Ref.json_Marshal Ref.json_Unmarshal
           Ref.json_Decode 1 (Ref.env_at Ref.t0) (Ref.POST "example.com/a") Ref.app0
           (created_response "https://example.com/a" Ref.code1) Ref.app1
           reachable_app0 Hrun).
Defined.

(** The janitor runs ten minutes after [t0], a lookup follows. *)
Lemma janitor_unobservable_witness :
  let swept := Ref.t0 + 2 * defaultExpiration in
  (forall k, cache_Get k (swept + 1) (cache_DeleteExpired swept (Cache Ref.app1))
             = cache_Get k (swept + 1) (Cache Ref.app1))
  /\ fst (Ref.redirect (Ref.env_at (swept + 1)) Ref.code1
            (set_Cache (cache_DeleteExpired swept (Cache Ref.app1)) Ref.app1))
     = fst (Ref.redirect (Ref.env_at (swept + 1)) Ref.code1 Ref.app1).
Proof.
  intros swept.
  apply (janitor_unobservable Ref.json_Unmarshal swept (swept + 1)
           (Ref.env_at (swept + 1)) Ref.code1 Ref.app1).
  - lia.
  - simpl. lia.
Defined.

Lemma goroutine_without_record_witness :
  record_at Ref.json_Unmarshal Ref.app1 "zzzzzzzz" = None
  /\ DB (clickGoroutine Ref.json_Marshal Ref.json_Unmarshal None "zzzzzzzz" Ref.app1)
     = DB Ref.app1.
Proof.
  assert (Hnone : record_at Ref.json_Unmarshal Ref.app1 "zzzzzzzz" = None)
    by (vm_compute; reflexivity).
  split; [exact Hnone |].
  exact (goroutine_without_record Ref.json_Marshal Ref.json_Unmarshal None "zzzzzzzz"
           Ref.app1 Hnone).
Defined.

Lemma shorten_creates_record_witness :
  urls_bucket Ref.app0 !! Ref.code1 = None
  /\ record_at Ref.json_Unmarshal Ref.app1 Ref.code1 = Some Ref.url1
  /\ reverse_bucket Ref.app1 !! "https://example.com/a" = Some Ref.code1
  /\ Cache Ref.app1 = cache_Set Ref.code1 "https://example.com/a" Ref.t0 (Cache Ref.app0)
  /\ Log Ref.app1 = Log Ref.app0 /\ Goroutines Ref.app1 = Goroutines Ref.app0.
Proof.
  assert (Hnone : urls_bucket Ref.app0 !! Ref.code1 = None) by (vm_compute; reflexivity).
  split; [exact Hnone |].
  destruct (shorten_creates_record Ref.url_Parse Ref.json_Marshal Ref.json_Unmarshal
              Ref.json_Decode RefFacts.marshal_unmarshal 1 (Ref.env_at Ref.t0)
              (Ref.POST "example.com/a") Ref.app0
              (created_response "https://example.com/a" Ref.code1) Ref.app1
              {| ShortURL := shortURL_of Ref.code1;
                 resp_OriginalURL := "https://example.com/a";
                 resp_ShortCode := Ref.code1 |}
              reachable_app0 ltac:(vm_compute; reflexivity) eq_refl) as [_ Hnew].
  destruct (Hnew Hnone) as (Hrec & Hrev & Hcache & _ & _ & Hlog & Hgo).
  repeat split; assumption.
Defined.

Lemma shorten_codes_match_route_witness :
  Ref.shorten 1 (Ref.env_at Ref.t0) (Ref.POST "example.com/a") Ref.app0
  = Some (created_response "https://example.com/a" Ref.code1, Ref.app1)
  /\ matches_shortCode_route Ref.code1 = true
  /\ String.length Ref.code1 = 8%nat
  /\ Forall (fun a => In a generated_alphabet) (list_ascii_of_string Ref.code1).
Proof.
  assert (Hrun : Ref.shorten 1 (Ref.env_at Ref.t0) (Ref.POST "example.com/a") Ref.app0
                 = Some (created_response "https://example.com/a" Ref.code1, Ref.app1))
    by (vm_compute; reflexivity).
  split; [exact Hrun |].
  exact (shorten_codes_match_route Ref.url_Parse Ref.json_Marshal Ref.json_Unmarshal
           Ref.json_Decode RefFacts.marshal_unmarshal 1 (Ref.env_at Ref.t0)
           (Ref.POST "example.com/a") Ref.app0
           (created_response "https://example.com/a" Ref.code1) Ref.app1
           {| ShortURL := shortURL_of Ref.code1;
              resp_OriginalURL := "https://example.com/a";
              resp_ShortCode := Ref.code1 |}
           reachable_app0 Hrun eq_refl).
Defined.

Lemma shorten_oversized_url_witness :
  MaxKeySize < Z.of_nat (String.length (normalizeURL Ref.long_url))
  /\ isValidURL Ref.url_Parse (normalizeURL Ref.long_url) = true
  /\ exists line,
       Ref.shorten 1 (Ref.env_at Ref.t0) (Ref.POST Ref.long_url) Ref.app0
       = Some (WriteJSON StatusInternalServerError
                 (EncodeError {| Error := "failed to save url" |}),
               log_Printf line Ref.app0).
Proof.
  assert (Hlong : MaxKeySize < Z.of_nat (String.length (normalizeURL Ref.long_url)))
    by (vm_compute; reflexivity).
  assert (Hvalid : isValidURL Ref.url_Parse (normalizeURL Ref.long_url) = true)
    by (vm_compute; reflexivity).
  split; [exact Hlong |]. split; [exact Hvalid |].
  assert (Hgen : generateShortCode 1 (Ref.env_at Ref.t0) 0 Ref.app0
                   (normalizeURL Ref.long_url) = Some (Ok "05301XJL"))
    by (vm_compute; reflexivity).
  exact (shorten_oversized_url Ref.url_Parse Ref.json_Marshal Ref.json_Unmarshal
           Ref.json_Decode RefFacts.marshal_unmarshal 1 (Ref.env_at Ref.t0)
           (Ref.POST Ref.long_url) Ref.app0 Ref.long_url "05301XJL" reachable_app0
           eq_refl (RefFacts.json_Decode_body Ref.long_url) Hvalid Hlong Hgen).
Defined.



(** Three resolves of [code1] answered back to back, then the three
    goroutines. *)
Lemma click_count_settled_late_witness :
  let envs := [Ref.env_at (Ref.t0 + 1); Ref.env_at (Ref.t0 + 2 * defaultExpiration);
               Ref.env_at (Ref.t0 + 2 * defaultExpiration + 1)] in
  Goroutines (resolve_all Ref.json_Unmarshal envs Ref.code1 Ref.app1)
  = [Ref.code1; Ref.code1; Ref.code1]
  /\ Goroutines (settle Ref.json_Marshal Ref.json_Unmarshal None
                   (resolve_all Ref.json_Unmarshal envs Ref.code1 Ref.app1)) = []
  /\ record_at Ref.json_Unmarshal
       (settle Ref.json_Marshal Ref.json_Unmarshal None
          (resolve_all Ref.json_Unmarshal envs Ref.code1 Ref.app1)) Ref.code1
     = Some (set_ClickCount 3 Ref.url1).
Proof.
  intros envs.
  apply (click_count_settled_late Ref.json_Marshal Ref.json_Unmarshal
           RefFacts.marshal_unmarshal RefFacts.marshal_any_count
           envs Ref.code1 Ref.app1 Ref.json1 Ref.url1).
  - reflexivity.
  - reflexivity.
  - vm_compute. reflexivity.
  - reflexivity.
  - discriminate.
  - exact valid_key_code1.
  - simpl. lia.
  - vm_compute. discriminate.
Defined.

Lemma new_code_cache_window_witness :
  urls_bucket Ref.app0 !! Ref.code1 = None
  /\ Ref.redirect (Ref.env_at (Ref.t0 + defaultExpiration)) Ref.code1 Ref.app1
     = (http_Redirect "https://example.com/a" StatusMovedPermanently,
        go Ref.code1 Ref.app1)
  /\ Ref.redirect (Ref.env_at (Ref.t0 + defaultExpiration + 1)) Ref.code1 Ref.app1
     = (http_Redirect "https://example.com/a" StatusMovedPermanently,
        go Ref.code1
          (set_Cache (cache_Set Ref.code1 "https://example.com/a"
                        (Ref.t0 + defaultExpiration + 1) (Cache Ref.app1)) Ref.app1)).
Proof.
  assert (Hnone : urls_bucket Ref.app0 !! Ref.code1 = None) by (vm_compute; reflexivity).
  assert (Hrun : Ref.shorten 1 (Ref.env_at Ref.t0) (Ref.POST "example.com/a") Ref.app0
                 = Some (created_response "https://example.com/a" Ref.code1, Ref.app1))
    by (vm_compute; reflexivity).
  split; [exact Hnone |]. split.
  - apply (new_code_cache_window Ref.url_Parse Ref.json_Marshal Ref.json_Unmarshal
             Ref.json_Decode RefFacts.marshal_unmarshal 1 (Ref.env_at Ref.t0)
             (Ref.POST "example.com/a") Ref.app0
             (created_response "https://example.com/a" Ref.code1) Ref.app1
             {| ShortURL := shortURL_of Ref.code1;
                resp_OriginalURL := "https://example.com/a";
                resp_ShortCode := Ref.code1 |}
             (Ref.env_at (Ref.t0 + defaultExpiration)) reachable_app0 Hrun eq_refl Hnone).
    simpl. lia.
  - apply (new_code_cache_window Ref.url_Parse Ref.json_Marshal Ref.json_Unmarshal
             Ref.json_Decode RefFacts.marshal_unmarshal 1 (Ref.env_at Ref.t0)
             (Ref.POST "example.com/a") Ref.app0
             (created_response "https://example.com/a" Ref.code1) Ref.app1
             {| ShortURL := shortURL_of Ref.code1;
                resp_OriginalURL := "https://example.com/a";
                resp_ShortCode := Ref.code1 |}
             (Ref.env_at (Ref.t0 + defaultExpiration + 1)) reachable_app0 Hrun eq_refl
             Hnone).
    vm_compute. split; reflexivity.
Defined.

(** The goroutine of [app2] commits: GET /355Y0JM0 is answered as before. *)
Lemma goroutine_keeps_redirect_witness :
  fst (Ref.redirect (Ref.env_at (Ref.t0 + 2)) Ref.code1 Ref.app3)
  = fst (Ref.redirect (Ref.env_at (Ref.t0 + 2)) Ref.code1 Ref.app2).
Proof.
  exact (goroutine_keeps_redirect Ref.json_Marshal Ref.json_Unmarshal
           RefFacts.marshal_unmarshal None 0 (Ref.env_at (Ref.t0 + 2)) Ref.code1 Ref.app2).
Defined.

